(** * Audit-log analyzer (audit-run.py): a shallow embedding and its properties

    The Python class [RancherAuditAnalyzer] is embedded function by function.
    Python [str] values are Rocq [string]s, one [ascii] per character; the
    dynamically typed values that [json.loads] produces are the inductive
    [json]; the analyzer object ([self]) is the record [analyzer], threaded
    through a small state-and-exception monad.  Three library functions are
    taken as parameters of the model: [json.loads], [urllib.parse.unquote]
    and [datetime.fromisoformat].  The one float the program computes, the
    overlap percentage, is a binary64 [float] of the kernel. *)

From Stdlib Require Import Floats.
From Stdlib Require Import String Ascii ZArith QArith List Lia Bool.
From stdpp Require Import base option list gmap strings.
From stdpp Require pretty.

Import ListNotations.
Local Open Scope string_scope.
Local Open Scope list_scope.
Local Open Scope nat_scope.

(** ** Python string primitives *)

Module PyStr.

(** [s.split(sep)] for a one-character separator: never the empty list. *)
Fixpoint split (sep : ascii) (s : string) : list string :=
  match s with
  | EmptyString => [EmptyString]
  | String c rest =>
      if Ascii.eqb c sep then EmptyString :: split sep rest
      else match split sep rest with
           | [] => [String c EmptyString]
           | hd :: tl => String c hd :: tl
           end
  end.

(** [s.split(sep, 1)]: the part before the first separator, and the part
    after it when there is one. *)
Fixpoint split_once (sep : ascii) (s : string) : string * option string :=
  match s with
  | EmptyString => (EmptyString, None)
  | String c rest =>
      if Ascii.eqb c sep then (EmptyString, Some rest)
      else let '(hd, tl) := split_once sep rest in (String c hd, tl)
  end.

Fixpoint lstrip (p : ascii -> bool) (s : string) : string :=
  match s with
  | EmptyString => EmptyString
  | String c rest => if p c then lstrip p rest else s
  end.

Fixpoint rstrip (p : ascii -> bool) (s : string) : string :=
  match s with
  | EmptyString => EmptyString
  | String c rest =>
      match rstrip p rest with
      | EmptyString => if p c then EmptyString else String c EmptyString
      | r => String c r
      end
  end.

(** [s.strip(chars)], the set of characters given as a predicate. *)
Definition strip (p : ascii -> bool) (s : string) : string :=
  rstrip p (lstrip p s).

(** The characters [str.isspace] accepts among the first 256 code points. *)
Definition isspace (c : ascii) : bool :=
  let n := nat_of_ascii c in
  ((9 <=? n) && (n <=? 13)) || ((28 <=? n) && (n <=? 32))
  || (n =? 133) || (n =? 160).

(** [s.startswith(p)]. *)
Fixpoint startswith (p s : string) : bool :=
  match p, s with
  | EmptyString, _ => true
  | String a p', String b s' => Ascii.eqb a b && startswith p' s'
  | String _ _, EmptyString => false
  end.

(** [p in s] for strings: [p] occurs in [s] at some position. *)
Fixpoint contains (p s : string) : bool :=
  startswith p s ||
  match s with
  | EmptyString => false
  | String _ s' => contains p s'
  end.

(** [c in s] for one character. *)
Fixpoint has_char (c : ascii) (s : string) : bool :=
  match s with
  | EmptyString => false
  | String a s' => Ascii.eqb a c || has_char c s'
  end.

(** [s.replace(c, by)] for a one-character pattern. *)
Fixpoint replace (c : ascii) (by_ : string) (s : string) : string :=
  match s with
  | EmptyString => EmptyString
  | String a s' =>
      if Ascii.eqb a c then String.append by_ (replace c by_ s')
      else String a (replace c by_ s')
  end.

(** [s[len(p):]] when [s] starts with [p]. *)
Fixpoint drop_prefix (p s : string) : option string :=
  match p, s with
  | EmptyString, _ => Some s
  | String a p', String b s' =>
      if Ascii.eqb a b then drop_prefix p' s' else None
  | String _ _, EmptyString => None
  end.

(** The longest prefix of characters satisfying [p], and the rest. *)
Fixpoint span (p : ascii -> bool) (s : string) : string * string :=
  match s with
  | EmptyString => (EmptyString, EmptyString)
  | String c rest =>
      if p c then let '(a, b) := span p rest in (String c a, b)
      else (EmptyString, s)
  end.

Definition is_empty (s : string) : bool :=
  match s with EmptyString => true | _ => false end.

(** [parts[i]]; used under the source's own length guards. *)
Definition item (i : nat) (parts : list string) : string :=
  nth i parts EmptyString.

End PyStr.

(** ** The URI classifier: [analyze_request_uri] and [is_watch_request] *)

(** A value of the flattened query dictionary: one string, or the list of a
    repeated key's values. *)
Inductive qvalue :=
  | QScalar (s : string)
  | QList (vs : list string).

(** The dictionary [resource_info]. *)
Record resource_info := {
  api_group : string;
  version : string;
  resource : string;
  namespaced : bool;
  namespace : option string;
  query_params : list (string * qvalue)
}.

Definition set_api_group (v : string) (r : resource_info) : resource_info :=
  {| api_group := v; version := version r; resource := resource r;
     namespaced := namespaced r; namespace := namespace r;
     query_params := query_params r |}.

Definition set_version (v : string) (r : resource_info) : resource_info :=
  {| api_group := api_group r; version := v; resource := resource r;
     namespaced := namespaced r; namespace := namespace r;
     query_params := query_params r |}.

Definition set_resource (v : string) (r : resource_info) : resource_info :=
  {| api_group := api_group r; version := version r; resource := v;
     namespaced := namespaced r; namespace := namespace r;
     query_params := query_params r |}.

Definition set_namespace (v : string) (r : resource_info) : resource_info :=
  {| api_group := api_group r; version := version r; resource := resource r;
     namespaced := namespaced r; namespace := Some v;
     query_params := query_params r |}.

Definition set_namespaced (v : bool) (r : resource_info) : resource_info :=
  {| api_group := api_group r; version := version r; resource := resource r;
     namespaced := v; namespace := namespace r;
     query_params := query_params r |}.

Definition set_query_params (v : list (string * qvalue)) (r : resource_info)
  : resource_info :=
  {| api_group := api_group r; version := version r; resource := resource r;
     namespaced := namespaced r; namespace := namespace r;
     query_params := v |}.

(** The literal the source starts from (before ['query_params'] is stored). *)
Definition default_info : resource_info :=
  {| api_group := "core"; version := "v1"; resource := "unknown";
     namespaced := false; namespace := None; query_params := [] |}.

(** [parts = uri.split('?')[0].strip('/').split('/')]. *)
Definition path_parts (uri : string) : list string :=
  PyStr.split "/" (PyStr.strip (Ascii.eqb "/") (PyStr.item 0 (PyStr.split "?" uri))).

(** The branch [parts[0] == 'api']. *)
Definition classify_core (parts : list string) (r : resource_info) : resource_info :=
  let r := set_api_group "core" r in
  let r := if 1 <? length parts then set_version (PyStr.item 1 parts) r else r in
  if 2 <? length parts then
    if String.eqb (PyStr.item 2 parts) "namespaces" && (3 <? length parts) then
      let r := set_namespace (PyStr.item 3 parts) r in
      let r := set_namespaced true r in
      if 4 <? length parts then set_resource (PyStr.item 4 parts) r
      else set_resource "namespaces" r
    else set_resource (PyStr.item 2 parts) r
  else r.

(** The branch [parts[0] == 'apis']. *)
Definition classify_apis (parts : list string) (r : resource_info) : resource_info :=
  if 2 <? length parts then
    let r := set_api_group (PyStr.item 1 parts) r in
    let r := set_version (PyStr.item 2 parts) r in
    if 3 <? length parts then
      if String.eqb (PyStr.item 3 parts) "namespaces" && (4 <? length parts) then
        let r := set_namespace (PyStr.item 4 parts) r in
        let r := set_namespaced true r in
        if 5 <? length parts then set_resource (PyStr.item 5 parts) r
        else r
      else set_resource (PyStr.item 3 parts) r
    else r
  else r.

Definition classify_path (parts : list string) : resource_info :=
  if 2 <=? length parts then
    if String.eqb (PyStr.item 0 parts) "api" then classify_core parts default_info
    else if String.eqb (PyStr.item 0 parts) "apis" then classify_apis parts default_info
    else default_info
  else default_info.

(** An insertion-ordered dictionary with string keys. *)
Fixpoint dict_get {V} (k : string) (d : list (string * V)) : option V :=
  match d with
  | [] => None
  | (k', v) :: d' => if String.eqb k' k then Some v else dict_get k d'
  end.

(** [d[k] = f(d[k])] for a present key, [d[k] = dflt] for a new one, which
    goes last. *)
Fixpoint dict_upsert {V} (k : string) (f : V -> V) (dflt : V)
  (d : list (string * V)) : list (string * V) :=
  match d with
  | [] => [(k, dflt)]
  | (k', v) :: d' =>
      if String.eqb k' k then (k', f v) :: d'
      else (k', v) :: dict_upsert k f dflt d'
  end.

Section Query.

(** [urllib.parse.unquote(s, encoding='utf-8', errors='replace')]. *)
Variable unquote : string -> string.

(** One field of the query string in [parse_qsl], with the defaults
    [keep_blank_values=False] and [strict_parsing=False]. *)
Definition parse_field (name_value : string) : list (string * string) :=
  if PyStr.is_empty name_value then []
  else match PyStr.split_once "=" name_value with
       | (_, None) => []
       | (name, Some value) =>
           if PyStr.is_empty value then []
           else [(unquote (PyStr.replace "+" " " name),
                  unquote (PyStr.replace "+" " " value))]
       end.

(** [urllib.parse.parse_qsl(qs)] with its default separator ['&'] (Python
    3.9.2 and later, where [';'] no longer separates fields). *)
Definition parse_qsl (qs : string) : list (string * string) :=
  flat_map parse_field (PyStr.split "&" qs).

(** [urllib.parse.parse_qs(qs)]: each name with the list of its values. *)
Definition parse_qs (qs : string) : list (string * list string) :=
  fold_left (fun d '(name, value) =>
               dict_upsert name (fun vs => vs ++ [value]) [value] d)
            (parse_qsl qs) [].

(** [{k: v[0] if len(v) == 1 else v for k, v in query_params.items()}]. *)
Definition flatten_single (d : list (string * list string))
  : list (string * qvalue) :=
  map (fun '(k, v) =>
         (k, match v with [x] => QScalar x | _ => QList v end)) d.

(** The block under [# Parse query parameters].  Its [try] has nothing to
    catch: called on a string with these defaults, [parse_qs] has no
    [raise] to reach, so [query_params] is always the flattened dictionary. *)
Definition parse_query (uri : string) : list (string * qvalue) :=
  if PyStr.has_char "?" uri
  then flatten_single (parse_qs (PyStr.item 1 (PyStr.split "?" uri)))
  else [].

Definition analyze_request_uri (uri : string) : resource_info :=
  set_query_params (parse_query uri) (classify_path (path_parts uri)).

End Query.

Definition is_watch_request (uri : string) : bool :=
  PyStr.contains "watch=true" uri.

(** ** The tenant attributor: [extract_cluster_id] on a user name *)

Definition not_colon (c : ascii) : bool := negb (Ascii.eqb c ":").

(** [cattle-system-([^:]+):cattle-([^:]+)] matched at the start of [s]: the
    two groups.  A group is the whole run of non-colon characters: a shorter
    one is followed by a non-colon, where the pattern wants [':'] or ends. *)
Definition cattle_match_here (s : string) : option (string * string) :=
  match PyStr.drop_prefix "cattle-system-" s with
  | None => None
  | Some r1 =>
      let '(g1, r2) := PyStr.span not_colon r1 in
      if PyStr.is_empty g1 then None
      else match PyStr.drop_prefix ":cattle-" r2 with
           | None => None
           | Some r3 =>
               let '(g2, _) := PyStr.span not_colon r3 in
               if PyStr.is_empty g2 then None else Some (g1, g2)
           end
  end.

(** [re.search]: the leftmost position where the pattern matches. *)
Fixpoint cattle_search (s : string) : option (string * string) :=
  match cattle_match_here s with
  | Some g => Some g
  | None => match s with
            | EmptyString => None
            | String _ s' => cattle_search s'
            end
  end.

(** [extract_cluster_id] once [username] is known to be a string. *)
Definition cluster_id_of_username (username : string) : string :=
  match cattle_search username with
  | Some (g1, _) => String.append "rancher-" g1
  | None =>
      if String.eqb username "kwok-admin" || String.eqb username "system:apiserver"
         || PyStr.startswith "system:" username
      then "kwok-system"
      else "unknown"
  end.

(** ** Values decoded by [json.loads] *)

(** A Python [float]: a finite value (the rational it denotes), an infinity
    or a NaN ([json.loads] accepts [Infinity] and [NaN]). *)
Inductive pyfloat :=
  | FFin (q : Q)
  | FInf (negative : bool)
  | FNan.

#[warnings="-register-all"]
Inductive json :=
  | JNull
  | JBool (b : bool)
  | JInt (z : Z)
  | JFloat (f : pyfloat)
  | JStr (s : string)
  | JArr (items : list json)
  | JObj (fields : list (string * json)).

(** The exceptions the analysis can raise: on decoded data, and out of
    [json.loads]. *)
Inductive exn :=
  | AttributeError
  | TypeError
  | ValueError
  | RecursionError.

Inductive result (A : Type) :=
  | Ok (a : A)
  | Raise (e : exn).
Arguments Ok {A} a.
Arguments Raise {A} e.

(** What [json.loads] does on a line: it returns the decoded value, it raises
    [json.JSONDecodeError], or it raises something else ([RecursionError] on
    a line nested too deeply, [ValueError] on an integer literal longer than
    the conversion limit). *)
Inductive loads_result :=
  | Decoded (v : json)
  | JSONDecodeError
  | LoadsError (e : exn).

(** Python truth value ([if entry:], [if not entry:]). *)
Definition py_truthy (v : json) : bool :=
  match v with
  | JNull => false
  | JBool b => b
  | JInt z => negb (Z.eqb z 0)
  | JFloat (FFin q) => negb (Qeq_bool q 0)
  | JFloat _ => true
  | JStr s => negb (PyStr.is_empty s)
  | JArr items => match items with [] => false | _ => true end
  | JObj fields => match fields with [] => false | _ => true end
  end.

(** [hash(v)] succeeds: lists and dictionaries are unhashable. *)
Definition py_hashable (v : json) : bool :=
  match v with
  | JArr _ | JObj _ => false
  | _ => true
  end.

(** The number a value counts as in a comparison ([True == 1 == 1.0]). *)
Definition py_number (v : json) : option pyfloat :=
  match v with
  | JBool b => Some (FFin (if b then 1 else 0)%Q)
  | JInt z => Some (FFin (inject_Z z))
  | JFloat f => Some f
  | _ => None
  end.

(** Two decoded numbers are the same dictionary key.  A dictionary compares
    a key by identity before it tries [==], and [json.loads] returns its one
    module-level object for every [NaN] it decodes: although [nan != nan],
    two decoded NaNs are the same key. *)
Definition pyfloat_eqb (a b : pyfloat) : bool :=
  match a, b with
  | FFin p, FFin q => Qeq_bool p q
  | FInf m, FInf n => Bool.eqb m n
  | FNan, FNan => true
  | _, _ => false
  end.

(** [k' is k or k' == k] on two decoded values used as dictionary keys
    ([True], [1] and [1.0] are one key). *)
Definition py_key_eq (a b : json) : bool :=
  match py_number a, py_number b with
  | Some x, Some y => pyfloat_eqb x y
  | None, None =>
      match a, b with
      | JNull, JNull => true
      | JStr s, JStr t => String.eqb s t
      | _, _ => false
      end
  | _, _ => false
  end.

(** [v == s] for a string literal [s]. *)
Definition py_eq_str (v : json) (s : string) : bool :=
  match v with
  | JStr t => String.eqb t s
  | _ => false
  end.

(** [d.get(k, dflt)]: only a dictionary has [get]. *)
Definition py_get (d : json) (k : string) (dflt : json) : result json :=
  match d with
  | JObj fields => Ok (default dflt (dict_get k fields))
  | _ => Raise AttributeError
  end.

(** ** Parsed timestamps *)

(** A [datetime]: microseconds on its own time line (UTC when it carries an
    offset, wall clock when it is naive) and the UTC offset, if any. *)
Record datetime := {
  instant : Z;
  utcoffset : option Z
}.

(** [a < b]; a naive and an aware [datetime] cannot be ordered. *)
Definition dt_lt (a b : datetime) : result bool :=
  match utcoffset a, utcoffset b with
  | None, None | Some _, Some _ => Ok (Z.ltb (instant a) (instant b))
  | _, _ => Raise TypeError
  end.

(** ** The analyzer's state *)

(** The dictionary [request_data]. *)
Record request_data := {
  rd_timestamp : json;
  rd_parsed_timestamp : option datetime;
  rd_uri : string;
  rd_verb : json;
  rd_resource_info : resource_info;
  rd_user : json;
  rd_user_agent : json;
  rd_stage : json
}.

(** One value of [self.clusters]. *)
Record cluster_data := {
  requests : list request_data;
  endpoints : gmap string nat;
  verbs : list (json * nat);
  resources : gmap string nat;
  watch_streams : list request_data;
  namespaces_accessed : gset string;
  first_seen : option datetime;
  last_seen : option datetime
}.

(** The [defaultdict]'s factory. *)
Definition new_cluster : cluster_data :=
  {| requests := []; endpoints := ∅; verbs := []; resources := ∅;
     watch_streams := []; namespaces_accessed := ∅;
     first_seen := None; last_seen := None |}.

(** [self]: [clusters] keeps the insertion order of its keys. *)
Record analyzer := {
  clusters : list (string * cluster_data);
  system_requests : list request_data;
  total_requests : nat
}.

(** [RancherAuditAnalyzer()]. *)
Definition init : analyzer :=
  {| clusters := []; system_requests := []; total_requests := 0 |}.

(** [d[k]] of a [defaultdict]: a missing key is inserted, last. *)
Fixpoint dict_setdefault {V} (k : string) (dflt : V) (d : list (string * V))
  : list (string * V) :=
  match d with
  | [] => [(k, dflt)]
  | (k', v) :: d' =>
      if String.eqb k' k then d else (k', v) :: dict_setdefault k dflt d'
  end.

(** In-place change of the value under a present key. *)
Fixpoint dict_alter {V} (k : string) (f : V -> V) (d : list (string * V))
  : list (string * V) :=
  match d with
  | [] => []
  | (k', v) :: d' =>
      if String.eqb k' k then (k', f v) :: d' else (k', v) :: dict_alter k f d'
  end.

(** [c[k] += 1] on a [Counter] with string keys. *)
Definition counter_incr (k : string) (c : gmap string nat) : gmap string nat :=
  <[k := S (default 0 (c !! k))]> c.

(** [c[k] += 1] on a [Counter] whose keys are decoded values. *)
Fixpoint counter_incr_json (k : json) (c : list (json * nat)) : list (json * nat) :=
  match c with
  | [] => [(k, 1)]
  | (k', n) :: c' =>
      if py_key_eq k' k then (k', S n) :: c' else (k', n) :: counter_incr_json k c'
  end.

(** ** A state-and-exception monad for the methods of the analyzer

    A computation returns its outcome together with the state it leaves, also
    when it raises: what was mutated before the exception stays mutated. *)

Definition M (A : Type) : Type := analyzer -> result A * analyzer.

Definition ret {A} (a : A) : M A := fun st => (Ok a, st).

Definition bind {A B} (m : M A) (k : A -> M B) : M B :=
  fun st => match m st with
            | (Ok a, st') => k a st'
            | (Raise e, st') => (Raise e, st')
            end.

Definition lift {A} (r : result A) : M A := fun st => (r, st).

Definition modify (f : analyzer -> analyzer) : M unit := fun st => (Ok tt, f st).

Definition gets {A} (f : analyzer -> A) : M A := fun st => (Ok (f st), st).

Declare Scope py_scope.
Delimit Scope py_scope with py.
Notation "x <- m ;; k" := (bind m (fun x => k))
  (at level 100, m at next level, k at level 200, only parsing) : py_scope.
Notation "m ;; k" := (bind m (fun _ => k))
  (at level 100, k at level 200, only parsing) : py_scope.
Local Open Scope py_scope.

Definition set_clusters (c : list (string * cluster_data)) (st : analyzer) : analyzer :=
  {| clusters := c; system_requests := system_requests st;
     total_requests := total_requests st |}.

(** [self.total_requests += 1]. *)
Definition incr_total (st : analyzer) : analyzer :=
  {| clusters := clusters st; system_requests := system_requests st;
     total_requests := S (total_requests st) |}.

(** [self.system_requests.append(request_data)]. *)
Definition append_system (rd : request_data) (st : analyzer) : analyzer :=
  {| clusters := clusters st; system_requests := system_requests st ++ [rd];
     total_requests := total_requests st |}.

(** [cluster_data = self.clusters[cluster_id]]: the entry is created when
    missing; the value read is the one later statements mutate in place. *)
Definition cluster_ref (cid : string) : M cluster_data :=
  modify (fun st => set_clusters (dict_setdefault cid new_cluster (clusters st)) st) ;;
  gets (fun st => default new_cluster (dict_get cid (clusters st))).

(** A mutation of the object [cluster_data] refers to. *)
Definition mutate (cid : string) (f : cluster_data -> cluster_data) : M unit :=
  modify (fun st => set_clusters (dict_alter cid f (clusters st)) st).

Definition add_request (rd : request_data) (d : cluster_data) : cluster_data :=
  {| requests := requests d ++ [rd]; endpoints := endpoints d; verbs := verbs d;
     resources := resources d; watch_streams := watch_streams d;
     namespaces_accessed := namespaces_accessed d;
     first_seen := first_seen d; last_seen := last_seen d |}.

Definition count_endpoint (k : string) (d : cluster_data) : cluster_data :=
  {| requests := requests d; endpoints := counter_incr k (endpoints d);
     verbs := verbs d; resources := resources d;
     watch_streams := watch_streams d;
     namespaces_accessed := namespaces_accessed d;
     first_seen := first_seen d; last_seen := last_seen d |}.

Definition count_verb (k : json) (d : cluster_data) : cluster_data :=
  {| requests := requests d; endpoints := endpoints d;
     verbs := counter_incr_json k (verbs d); resources := resources d;
     watch_streams := watch_streams d;
     namespaces_accessed := namespaces_accessed d;
     first_seen := first_seen d; last_seen := last_seen d |}.

Definition count_resource (k : string) (d : cluster_data) : cluster_data :=
  {| requests := requests d; endpoints := endpoints d; verbs := verbs d;
     resources := counter_incr k (resources d);
     watch_streams := watch_streams d;
     namespaces_accessed := namespaces_accessed d;
     first_seen := first_seen d; last_seen := last_seen d |}.

Definition add_namespace (ns : string) (d : cluster_data) : cluster_data :=
  {| requests := requests d; endpoints := endpoints d; verbs := verbs d;
     resources := resources d; watch_streams := watch_streams d;
     namespaces_accessed := namespaces_accessed d ∪ {[ns]};
     first_seen := first_seen d; last_seen := last_seen d |}.

Definition add_watch (rd : request_data) (d : cluster_data) : cluster_data :=
  {| requests := requests d; endpoints := endpoints d; verbs := verbs d;
     resources := resources d; watch_streams := watch_streams d ++ [rd];
     namespaces_accessed := namespaces_accessed d;
     first_seen := first_seen d; last_seen := last_seen d |}.

Definition set_first_seen (ts : datetime) (d : cluster_data) : cluster_data :=
  {| requests := requests d; endpoints := endpoints d; verbs := verbs d;
     resources := resources d; watch_streams := watch_streams d;
     namespaces_accessed := namespaces_accessed d;
     first_seen := Some ts; last_seen := last_seen d |}.

Definition set_last_seen (ts : datetime) (d : cluster_data) : cluster_data :=
  {| requests := requests d; endpoints := endpoints d; verbs := verbs d;
     resources := resources d; watch_streams := watch_streams d;
     namespaces_accessed := namespaces_accessed d;
     first_seen := first_seen d; last_seen := Some ts |}.

(** ** [extract_cluster_id], [analyze_entry], [analyze_file] *)

(** [extract_cluster_id(user_info)]: [user_info.get] needs a dictionary and
    [re.search] a string. *)
Definition extract_cluster_id (user_info : json) : result string :=
  match py_get user_info "username" (JStr "") with
  | Raise e => Raise e
  | Ok (JStr username) => Ok (cluster_id_of_username username)
  | Ok _ => Raise TypeError
  end.

(** [stage in ['ResponseComplete', 'ResponseStarted']]. *)
Definition stage_analyzed (stage : json) : bool :=
  py_eq_str stage "ResponseComplete" || py_eq_str stage "ResponseStarted".

Section Analysis.

(** [json.loads]. *)
Variable json_loads : string -> loads_result.
Variable unquote : string -> string.
(** [datetime.fromisoformat]: [None] is [ValueError]. *)
Variable fromisoformat : string -> option datetime.

(** [parse_log_line]: Python's [None] is [JNull].  The [except] clause names
    [json.JSONDecodeError] only: any other exception of [json.loads] leaves
    the method. *)
Definition parse_log_line (line : string) : result json :=
  match json_loads (PyStr.strip PyStr.isspace line) with
  | Decoded v => Ok v
  | JSONDecodeError => Ok JNull
  | LoadsError e => Raise e
  end.

(** [analyze_request_uri] on a decoded value: [uri.split] needs a string. *)
Definition analyze_request_uri_of (uri : json) : result (string * resource_info) :=
  match uri with
  | JStr u => Ok (u, analyze_request_uri unquote u)
  | _ => Raise AttributeError
  end.

(** The [try] around [datetime.fromisoformat(timestamp.replace('Z', '+00:00'))]:
    any failure, also [replace] missing on a non-string, gives [None]. *)
Definition parse_timestamp (timestamp : json) : option datetime :=
  match timestamp with
  | JStr t => fromisoformat (PyStr.replace "Z" "+00:00" t)
  | _ => None
  end.

(** The block under [if ts:]. *)
Definition update_seen (cid : string) (ts : datetime) : M unit :=
  d <- cluster_ref cid ;;
  earlier <- match first_seen d with
             | None => ret true
             | Some f => lift (dt_lt ts f)
             end ;;
  (if earlier then mutate cid (set_first_seen ts) else ret tt) ;;
  d <- cluster_ref cid ;;
  later <- match last_seen d with
           | None => ret true
           | Some l => lift (dt_lt l ts)
           end ;;
  if later then mutate cid (set_last_seen ts) else ret tt.

(** The [else] branch of [if cluster_id == 'kwok-system']. *)
Definition record_request (cid uri : string) (verb : json)
  (info : resource_info) (ts : option datetime) (rd : request_data) : M unit :=
  cluster_ref cid ;;
  mutate cid (add_request rd) ;;
  mutate cid (count_endpoint (PyStr.item 0 (PyStr.split "?" uri))) ;;
  (if py_hashable verb then mutate cid (count_verb verb)
   else lift (Raise TypeError)) ;;
  mutate cid (count_resource
                (String.append (api_group info)
                   (String.append "/" (resource info)))) ;;
  match namespace info with
  | Some ns =>
      if PyStr.is_empty ns then ret tt else mutate cid (add_namespace ns)
  | None => ret tt
  end ;;
  (if is_watch_request uri then mutate cid (add_watch rd) else ret tt) ;;
  match ts with
  | Some t => update_seen cid t
  | None => ret tt
  end.

Definition analyze_entry (entry : json) : M unit :=
  if negb (py_truthy entry) then ret tt
  else
    modify incr_total ;;
    timestamp <- lift (py_get entry "requestReceivedTimestamp" JNull) ;;
    user <- lift (py_get entry "user" (JObj [])) ;;
    uri <- lift (py_get entry "requestURI" (JStr "")) ;;
    verb <- lift (py_get entry "verb" (JStr "")) ;;
    stage <- lift (py_get entry "stage" (JStr "")) ;;
    if negb (stage_analyzed stage) then ret tt
    else
      cluster_id <- lift (extract_cluster_id user) ;;
      classified <- lift (analyze_request_uri_of uri) ;;
      let '(u, info) := classified in
      let ts := parse_timestamp timestamp in
      username <- lift (py_get user "username" (JStr "")) ;;
      user_agent <- lift (py_get entry "userAgent" (JStr "")) ;;
      let rd := {| rd_timestamp := timestamp; rd_parsed_timestamp := ts;
                   rd_uri := u; rd_verb := verb; rd_resource_info := info;
                   rd_user := username; rd_user_agent := user_agent;
                   rd_stage := stage |} in
      if String.eqb cluster_id "kwok-system" then modify (append_system rd)
      else record_request cluster_id u verb info ts rd.

(** The loop of [analyze_file] over the lines read from the file. *)
Fixpoint analyze_file (lines : list string) : M unit :=
  match lines with
  | [] => ret tt
  | line :: rest =>
      entry <- lift (parse_log_line line) ;;
      (if py_truthy entry then analyze_entry entry else ret tt) ;;
      analyze_file rest
  end.

End Analysis.

(** ** Floats: the overlap percentage and its rendering

    A Python [float] is an IEEE 754 binary64, the kernel's [float]. *)

(** The [float] of a length.  The conversion is exact below [2^53]; the
    lengths converted are those of sets of strings held in memory, far below
    that. *)
Definition float_of_len (n : nat) : float :=
  PrimFloat.of_uint63 (Uint63.of_Z (Z.of_nat n)).

(** [len(overlap) / len(union) * 100]: [/] on two [int]s is the correctly
    rounded quotient, which for operands below [2^53] is the binary64 quotient
    of their floats; [* 100] multiplies by the float of [100].  The source
    evaluates it only where [len(overlap) > 5], so the divisor is not zero
    and [ZeroDivisionError] cannot be raised. *)
Definition overlap_percent (overlap union : nat) : float :=
  PrimFloat.mul (PrimFloat.div (float_of_len overlap) (float_of_len union))
    (float_of_len 100).

(** [n / d] rounded to the nearest integer, a tie to the even one ([0 < d]). *)
Definition round_half_even (n d : Z) : Z :=
  let q := (n / d)%Z in
  let r := (2 * (n mod d))%Z in
  if (r <? d)%Z then q
  else if (d <? r)%Z then (q + 1)%Z
  else if Z.even q then q else (q + 1)%Z.

(** [format(x, '.1f')], the format spec of [{overlap_pct:.1f}]: the exact
    value of the float, correctly rounded to one decimal. *)
Definition format_1f (x : float) : string :=
  match Prim2SF x with
  | S754_nan => "nan"
  | S754_infinity s => if s then "-inf" else "inf"
  | S754_zero s => if s then "-0.0" else "0.0"
  | S754_finite s m e =>
      let tenths :=
        match e with
        | Zneg p => round_half_even (10 * Zpos m) (2 ^ Zpos p)
        | _ => (10 * Zpos m * 2 ^ e)%Z
        end in
      (if s then "-" else "")
      +:+ pretty.pretty (Z.to_N (tenths / 10)) +:+ "."
      +:+ pretty.pretty (Z.to_N (tenths mod 10))
  end.

(** [sep.join(parts)] for a separator of any length. *)
Fixpoint join_with (sep : string) (parts : list string) : string :=
  match parts with
  | [] => EmptyString
  | [x] => x
  | x :: rest => x +:+ sep +:+ join_with sep rest
  end.

(** ** The isolation analyzer: [detect_issues] *)

(** One entry of [issues], as the values its f-string is built from;
    [issue_text] below is the string the source appends. *)
Inductive issue :=
  | NamespaceIssue (ns : string) (accessing_clusters : list string)
  | EndpointIssue (overlap_pct : float) (cluster1 cluster2 : string).

(** The two f-strings of [detect_issues]. *)
Definition issue_text (i : issue) : string :=
  match i with
  | NamespaceIssue ns accessing_clusters =>
      "Namespace '" +:+ ns +:+ "' accessed by multiple clusters: "
      +:+ join_with ", " accessing_clusters
  | EndpointIssue overlap_pct cluster1 cluster2 =>
      "High endpoint overlap (" +:+ format_1f overlap_pct +:+ "%) between "
      +:+ cluster1 +:+ " and " +:+ cluster2
  end.

(** [cluster_namespaces]. *)
Definition cluster_namespaces (cl : list (string * cluster_data))
  : list (string * gset string) :=
  map (fun '(cid, d) => (cid, namespaces_accessed d)) cl.

(** [all_namespaces]. *)
Definition all_namespaces (cl : list (string * cluster_data)) : gset string :=
  fold_left (fun acc '(_, d) => acc ∪ namespaces_accessed d) cl ∅.

(** The loop over [all_namespaces]; the order in which Python walks a set is
    not fixed by the language, the model walks [elements]. *)
Definition namespace_issues (cl : list (string * cluster_data)) : list issue :=
  flat_map
    (fun ns =>
       let accessing_clusters :=
         map fst (List.filter (fun p => bool_decide (ns ∈ snd p)) (cluster_namespaces cl)) in
       if 1 <? length accessing_clusters
       then [NamespaceIssue ns accessing_clusters] else [])
    (elements (all_namespaces cl)).

(** [endpoint_sets]. *)
Definition endpoint_sets (cl : list (string * cluster_data))
  : list (string * gset string) :=
  map (fun '(cid, d) => (cid, dom (endpoints d))) cl.

(** The body of the inner loop for the pair [cluster1], [cluster2]. *)
Definition overlap_issue (es : list (string * gset string))
  (cluster1 cluster2 : string) : list issue :=
  let s1 := default ∅ (dict_get cluster1 es) in
  let s2 := default ∅ (dict_get cluster2 es) in
  let overlap := s1 ∩ s2 in
  if 5 <? size overlap
  then [EndpointIssue (overlap_percent (size overlap) (size (s1 ∪ s2)))
          cluster1 cluster2]
  else [].

(** [for i, cluster1 in enumerate(cluster_ids): for cluster2 in cluster_ids[i+1:]]. *)
Fixpoint endpoint_issues (es : list (string * gset string))
  (cluster_ids : list string) : list issue :=
  match cluster_ids with
  | [] => []
  | cluster1 :: rest =>
      flat_map (overlap_issue es cluster1) rest ++ endpoint_issues es rest
  end.

(** The list [issues] that [detect_issues] builds before printing it. *)
Definition detect_issues (st : analyzer) : list issue :=
  if 1 <? length (clusters st) then
    namespace_issues (clusters st)
    ++ endpoint_issues (endpoint_sets (clusters st))
         (map fst (endpoint_sets (clusters st)))
  else [].

(** The strings of [issues]. *)
Definition issues (st : analyzer) : list string :=
  map issue_text (detect_issues st).

(** ** The activity period in [print_summary] *)

(** [a - b] on two [datetime]s, in microseconds; a naive and an aware one
    cannot be subtracted. *)
Definition dt_sub (a b : datetime) : result Z :=
  match utcoffset a, utcoffset b with
  | None, None | Some _, Some _ => Ok (instant a - instant b)%Z
  | _, _ => Raise TypeError
  end.

(** [duration = data['last_seen'] - data['first_seen']], computed under
    [if data['first_seen'] and data['last_seen']]; [None] when the guard
    fails and nothing is computed. *)
Definition activity_duration (d : cluster_data) : option (result Z) :=
  match first_seen d, last_seen d with
  | Some f, Some l => Some (dt_sub l f)
  | _, _ => None
  end.

(** ** The system counters in [print_summary] *)

(** The loop [for req in self.system_requests] that fills [system_endpoints]
    and [system_verbs]; a verb that cannot be hashed raises at
    [system_verbs[req['verb']] += 1]. *)
Fixpoint count_system (reqs : list request_data)
  (acc : gmap string nat * list (json * nat))
  : result (gmap string nat * list (json * nat)) :=
  match reqs with
  | [] => Ok acc
  | req :: rest =>
      let system_endpoints :=
        counter_incr (PyStr.item 0 (PyStr.split "?" (rd_uri req))) (fst acc) in
      if py_hashable (rd_verb req)
      then count_system rest
             (system_endpoints, counter_incr_json (rd_verb req) (snd acc))
      else Raise TypeError
  end.

(** The block under [if self.system_requests:]; [None] when the guard fails
    and nothing is computed. *)
Definition system_counters (st : analyzer)
  : option (result (gmap string nat * list (json * nat))) :=
  match system_requests st with
  | [] => None
  | reqs => Some (count_system reqs (∅, []))
  end.

(** * Vocabulary of the properties *)

(** [sep.join(parts)]. *)
Fixpoint join (sep : ascii) (parts : list string) : string :=
  match parts with
  | [] => EmptyString
  | [x] => x
  | x :: rest => x +:+ String sep (join sep rest)
  end.

(** A field of a query string that assigns a non-empty value: it has an
    ['='] and text after the first one. *)
Definition field_assigns (name_value : string) : bool :=
  match PyStr.split_once "=" name_value with
  | (_, Some value) => negb (PyStr.is_empty value)
  | (_, None) => false
  end.

(** The text [uri.split('?')[1]] the query dictionary is parsed from. *)
Definition query_string (uri : string) : string :=
  PyStr.item 1 (PyStr.split "?" uri).

(** Every field that describes the path is at its default. *)
Definition path_defaults (info : resource_info) : Prop :=
  api_group info = "core" /\ version info = "v1" /\ resource info = "unknown"
  /\ namespaced info = false /\ namespace info = None.

(** The requests that were attributed to a tenant or to the system. *)
Definition attributed (st : analyzer) : nat :=
  length (system_requests st)
  + list_sum (map (fun p => length (requests (snd p))) (clusters st)).

(** [first_seen <= last_seen] on two instants that can be compared, or both
    still [None]. *)
Definition seen_ok (d : cluster_data) : Prop :=
  match first_seen d, last_seen d with
  | None, None => True
  | Some f, Some l => dt_lt l f = Ok false
  | _, _ => False
  end.

(** The invariant of the aggregate state: the system sentinel is not a key of
    [clusters], and every profile has a well-formed time range. *)
Definition state_invariant (st : analyzer) : Prop :=
  Forall (fun p => fst p <> "kwok-system" /\ seen_ok (snd p)) (clusters st).

(** The time range of [d'] contains the one of [d]; a range that was empty
    is started with both ends equal. *)
Definition seen_widened (d d' : cluster_data) : Prop :=
  (forall f, first_seen d = Some f ->
             exists f', first_seen d' = Some f' /\ dt_lt f f' = Ok false)
  /\ (forall l, last_seen d = Some l ->
                exists l', last_seen d' = Some l' /\ dt_lt l' l = Ok false)
  /\ (first_seen d = None -> last_seen d = None ->
      first_seen d' = last_seen d').

(** Every profile of [st] is still there in [st'], its range widened. *)
Definition widened (st st' : analyzer) : Prop :=
  forall cid d, dict_get cid (clusters st) = Some d ->
    exists d', dict_get cid (clusters st') = Some d' /\ seen_widened d d'.

(** What the block under [if ts:] does to the profile it updates, whether
    it completes or a comparison raises. *)
Definition seen_step (ts : datetime) (d : cluster_data) : cluster_data :=
  match first_seen d with
  | Some f =>
      match dt_lt ts f with
      | Raise _ => d
      | Ok earlier =>
          let d1 := if earlier then set_first_seen ts d else d in
          match last_seen d1 with
          | None => set_last_seen ts d1
          | Some l =>
              match dt_lt l ts with
              | Ok true => set_last_seen ts d1
              | _ => d1
              end
          end
      end
  | None =>
      let d1 := set_first_seen ts d in
      match last_seen d1 with
      | None => set_last_seen ts d1
      | Some l =>
          match dt_lt l ts with
          | Ok true => set_last_seen ts d1
          | _ => d1
          end
      end
  end.

(** [m], started in a state that satisfies [P], leaves a state that satisfies
    [Q], whether it returns or raises. *)
Definition triple {A} (P : analyzer -> Prop) (m : M A) (Q : analyzer -> Prop) : Prop :=
  forall st, P st -> Q (snd (m st)).

(** A mutation of a profile that leaves its time range alone. *)
Definition seen_neutral (f : cluster_data -> cluster_data) : Prop :=
  forall d, first_seen (f d) = first_seen d /\ last_seen (f d) = last_seen d.

(** A mutation of a profile that keeps its time range well formed and only
    widens it. *)
Definition seen_good (g : cluster_data -> cluster_data) : Prop :=
  forall d, (seen_ok d -> seen_ok (g d)) /\ seen_widened d (g d).

(** An endpoint-overlap issue about the unordered pair of [a] and [b]. *)
Definition names_pair (a b : string) (i : issue) : bool :=
  match i with
  | EndpointIssue _ c1 c2 =>
      (String.eqb c1 a && String.eqb c2 b) || (String.eqb c1 b && String.eqb c2 a)
  | NamespaceIssue _ _ => false
  end.

(** The set [set(data['endpoints'].keys())] of a profile. *)
Definition endpoint_set (d : cluster_data) : gset string := dom (endpoints d).

(** [clusters] is [base] (the dictionary once the profile of [cid] exists)
    with that profile mutated, its time range unchanged. *)
Definition Neutral (cid : string) (base : list (string * cluster_data))
  (st : analyzer) : Prop :=
  exists f, seen_neutral f /\ clusters st = dict_alter cid f base.

(** The same with the time range of the profile at most widened. *)
Definition Final (cid : string) (base : list (string * cluster_data))
  (st : analyzer) : Prop :=
  exists g, seen_good g /\ clusters st = dict_alter cid g base.

(** The [datetime] carries a UTC offset. *)
Definition is_aware (t : datetime) : bool :=
  match utcoffset t with Some _ => true | None => false end.

(** Both ends of the profile's time range, where set, are aware ([k] true)
    or naive ([k] false). *)
Definition seen_kind (k : bool) (d : cluster_data) : Prop :=
  (forall f, first_seen d = Some f -> is_aware f = k)
  /\ (forall l, last_seen d = Some l -> is_aware l = k).

(** All recorded instants of the state are of one kind. *)
Definition uniform_kind (k : bool) (st : analyzer) : Prop :=
  Forall (fun p => seen_kind k (snd p)) (clusters st).

(** The computation returns. *)
Definition succeeds {A} (r : result A) : Prop :=
  match r with Ok _ => True | Raise _ => False end.

(** [m], started in a state that satisfies [P], returns and leaves a state
    that satisfies [Q]. *)
Definition triple_ok {A} (P : analyzer -> Prop) (m : M A) (Q : analyzer -> Prop) : Prop :=
  forall st, P st -> succeeds (fst (m st)) /\ Q (snd (m st)).

(** [uri.split('?')[0]], the key of the [endpoints] counter. *)
Definition base_path (uri : string) : string :=
  PyStr.item 0 (PyStr.split "?" uri).

(** [f"{resource_info['api_group']}/{resource_info['resource']}"]. *)
Definition resource_key (info : resource_info) : string :=
  String.append (api_group info) (String.append "/" (resource info)).

(** What [record_request] does to the profile it updates, up to the point
    where it returns or raises: an unhashable verb stops it after the
    endpoint was counted. *)
Definition record_effect (uri : string) (verb : json) (info : resource_info)
  (ts : option datetime) (rd : request_data) (d : cluster_data) : cluster_data :=
  let d1 := count_endpoint (base_path uri) (add_request rd d) in
  if py_hashable verb then
    let d2 := count_resource (resource_key info) (count_verb verb d1) in
    let d3 := match namespace info with
              | Some ns => if PyStr.is_empty ns then d2 else add_namespace ns d2
              | None => d2
              end in
    let d4 := if is_watch_request uri then add_watch rd d3 else d3 in
    match ts with
    | Some t => seen_step t d4
    | None => d4
    end
  else d1.

(** The same, for the record [analyze_entry] builds. *)
Definition profile_update (rd : request_data) : cluster_data -> cluster_data :=
  record_effect (rd_uri rd) (rd_verb rd) (rd_resource_info rd)
    (rd_parsed_timestamp rd) rd.

(** The sum of the counts of a [Counter] with string keys. *)
Definition counter_total (c : gmap string nat) : nat :=
  map_fold (fun _ n acc => n + acc) 0 c.

(** What one call of [analyze_entry] can do to the analyzer, given the
    classifier [classify] it uses: nothing beyond counting the entry, filing
    a record [rd] under the system requests, or filing it under the profile
    of the tenant its user name maps to. *)
Inductive entry_step (classify : string -> resource_info) (st st' : analyzer) : Prop :=
  | step_idle :
      clusters st' = clusters st ->
      system_requests st' = system_requests st ->
      total_requests st <= total_requests st' <= S (total_requests st) ->
      entry_step classify st st'
  | step_system (name : string) (rd : request_data) :
      rd_user rd = JStr name ->
      cluster_id_of_username name = "kwok-system" ->
      rd_resource_info rd = classify (rd_uri rd) ->
      stage_analyzed (rd_stage rd) = true ->
      clusters st' = clusters st ->
      system_requests st' = system_requests st ++ [rd] ->
      total_requests st' = S (total_requests st) ->
      entry_step classify st st'
  | step_tenant (name : string) (rd : request_data) :
      rd_user rd = JStr name ->
      cluster_id_of_username name <> "kwok-system" ->
      rd_resource_info rd = classify (rd_uri rd) ->
      stage_analyzed (rd_stage rd) = true ->
      clusters st'
      = dict_alter (cluster_id_of_username name) (profile_update rd)
          (dict_setdefault (cluster_id_of_username name) new_cluster (clusters st)) ->
      system_requests st' = system_requests st ->
      total_requests st' = S (total_requests st) ->
      entry_step classify st st'.

(** How many of the records were requests for the path [p]. *)
Definition path_count (p : string) (rs : list request_data) : nat :=
  length (List.filter (fun rd => String.eqb (base_path (rd_uri rd)) p) rs).

(** How many of the records have the resource key [k]. *)
Definition resource_count (k : string) (rs : list request_data) : nat :=
  length (List.filter
            (fun rd => String.eqb (resource_key (rd_resource_info rd)) k) rs).

(** The record was built by [analyze_entry] for a user that [extract_cluster_id]
    maps to [cid], from a completed request, with the descriptor of its URI. *)
Definition filed_under (classify : string -> resource_info) (cid : string)
  (rd : request_data) : Prop :=
  (exists name, rd_user rd = JStr name /\ cluster_id_of_username name = cid)
  /\ rd_resource_info rd = classify (rd_uri rd)
  /\ stage_analyzed (rd_stage rd) = true.

(** The watch requests among the records. *)
Definition watch_requests (rs : list request_data) : list request_data :=
  List.filter (fun rd => is_watch_request (rd_uri rd)) rs.

(** The dictionary [request_data] that [analyze_entry] builds for an entry
    with the given fields, once its user name and URI are known strings. *)
Definition request_of (unquote : string -> string)
  (fromisoformat : string -> option datetime)
  (fields : list (string * json)) (name uri : string) : request_data :=
  {| rd_timestamp := default JNull (dict_get "requestReceivedTimestamp" fields);
     rd_parsed_timestamp :=
       parse_timestamp fromisoformat
         (default JNull (dict_get "requestReceivedTimestamp" fields));
     rd_uri := uri;
     rd_verb := default (JStr "") (dict_get "verb" fields);
     rd_resource_info := analyze_request_uri unquote uri;
     rd_user := JStr name;
     rd_user_agent := default (JStr "") (dict_get "userAgent" fields);
     rd_stage := default (JStr "") (dict_get "stage" fields) |}.

(** The tenant [extract_cluster_id] gives for the user of an entry, when the
    entry is an object and the call returns. *)
Definition entry_tenant (entry : json) : option string :=
  match entry with
  | JObj fields =>
      match extract_cluster_id (default (JObj []) (dict_get "user" fields)) with
      | Ok cid => Some cid
      | Raise _ => None
      end
  | _ => None
  end.

(** The tenants, in the order of [clusters], whose profile holds the
    namespace [ns]. *)
Definition accessing_tenants (ns : string) (cl : list (string * cluster_data))
  : list string :=
  map fst (List.filter
             (fun p => bool_decide (ns ∈ namespaces_accessed (snd p))) cl).

(** The rational a finite float stands for. *)
Definition float_value (x : float) : option Q :=
  match Prim2SF x with
  | S754_zero _ => Some 0%Q
  | S754_finite s m e =>
      Some (Qmult (inject_Z (if s then Zneg m else Zpos m)) (Qpower 2 e))
  | _ => None
  end.

(** [|intersection| / |union| * 100] as a rational. *)
Definition exact_percent (overlap union : nat) : Q :=
  Qmult (Qdiv (inject_Z (Z.of_nat overlap)) (inject_Z (Z.of_nat union)))
    (inject_Z 100).

(** The float is finite and within [10^-12] of the rational. *)
Definition close_to (x : float) (q : Q) : bool :=
  match float_value x with
  | Some v =>
      Qle_bool (q - (1 # 1000000000000)) v && Qle_bool v (q + (1 # 1000000000000))
  | None => false
  end.

(** A namespace issue about [ns]. *)
Definition about_namespace (ns : string) (i : issue) : bool :=
  match i with
  | NamespaceIssue n _ => String.eqb n ns
  | EndpointIssue _ _ _ => false
  end.

(** The user name holds a marker [cattle-system-g1:cattle-g2] whose two
    parts are non-empty and free of colons. *)
Definition has_marker (username : string) : Prop :=
  exists pre g1 g2 post,
    username = pre +:+ "cattle-system-" +:+ g1 +:+ ":cattle-" +:+ g2 +:+ post
    /\ g1 <> EmptyString /\ g2 <> EmptyString
    /\ PyStr.has_char ":" g1 = false /\ PyStr.has_char ":" g2 = false.

(** The values the pairs give to the name [k], in order. *)
Definition values_of (k : string) (pairs : list (string * string)) : list string :=
  map snd (List.filter (fun p => String.eqb (fst p) k) pairs).

(** A path segment: free of ['/'] and ['?']. *)
Definition clean_segment (seg : string) : Prop :=
  PyStr.has_char "/" seg = false /\ PyStr.has_char "?" seg = false.

(** ** Sample inputs *)

(** A record of a request that was received but not yet answered. *)
Definition sample_received : list (string * json) :=
  [("stage", JStr "RequestReceived");
   ("requestURI", JStr "/api/v1/pods");
   ("verb", JStr "get")].

(** A completed watch request of the unknown tenant. *)
Definition sample_completed_fields : list (string * json) :=
  [("stage", JStr "ResponseComplete");
   ("user", JObj [("username", JStr "alice")]);
   ("requestURI", JStr "/api/v1/namespaces/foo/pods?watch=true");
   ("verb", JStr "get");
   ("requestReceivedTimestamp", JStr "2024-01-01T00:00:00Z")].

Definition sample_completed : json := JObj sample_completed_fields.

(** A line of [n] opening brackets. *)
Fixpoint brackets (n : nat) : string :=
  match n with
  | 0 => EmptyString
  | S n' => String "[" (brackets n')
  end.

(** A decoder that knows two lines: the number [5], and 5000 opening
    brackets, on which the decoder exceeds the recursion limit. *)
Definition sample_loads (s : string) : loads_result :=
  if String.eqb s "5" then Decoded (JInt 5)
  else if String.eqb s (brackets 5000) then LoadsError RecursionError
  else JSONDecodeError.

(** A timestamp parser that knows one instant. *)
Definition sample_fromisoformat (s : string) : option datetime :=
  if String.eqb s "2024-01-01T00:00:00+00:00"
  then Some {| instant := 1704067200000000; utcoffset := Some 0%Z |}
  else None.

(** A timestamp parser that knows two instants, a day apart. *)
Definition sample_clock (s : string) : option datetime :=
  if String.eqb s "2024-01-01T00:00:00+00:00"
  then Some {| instant := 1704067200000000; utcoffset := Some 0%Z |}
  else if String.eqb s "2024-01-02T00:00:00+00:00"
  then Some {| instant := 1704153600000000; utcoffset := Some 0%Z |}
  else None.

(** A request of the same user, a day after [sample_completed]. *)
Definition sample_later_fields : list (string * json) :=
  [("stage", JStr "ResponseComplete");
   ("user", JObj [("username", JStr "alice")]);
   ("requestURI", JStr "/api/v1/nodes");
   ("verb", JStr "list");
   ("requestReceivedTimestamp", JStr "2024-01-02T00:00:00Z")].

(** The analyzer after it has ingested [sample_completed]. *)
Definition sample_seen : analyzer :=
  snd (analyze_entry (fun s => s) sample_clock sample_completed init).

(** A completed request whose verb is the decoded constant [NaN]. *)
Definition sample_nan_fields : list (string * json) :=
  [("stage", JStr "ResponseComplete");
   ("user", JObj [("username", JStr "alice")]);
   ("requestURI", JStr "/api/v1/pods");
   ("verb", JFloat FNan)].

(** A profile that has seen the given endpoints once each. *)
Definition profile_of_endpoints (paths : list string) : cluster_data :=
  {| requests := []; endpoints := list_to_map (map (fun e => (e, 1)) paths);
     verbs := []; resources := ∅; watch_streams := [];
     namespaces_accessed := ∅; first_seen := None; last_seen := None |}.

(** Two tenants that share six endpoints out of seven. *)
Definition sample_overlap : analyzer :=
  {| clusters :=
       [("rancher-a",
         profile_of_endpoints
           ["/api/v1/pods"; "/api/v1/nodes"; "/api/v1/services";
            "/api/v1/secrets"; "/api/v1/events"; "/api/v1/configmaps";
            "/api/v1/namespaces"]);
        ("rancher-b",
         profile_of_endpoints
           ["/api/v1/pods"; "/api/v1/nodes"; "/api/v1/services";
            "/api/v1/secrets"; "/api/v1/events"; "/api/v1/configmaps"])];
     system_requests := []; total_requests := 13 |}.

(** A completed request of the API server itself. *)
Definition sample_system_fields : list (string * json) :=
  [("stage", JStr "ResponseComplete");
   ("user", JObj [("username", JStr "system:apiserver")]);
   ("requestURI", JStr "/api/v1/nodes");
   ("verb", JArr [])].

(** * Properties *)

(** ** Facts about the string primitives *)

Module PyStrFacts.
Import PyStr.

Lemma startswith_spec (p s : string) :
  startswith p s = true <-> exists t, s = p +:+ t.
Proof.
  revert s. induction p as [|a p IH]; intros s; simpl.
  - split; [intros _; exists s; reflexivity | reflexivity].
  - destruct s as [|b s].
    + split; [discriminate | intros [t Ht]; discriminate].
    + rewrite andb_true_iff, Ascii.eqb_eq, IH. split.
      * intros [-> [t ->]]. exists t. reflexivity.
      * intros [t Ht]. injection Ht as -> ->. split; [reflexivity | eauto].
Qed.

Lemma contains_spec (p s : string) :
  contains p s = true <-> exists pre post, s = pre +:+ p +:+ post.
Proof.
  induction s as [|c s IH]; simpl.
  - rewrite orb_false_r, startswith_spec. split.
    + intros [t Ht]. exists EmptyString, t. exact Ht.
    + intros [pre [post H]]. destruct pre; [eauto | discriminate].
  - rewrite orb_true_iff, startswith_spec, IH. split.
    + intros [[t Ht] | [pre [post Ht]]].
      * exists EmptyString, t. exact Ht.
      * exists (String c pre), post. simpl. now rewrite Ht.
    + intros [pre [post H]]. destruct pre as [|c' pre]; simpl in H.
      * left. eauto.
      * right. injection H as -> ->. eauto.
Qed.

Lemma split_not_nil (sep : ascii) (s : string) : split sep s <> [].
Proof.
  destruct s as [|c s]; simpl; [discriminate|].
  destruct (Ascii.eqb c sep); [discriminate|].
  destruct (split sep s); discriminate.
Qed.

Lemma split_no_sep (sep : ascii) (s : string) :
  has_char sep s = false -> split sep s = [s].
Proof.
  induction s as [|c s IH]; simpl; [reflexivity|].
  intros H. apply orb_false_iff in H as [Hc Hs].
  rewrite Hc, (IH Hs). reflexivity.
Qed.

Lemma split_app (sep : ascii) (a b : string) :
  has_char sep a = false ->
  split sep (a +:+ String sep b) = a :: split sep b.
Proof.
  induction a as [|c a IH]; simpl.
  - intros _. rewrite Ascii.eqb_refl. reflexivity.
  - intros H. apply orb_false_iff in H as [Hc Ha].
    rewrite Hc, (IH Ha). reflexivity.
Qed.

Lemma append_assoc (a b c : string) :
  (a +:+ b) +:+ c = a +:+ (b +:+ c).
Proof.
  induction a as [|x a IH]; [reflexivity|].
  change (String x ((a +:+ b) +:+ c) = String x (a +:+ (b +:+ c))).
  now rewrite IH.
Qed.

Lemma has_char_app (c : ascii) (a b : string) :
  has_char c (a +:+ b) = has_char c a || has_char c b.
Proof.
  induction a as [|x a IH]; simpl; [reflexivity|].
  rewrite IH. apply orb_assoc.
Qed.

(** The text before the first separator holds no character that the whole
    string does not hold. *)
Lemma has_char_first_part (c sep : ascii) (s : string) :
  has_char c s = false -> has_char c (item 0 (split sep s)) = false.
Proof.
  induction s as [|x s IH]; simpl; [reflexivity|].
  intros H. apply orb_false_iff in H as [Hx Hs].
  destruct (Ascii.eqb x sep); [reflexivity|].
  specialize (IH Hs). unfold item in *.
  destruct (split sep s) as [|hd tl]; simpl in *.
  - now rewrite Hx.
  - now rewrite Hx, IH.
Qed.

Lemma lstrip_absent (p : ascii -> bool) (s : string) :
  (forall c, p c = true -> has_char c s = false) -> lstrip p s = s.
Proof.
  destruct s as [|x s]; simpl; [reflexivity|].
  intros H. destruct (p x) eqn:E; [|reflexivity].
  specialize (H x E). now rewrite Ascii.eqb_refl in H.
Qed.

Lemma rstrip_absent (p : ascii -> bool) (s : string) :
  (forall c, p c = true -> has_char c s = false) -> rstrip p s = s.
Proof.
  induction s as [|x s IH]; simpl; [reflexivity|].
  intros H.
  assert (Hx : p x = false).
  { destruct (p x) eqn:E; [|reflexivity].
    specialize (H x E). now rewrite Ascii.eqb_refl in H. }
  rewrite IH.
  - destruct s; [now rewrite Hx | reflexivity].
  - intros c Hc. specialize (H c Hc). now apply orb_false_iff in H as [_ H].
Qed.

Lemma strip_absent (p : ascii -> bool) (s : string) :
  (forall c, p c = true -> has_char c s = false) -> strip p s = s.
Proof.
  intros H. unfold strip. rewrite (lstrip_absent _ _ H). now apply rstrip_absent.
Qed.

End PyStrFacts.

(** ** The URI classifier *)

Section ClassifierFacts.

Variable unquote : string -> string.

(** C2: the four reference decompositions of [analyze_request_uri]:
    a namespaced core resource, a namespaced resource of the [apps] group, the
    namespace object itself on the core path, and a cluster-wide core
    resource. *)
Theorem classify_reference_decompositions :
  analyze_request_uri unquote "/api/v1/namespaces/foo/pods"
  = {| api_group := "core"; version := "v1"; resource := "pods";
       namespaced := true; namespace := Some "foo"; query_params := [] |}
  /\ analyze_request_uri unquote "/apis/apps/v1/namespaces/foo/deployments"
  = {| api_group := "apps"; version := "v1"; resource := "deployments";
       namespaced := true; namespace := Some "foo"; query_params := [] |}
  /\ analyze_request_uri unquote "/api/v1/namespaces/foo"
  = {| api_group := "core"; version := "v1"; resource := "namespaces";
       namespaced := true; namespace := Some "foo"; query_params := [] |}
  /\ analyze_request_uri unquote "/api/v1/pods"
  = {| api_group := "core"; version := "v1"; resource := "pods";
       namespaced := false; namespace := None; query_params := [] |}.
Proof. repeat split. Qed.

End ClassifierFacts.

Lemma rstrip_app (p : ascii -> bool) (a b : string) :
  PyStr.rstrip p b = b -> b <> EmptyString ->
  PyStr.rstrip p (a +:+ b) = a +:+ b.
Proof.
  intros Hb Hne. induction a as [|x a IH]; simpl; [exact Hb|].
  change (String x a +:+ b) with (String x (a +:+ b)).
  rewrite IH. destruct (a +:+ b) eqn:E; [|reflexivity].
  destruct a; [change (b = EmptyString) in E; congruence | discriminate E].
Qed.

(** The segments of an extended-API path that stops at the namespace name. *)
Lemma path_parts_apis_namespace (G V N : string) :
  PyStr.has_char "/" G = false -> PyStr.has_char "?" G = false ->
  PyStr.has_char "/" V = false -> PyStr.has_char "?" V = false ->
  PyStr.has_char "/" N = false -> PyStr.has_char "?" N = false ->
  N <> EmptyString ->
  path_parts ("/apis/" +:+ G +:+ "/" +:+ V +:+ "/namespaces/" +:+ N)
  = ["apis"; G; V; "namespaces"; N].
Proof.
  intros HG HG' HV HV' HN HN' Hne. unfold path_parts.
  rewrite (PyStrFacts.split_no_sep "?").
  2:{ rewrite !PyStrFacts.has_char_app, HG', HV', HN'. reflexivity. }
  unfold PyStr.item, PyStr.strip. cbn [nth].
  change (PyStr.lstrip (Ascii.eqb "/")
            ("/apis/" +:+ G +:+ "/" +:+ V +:+ "/namespaces/" +:+ N))
    with ("apis/" +:+ G +:+ "/" +:+ V +:+ "/namespaces/" +:+ N).
  replace ("apis/" +:+ G +:+ "/" +:+ V +:+ "/namespaces/" +:+ N)
    with (("apis/" +:+ G +:+ "/" +:+ V +:+ "/namespaces/") +:+ N).
  2:{ rewrite !PyStrFacts.append_assoc. reflexivity. }
  rewrite rstrip_app; [|apply PyStrFacts.rstrip_absent|exact Hne].
  2:{ intros c Hc. apply Ascii.eqb_eq in Hc. subst c. exact HN. }
  change (("apis/" +:+ G +:+ "/" +:+ V +:+ "/namespaces/") +:+ N)
    with ("apis" +:+ String "/" ((G +:+ "/" +:+ V +:+ "/namespaces/") +:+ N)).
  rewrite PyStrFacts.split_app by reflexivity. f_equal.
  replace ((G +:+ "/" +:+ V +:+ "/namespaces/") +:+ N)
    with (G +:+ String "/" (V +:+ String "/" ("namespaces" +:+ String "/" N))).
  2:{ rewrite !PyStrFacts.append_assoc. reflexivity. }
  rewrite PyStrFacts.split_app by exact HG. f_equal.
  rewrite PyStrFacts.split_app by exact HV. f_equal.
  rewrite PyStrFacts.split_app by reflexivity. f_equal.
  apply PyStrFacts.split_no_sep. exact HN.
Qed.

(** C3 (as the code behaves): on an extended-API path [/apis/G/V/namespaces/N]
    with nothing after the namespace name, [analyze_request_uri] marks the
    request namespaced and records the namespace [N], but leaves the resource
    at its default ["unknown"]: the branch has no [else] that sets
    ["namespaces"], unlike the core branch. *)
Theorem apis_namespace_object_resource (unquote : string -> string) (G V N : string) :
  PyStr.has_char "/" G = false -> PyStr.has_char "?" G = false ->
  PyStr.has_char "/" V = false -> PyStr.has_char "?" V = false ->
  PyStr.has_char "/" N = false -> PyStr.has_char "?" N = false ->
  N <> EmptyString ->
  let info := analyze_request_uri unquote
                ("/apis/" +:+ G +:+ "/" +:+ V +:+ "/namespaces/" +:+ N) in
  api_group info = G /\ version info = V /\ namespaced info = true
  /\ namespace info = Some N /\ resource info = "unknown".
Proof.
  intros HG HG' HV HV' HN HN' Hne. cbv zeta.
  unfold analyze_request_uri.
  rewrite path_parts_apis_namespace by assumption.
  repeat split.
Qed.

Lemma apis_namespace_object_resource_witness :
  let info := analyze_request_uri (fun s => s) "/apis/apps/v1/namespaces/foo" in
  api_group info = "apps" /\ version info = "v1" /\ namespaced info = true
  /\ namespace info = Some "foo" /\ resource info = "unknown".
Proof.
  apply (apis_namespace_object_resource (fun s => s) "apps" "v1" "foo");
    solve [reflexivity | discriminate].
Defined.

(** ** Watch detection *)

(** C5: [is_watch_request] holds exactly of the URIs in which the text
    [watch=true] occurs somewhere, as a substring of the raw URI; so it holds
    of [/api/v1/pods?watch=true] and not of [/api/v1/pods?watch=false] or
    [/api/v1/pods]. *)
Theorem is_watch_request_substring :
  (forall uri : string,
      is_watch_request uri = true
      <-> exists pre post : string, uri = pre +:+ "watch=true" +:+ post)
  /\ is_watch_request "/api/v1/pods?watch=true" = true
  /\ is_watch_request "/api/v1/pods?watch=false" = false
  /\ is_watch_request "/api/v1/pods" = false.
Proof.
  split; [|repeat split].
  intros uri. unfold is_watch_request. apply PyStrFacts.contains_spec.
Qed.

(** ** Tenant attribution *)

(** C4 (as the code behaves): the pattern of [extract_cluster_id] has two
    independent groups, so a user name whose marker embeds two different
    identifiers is attributed to the tenant of the first one; the three
    reference principals are attributed as stated. *)
Theorem extract_cluster_id_mismatched_marker :
  extract_cluster_id
    (JObj [("username", JStr "system:serviceaccount:cattle-system-abc:cattle-xyz")])
  = Ok "rancher-abc"
  /\ cluster_id_of_username "system:serviceaccount:cattle-system-abc123:cattle-abc123"
     = "rancher-abc123"
  /\ cluster_id_of_username "system:apiserver" = "kwok-system"
  /\ cluster_id_of_username "alice" = "unknown".
Proof. repeat split. Qed.

(** ** Totality of the classifier and the query dictionary *)

Section QueryFacts.

Variable unquote : string -> string.

Lemma parse_field_not_assigns (f : string) :
  field_assigns f = false -> parse_field unquote f = [].
Proof.
  unfold field_assigns, parse_field. intros H.
  destruct (PyStr.is_empty f); [reflexivity|].
  destruct (PyStr.split_once "=" f) as [name [value|]]; [|reflexivity].
  apply negb_false_iff in H. now rewrite H.
Qed.

Lemma flat_map_parse_field_filter (fields : list string) :
  flat_map (parse_field unquote) (List.filter field_assigns fields)
  = flat_map (parse_field unquote) fields.
Proof.
  induction fields as [|f fields IH]; [reflexivity|]. cbn [List.filter].
  destruct (field_assigns f) eqn:E; cbn [flat_map].
  - now rewrite IH.
  - now rewrite (parse_field_not_assigns f E), IH.
Qed.

Lemma flat_map_parse_field_none (fields : list string) :
  (forall f, In f fields -> field_assigns f = false) ->
  flat_map (parse_field unquote) fields = [].
Proof.
  induction fields as [|f fields IH]; [reflexivity|]. intros H. cbn [flat_map].
  rewrite (parse_field_not_assigns f), IH; auto using in_eq, in_cons.
Qed.

Lemma path_parts_short_defaults (uri : string) :
  length (path_parts uri) < 2 ->
  path_defaults (analyze_request_uri unquote uri).
Proof.
  intros H. unfold analyze_request_uri, classify_path.
  destruct (2 <=? length (path_parts uri)) eqn:E.
  - apply Nat.leb_le in E. lia.
  - repeat split.
Qed.

Lemma path_parts_no_slash (uri : string) :
  PyStr.has_char "/" uri = false ->
  path_parts uri = [PyStr.item 0 (PyStr.split "?" uri)].
Proof.
  intros H. unfold path_parts.
  pose proof (PyStrFacts.has_char_first_part "/" "?" uri H) as Hb.
  rewrite PyStrFacts.strip_absent.
  - now apply PyStrFacts.split_no_sep.
  - intros c Hc. apply Ascii.eqb_eq in Hc. now subst c.
Qed.

(** C9: [analyze_request_uri] returns a descriptor for every string and never
    raises.  When the path has fewer than two segments, in particular for the
    empty string, for a string without ['/'] and for a string that is only a
    query string, the group, version, resource, namespaced flag and namespace
    are the defaults [core], [v1], [unknown], [False] and [None]; and a query
    string none of whose fields assigns a value gives the empty dictionary. *)
Theorem analyze_request_uri_total (uri : string) :
  analyze_request_uri_of unquote (JStr uri)
  = Ok (uri, analyze_request_uri unquote uri)
  /\ (length (path_parts uri) < 2 ->
      path_defaults (analyze_request_uri unquote uri))
  /\ analyze_request_uri unquote "" = default_info
  /\ (PyStr.has_char "/" uri = false ->
      path_defaults (analyze_request_uri unquote uri))
  /\ path_defaults (analyze_request_uri unquote ("?" +:+ uri))
  /\ ((forall f, In f (PyStr.split "&" (query_string uri)) ->
                 field_assigns f = false) ->
      query_params (analyze_request_uri unquote uri) = []).
Proof.
  split; [reflexivity|].
  split; [apply path_parts_short_defaults|].
  split; [reflexivity|].
  split.
  { intros H. apply path_parts_short_defaults.
    rewrite (path_parts_no_slash uri H). cbn. lia. }
  split; [repeat split|].
  intros H. cbn [analyze_request_uri set_query_params query_params].
  unfold parse_query. destruct (PyStr.has_char "?" uri); [|reflexivity].
  unfold parse_qs, parse_qsl. fold (query_string uri).
  now rewrite (flat_map_parse_field_none _ H).
Qed.

End QueryFacts.

Lemma split_join (sep : ascii) (fields : list string) :
  fields <> [] ->
  Forall (fun f => PyStr.has_char sep f = false) fields ->
  PyStr.split sep (join sep fields) = fields.
Proof.
  induction fields as [|f fields IH]; [congruence|].
  intros _ H. inversion H as [|? ? Hf Hrest]; subst.
  destruct fields as [|g fields].
  - now apply PyStrFacts.split_no_sep.
  - change (join sep (f :: g :: fields))
      with (f +:+ String sep (join sep (g :: fields))).
    rewrite PyStrFacts.split_app by exact Hf.
    f_equal. apply IH; [discriminate | exact Hrest].
Qed.

Lemma has_char_join (c sep : ascii) (fields : list string) :
  c <> sep ->
  Forall (fun f => PyStr.has_char c f = false) fields ->
  PyStr.has_char c (join sep fields) = false.
Proof.
  intros Hne. induction fields as [|f fields IH]; [reflexivity|].
  intros H. inversion H as [|? ? Hf Hrest]; subst.
  destruct fields as [|g fields]; [exact Hf|].
  change (join sep (f :: g :: fields))
    with (f +:+ String sep (join sep (g :: fields))).
  rewrite PyStrFacts.has_char_app, Hf. cbn [PyStr.has_char orb].
  rewrite (IH Hrest), orb_false_r. now apply Ascii.eqb_neq.
Qed.

Section QueryStringFacts.

Variable unquote : string -> string.

(** The dictionary built for a URI whose query string is [q]. *)
Lemma parse_query_of_query (path q : string) :
  PyStr.has_char "?" path = false -> PyStr.has_char "?" q = false ->
  parse_query unquote (path +:+ String "?" q) = flatten_single (parse_qs unquote q).
Proof.
  intros Hp Hq. unfold parse_query.
  rewrite PyStrFacts.has_char_app. cbn [PyStr.has_char].
  rewrite Ascii.eqb_refl, orb_true_r.
  rewrite PyStrFacts.split_app by exact Hp.
  now rewrite PyStrFacts.split_no_sep.
Qed.

Lemma parse_qsl_join (fields : list string) :
  Forall (fun f => PyStr.has_char "&" f = false) fields ->
  parse_qsl unquote (join "&" fields) = flat_map (parse_field unquote) fields.
Proof.
  intros H. unfold parse_qsl. destruct fields as [|f fields]; [reflexivity|].
  now rewrite split_join.
Qed.

(** C10: when a URI holds a second ['?'], [query_params] is built from the
    text between the first and the second one only, whatever follows; and a
    field of the query string with no ['='] or with nothing after its ['=']
    leaves no trace: the dictionary is the one of the query string without
    such fields. *)
Theorem query_params_source (path q rest : string) (fields : list string) :
  PyStr.has_char "?" path = false ->
  PyStr.has_char "?" q = false ->
  Forall (fun f => PyStr.has_char "&" f = false) fields ->
  Forall (fun f => PyStr.has_char "?" f = false) fields ->
  query_params (analyze_request_uri unquote (path +:+ "?" +:+ q +:+ "?" +:+ rest))
  = flatten_single (parse_qs unquote q)
  /\ query_params (analyze_request_uri unquote (path +:+ "?" +:+ q +:+ "?" +:+ rest))
     = query_params (analyze_request_uri unquote (path +:+ "?" +:+ q))
  /\ query_params (analyze_request_uri unquote (path +:+ "?" +:+ join "&" fields))
     = query_params
         (analyze_request_uri unquote
            (path +:+ "?" +:+ join "&" (List.filter field_assigns fields)))
  /\ (forall f, field_assigns f = false -> parse_field unquote f = [])
  /\ (forall name, PyStr.has_char "=" name = false ->
                   field_assigns name = false
                   /\ field_assigns (name +:+ "=") = false).
Proof.
  intros Hp Hq Hamp Hqm.
  cbn [analyze_request_uri set_query_params query_params].
  assert (Hfirst : parse_query unquote (path +:+ "?" +:+ q +:+ "?" +:+ rest)
                   = flatten_single (parse_qs unquote q)).
  { unfold parse_query.
    rewrite PyStrFacts.has_char_app. cbn [PyStr.has_char String.append].
    change (PyStr.has_char "?" ("?" +:+ q +:+ "?" +:+ rest)) with true.
    rewrite orb_true_r.
    change (path +:+ "?" +:+ q +:+ "?" +:+ rest)
      with (path +:+ String "?" (q +:+ String "?" rest)).
    rewrite PyStrFacts.split_app by exact Hp.
    now rewrite PyStrFacts.split_app by exact Hq. }
  split; [exact Hfirst|].
  split.
  { rewrite Hfirst. symmetry. now apply parse_query_of_query. }
  split.
  { change (path +:+ "?" +:+ join "&" fields)
      with (path +:+ String "?" (join "&" fields)).
    change (path +:+ "?" +:+ join "&" (List.filter field_assigns fields))
      with (path +:+ String "?" (join "&" (List.filter field_assigns fields))).
    assert (Hsub : forall P : string -> Prop, Forall P fields ->
                     Forall P (List.filter field_assigns fields)).
    { intros P HP. apply List.Forall_forall. intros f Hf.
      apply List.filter_In in Hf as [Hf _].
      rewrite List.Forall_forall in HP. now apply HP. }
    rewrite !parse_query_of_query;
      try exact Hp; try (apply has_char_join; [discriminate|auto]).
    unfold parse_qs. rewrite !parse_qsl_join by auto.
    now rewrite flat_map_parse_field_filter. }
  split; [apply parse_field_not_assigns|].
  intros name. unfold field_assigns.
  induction name as [|c name IH]; [split; reflexivity|].
  intros H. cbn [PyStr.has_char] in H. apply orb_false_iff in H as [Hc Hname].
  specialize (IH Hname) as [IH1 IH2].
  change (String c name +:+ "=") with (String c (name +:+ "=")).
  cbn [PyStr.split_once]. rewrite Hc.
  destruct (PyStr.split_once "=" name) as [hd [tl|]];
    destruct (PyStr.split_once "=" (name +:+ "=")) as [hd' [tl'|]];
    split; assumption.
Qed.

End QueryStringFacts.

Lemma query_params_source_witness :
  query_params (analyze_request_uri (fun s => s) "/api/v1/pods?watch=&limit=5&x?watch=true")
  = flatten_single (parse_qs (fun s => s) "watch=&limit=5&x")
  /\ query_params (analyze_request_uri (fun s => s) "/api/v1/pods?watch=&limit=5&x?watch=true")
     = query_params (analyze_request_uri (fun s => s) "/api/v1/pods?watch=&limit=5&x")
  /\ query_params (analyze_request_uri (fun s => s) "/api/v1/pods?watch=&limit=5&x")
     = query_params (analyze_request_uri (fun s => s) "/api/v1/pods?limit=5")
  /\ (forall f, field_assigns f = false -> parse_field (fun s => s) f = [])
  /\ (forall name, PyStr.has_char "=" name = false ->
                   field_assigns name = false
                   /\ field_assigns (name +:+ "=") = false).
Proof.
  apply (query_params_source (fun s => s) "/api/v1/pods" "watch=&limit=5&x"
           "watch=true" ["watch="; "limit=5"; "x"]);
    solve [reflexivity | repeat constructor].
Defined.

(** ** Insertion-ordered dictionaries *)

Section DictFacts.

Context {V : Type}.
Implicit Types (d : list (string * V)) (k : string).

Lemma dict_get_setdefault k k' (v : V) d :
  dict_get k' (dict_setdefault k v d)
  = if String.eqb k k' then Some (default v (dict_get k d)) else dict_get k' d.
Proof.
  induction d as [|[k0 v0] d IH]; simpl.
  - destruct (String.eqb k k'); reflexivity.
  - destruct (String.eqb k0 k) eqn:E; simpl.
    + apply String.eqb_eq in E. subst k0.
      destruct (String.eqb k k'); reflexivity.
    + rewrite IH. destruct (String.eqb k0 k') eqn:E'; [|reflexivity].
      apply String.eqb_eq in E'. subst k0.
      rewrite String.eqb_sym in E. now rewrite E.
Qed.

Lemma dict_setdefault_present k (v x : V) d :
  dict_get k d = Some x -> dict_setdefault k v d = d.
Proof.
  induction d as [|[k0 v0] d IH]; simpl; [discriminate|].
  destruct (String.eqb k0 k); [reflexivity|].
  intros H. now rewrite IH.
Qed.

Lemma dict_get_alter k k' (f : V -> V) d :
  dict_get k' (dict_alter k f d)
  = if String.eqb k k' then f <$> dict_get k' d else dict_get k' d.
Proof.
  induction d as [|[k0 v0] d IH]; simpl.
  - destruct (String.eqb k k'); reflexivity.
  - destruct (String.eqb k0 k) eqn:E; simpl.
    + apply String.eqb_eq in E. subst k0.
      destruct (String.eqb k k'); reflexivity.
    + rewrite IH. destruct (String.eqb k0 k') eqn:E'; [|reflexivity].
      apply String.eqb_eq in E'. subst k0.
      rewrite String.eqb_sym in E. now rewrite E.
Qed.

Lemma dict_alter_alter k (f g : V -> V) d :
  dict_alter k g (dict_alter k f d) = dict_alter k (fun x => g (f x)) d.
Proof.
  induction d as [|[k0 v0] d IH]; simpl; [reflexivity|].
  destruct (String.eqb k0 k) eqn:E; simpl; rewrite E; [reflexivity|].
  now rewrite IH.
Qed.

Lemma dict_alter_ext k (f g : V -> V) (x : V) d :
  dict_get k d = Some x -> f x = g x -> dict_alter k f d = dict_alter k g d.
Proof.
  induction d as [|[k0 v0] d IH]; simpl; [reflexivity|].
  destruct (String.eqb k0 k).
  - intros [= ->] ->. reflexivity.
  - intros H1 H2. now rewrite IH.
Qed.

Lemma dict_alter_same k (f : V -> V) (x : V) d :
  dict_get k d = Some x -> f x = x -> dict_alter k f d = d.
Proof.
  induction d as [|[k0 v0] d IH]; simpl; [reflexivity|].
  destruct (String.eqb k0 k).
  - intros [= ->] ->. reflexivity.
  - intros H1 H2. now rewrite IH.
Qed.

Lemma dict_keys_alter k (f : V -> V) d :
  map fst (dict_alter k f d) = map fst d.
Proof.
  induction d as [|[k0 v0] d IH]; simpl; [reflexivity|].
  destruct (String.eqb k0 k); simpl; [reflexivity | now rewrite IH].
Qed.

Lemma Forall_dict_alter (P : string * V -> Prop) k (f : V -> V) d :
  (forall k0 v, P (k0, v) -> P (k0, f v)) ->
  Forall P d -> Forall P (dict_alter k f d).
Proof.
  intros Hf. induction 1 as [|[k0 v0] d H0 Hd IH]; simpl; [constructor|].
  destruct (String.eqb k0 k); constructor; auto.
Qed.

Lemma Forall_dict_setdefault (P : string * V -> Prop) k (v : V) d :
  P (k, v) -> Forall P d -> Forall P (dict_setdefault k v d).
Proof.
  intros Hv. induction 1 as [|[k0 v0] d H0 Hd IH]; simpl.
  - repeat constructor. exact Hv.
  - destruct (String.eqb k0 k); constructor; auto.
Qed.

Lemma dict_get_In k (x : V) d : dict_get k d = Some x -> In (k, x) d.
Proof.
  induction d as [|[k0 v0] d IH]; simpl; [discriminate|].
  destruct (String.eqb k0 k) eqn:E.
  - apply String.eqb_eq in E. intros [= ->]. left. now subst.
  - intros H. right. auto.
Qed.

Lemma dict_get_NoDup k (x : V) d :
  NoDup (map fst d) -> In (k, x) d -> dict_get k d = Some x.
Proof.
  induction d as [|[k0 v0] d IH]; simpl; [contradiction|].
  intros Hnd [H | H]; inversion Hnd as [|? ? Hnotin Hnd']; subst.
  - injection H as -> ->. now rewrite String.eqb_refl.
  - destruct (String.eqb k0 k) eqn:E; [|auto].
    apply String.eqb_eq in E. subst k0. exfalso. apply Hnotin.
    apply list_elem_of_In. apply in_map_iff. now exists (k, x).
Qed.

Lemma dict_keys_setdefault_NoDup k (v : V) d :
  NoDup (map fst d) -> NoDup (map fst (dict_setdefault k v d)).
Proof.
  induction d as [|[k0 v0] d IH]; simpl.
  - intros _. repeat constructor. intros H. inversion H.
  - destruct (String.eqb k0 k) eqn:E; [trivial|].
    intros Hnd. inversion Hnd as [|? ? Hnotin Hnd']; subst. simpl.
    constructor; [|auto].
    intros Hin. apply list_elem_of_In, in_map_iff in Hin as [[k1 v1] [Hk Hin]].
    simpl in Hk. subst k1.
    assert (Hget : exists y, dict_get k0 (dict_setdefault k v d) = Some y).
    { clear -Hin. induction (dict_setdefault k v d) as [|[a b] l IHl];
        [contradiction|]. simpl.
      destruct (String.eqb a k0) eqn:Ea; [eauto|].
      destruct Hin as [H | H]; [|auto].
      injection H as -> ->. now rewrite String.eqb_refl in Ea. }
    destruct Hget as [y Hy]. rewrite dict_get_setdefault in Hy.
    rewrite String.eqb_sym, E in Hy.
    apply dict_get_In in Hy. apply Hnotin.
    apply list_elem_of_In, in_map_iff. now exists (k0, y).
Qed.

End DictFacts.

(** ** The time range of a profile *)

Ltac dt_cases :=
  unfold dt_lt in *;
  repeat match goal with
         | |- context [utcoffset ?x] => destruct (utcoffset x)
         | H : context [utcoffset ?x] |- _ => destruct (utcoffset x)
         end;
  try discriminate;
  repeat match goal with
         | H : Ok _ = Ok _ |- _ => injection H as H
         | H : Z.ltb _ _ = true |- _ => apply Z.ltb_lt in H
         | H : Z.ltb _ _ = false |- _ => apply Z.ltb_ge in H
         end;
  try (f_equal; first [apply Z.ltb_ge | apply Z.ltb_lt]; lia).

Lemma dt_lt_irrefl (a : datetime) : dt_lt a a = Ok false.
Proof. dt_cases. Qed.

Lemma dt_lt_asym (a b : datetime) : dt_lt a b = Ok true -> dt_lt b a = Ok false.
Proof. intros H. dt_cases. Qed.


Ltac seen_simpl Ef El :=
  repeat (cbn [first_seen last_seen set_first_seen set_last_seen] in *;
          rewrite ?Ef, ?El in * ).

Lemma seen_step_ok (ts : datetime) (d : cluster_data) :
  seen_ok d -> seen_ok (seen_step ts d).
Proof.
  unfold seen_ok, seen_step.
  destruct (first_seen d) as [f|] eqn:Ef, (last_seen d) as [l|] eqn:El;
    try contradiction; intros H.
  - destruct (dt_lt ts f) as [[|]|e] eqn:E1; seen_simpl Ef El;
      try (destruct (dt_lt l ts) as [[|]|e] eqn:E2); seen_simpl Ef El;
      try assumption; dt_cases.
  - seen_simpl Ef El. apply dt_lt_irrefl.
Qed.

Ltac widened_goal :=
  repeat split;
  try discriminate;
  try (intros ? [= <-]; eexists; split; [reflexivity|]).

Lemma seen_step_widened (ts : datetime) (d : cluster_data) :
  seen_widened d (seen_step ts d).
Proof.
  unfold seen_widened, seen_step.
  destruct (first_seen d) as [f|] eqn:Ef, (last_seen d) as [l|] eqn:El.
  - destruct (dt_lt ts f) as [[|]|e] eqn:E1; seen_simpl Ef El;
      try (destruct (dt_lt l ts) as [[|]|e] eqn:E2); seen_simpl Ef El;
      widened_goal; try apply dt_lt_irrefl; dt_cases.
  - destruct (dt_lt ts f) as [[|]|e] eqn:E1; seen_simpl Ef El;
      widened_goal; try apply dt_lt_irrefl; dt_cases.
  - seen_simpl Ef El.
    destruct (dt_lt l ts) as [[|]|e] eqn:E2; seen_simpl Ef El;
      widened_goal; try apply dt_lt_irrefl; dt_cases.
  - seen_simpl Ef El. widened_goal.
Qed.

(** ** The aggregation engine *)

Lemma bind_modify {B} (f : analyzer -> analyzer) (k : unit -> M B) (st : analyzer) :
  bind (modify f) k st = k tt (f st).
Proof. reflexivity. Qed.

Lemma bind_lift_Ok {A B} (a : A) (k : A -> M B) (st : analyzer) :
  bind (lift (Ok a)) k st = k a st.
Proof. reflexivity. Qed.

Lemma bind_lift_Raise {A B} (e : exn) (k : A -> M B) (st : analyzer) :
  bind (lift (Raise e)) k st = (Raise e, st).
Proof. reflexivity. Qed.

Ltac mstep :=
  first [rewrite bind_modify | rewrite bind_lift_Ok | rewrite bind_lift_Raise];
  cbv beta; cbn [snd].

Section EngineFacts.

Variable json_loads : string -> loads_result.
Variable unquote : string -> string.
Variable fromisoformat : string -> option datetime.

(** C6 (amended): a decoded record with at least one field whose stage is
    neither [ResponseComplete] nor [ResponseStarted] makes [analyze_entry]
    return normally with [total_requests] one higher and with [clusters] (so
    every profile) and [system_requests] unchanged; since the counter moves
    before the stage filter, it then exceeds the number of attributed
    requests.  The record without fields is excluded: [analyze_entry] returns
    on it before it counts. *)
Theorem stage_filter_frame (fields : list (string * json)) (st : analyzer) :
  fields <> [] ->
  stage_analyzed (default (JStr "") (dict_get "stage" fields)) = false ->
  analyze_entry unquote fromisoformat (JObj fields) st = (Ok tt, incr_total st)
  /\ total_requests (incr_total st) = S (total_requests st)
  /\ clusters (incr_total st) = clusters st
  /\ system_requests (incr_total st) = system_requests st
  /\ (attributed st <= total_requests st ->
      attributed (incr_total st) < total_requests (incr_total st)).
Proof.
  intros Hne Hstage.
  split; [|repeat split; unfold attributed, incr_total;
           cbn [system_requests clusters total_requests]; lia].
  unfold analyze_entry.
  destruct fields as [|kv fields]; [congruence|].
  cbn [py_truthy negb].
  unfold bind, modify, lift, ret, py_get. cbn -[dict_get stage_analyzed].
  now rewrite Hstage.
Qed.

(** C1 (as the code behaves): a line that [json.loads] decodes to a truthy
    value that is not an object, such as the number [5], is counted and then
    raises [AttributeError] at the first [entry.get]; [analyze_file] stops
    there and the rest of the file is not read. *)
Theorem non_object_line_aborts (line : string) (rest : list string)
  (v : json) (st : analyzer) :
  json_loads (PyStr.strip PyStr.isspace line) = Decoded v ->
  py_truthy v = true ->
  (forall fields, v <> JObj fields) ->
  analyze_file json_loads unquote fromisoformat (line :: rest) st
  = (Raise AttributeError, incr_total st).
Proof.
  intros Hload Htruthy Hobj.
  cbn [analyze_file]. unfold parse_log_line. rewrite Hload.
  rewrite bind_lift_Ok, Htruthy.
  unfold bind at 1. unfold analyze_entry. rewrite Htruthy. cbn [negb].
  destruct v; try discriminate; try reflexivity.
  now destruct (Hobj fields).
Qed.

End EngineFacts.

(** C6 as stated fails on [{}]: its stage, the default [''], is neither
    [ResponseComplete] nor [ResponseStarted], yet [analyze_entry] leaves at
    [if not entry: return] and [total_requests] is not incremented. *)
Lemma stage_filter_empty_object :
  stage_analyzed (default (JStr "") (dict_get "stage" [])) = false
  /\ analyze_entry (fun s => s) sample_fromisoformat (JObj []) init = (Ok tt, init)
  /\ total_requests
       (snd (analyze_entry (fun s => s) sample_fromisoformat (JObj []) init))
     <> S (total_requests init).
Proof. split; [reflexivity | split; [reflexivity | discriminate]]. Qed.

(** ** Reasoning about the methods of the analyzer *)

Section Triples.

Context {A B : Type}.

Lemma triple_ret (P Q : analyzer -> Prop) (a : A) :
  (forall st, P st -> Q st) -> triple P (ret a) Q.
Proof. intros H st HP. now apply H. Qed.

Lemma triple_lift (P Q : analyzer -> Prop) (r : result A) :
  (forall st, P st -> Q st) -> triple P (lift r) Q.
Proof. intros H st HP. now apply H. Qed.

Lemma triple_bind (P R Q : analyzer -> Prop) (m : M A) (k : A -> M B) :
  triple P m R -> (forall st, R st -> Q st) ->
  (forall a, triple R (k a) Q) -> triple P (bind m k) Q.
Proof.
  intros Hm HRQ Hk st HP. specialize (Hm st HP). unfold bind.
  destruct (m st) as [[a|e] st']; cbn [snd] in *.
  - now apply Hk.
  - now apply HRQ.
Qed.

End Triples.

Lemma triple_modify (P Q : analyzer -> Prop) (f : analyzer -> analyzer) :
  (forall st, P st -> Q (f st)) -> triple P (modify f) Q.
Proof. intros H st HP. now apply H. Qed.

Lemma seen_neutral_good (f : cluster_data -> cluster_data) :
  seen_neutral f -> seen_good f.
Proof.
  intros Hf d. destruct (Hf d) as [H1 H2]. split.
  - unfold seen_ok. now rewrite H1, H2.
  - unfold seen_widened. rewrite H1, H2. repeat split.
    + intros f0 ->. exists f0. split; [reflexivity | apply dt_lt_irrefl].
    + intros l ->. exists l. split; [reflexivity | apply dt_lt_irrefl].
    + now intros -> ->.
Qed.

Lemma seen_step_after_neutral (ts : datetime) (f : cluster_data -> cluster_data) :
  seen_neutral f -> seen_good (fun d => seen_step ts (f d)).
Proof.
  intros Hf d. destruct (Hf d) as [H1 H2].
  pose proof (seen_step_ok ts (f d)) as Hok.
  pose proof (seen_step_widened ts (f d)) as Hw.
  unfold seen_ok, seen_widened in *. rewrite H1, H2 in *. auto.
Qed.

Section ProfileUpdates.

Variable cid : string.
(** The dictionary [clusters] once the profile of [cid] exists. *)
Variable base : list (string * cluster_data).
Hypothesis base_has_cid : exists d0, dict_get cid base = Some d0.

Lemma Neutral_Final (st : analyzer) : Neutral cid base st -> Final cid base st.
Proof. intros [f [Hf Hc]]. exists f. auto using seen_neutral_good. Qed.

Lemma Neutral_has_cid (st : analyzer) :
  Neutral cid base st -> exists d, dict_get cid (clusters st) = Some d.
Proof.
  intros [f [_ ->]]. destruct base_has_cid as [d0 H0].
  rewrite dict_get_alter, String.eqb_refl, H0. eauto.
Qed.

Lemma triple_mutate (f' : cluster_data -> cluster_data) :
  seen_neutral f' -> triple (Neutral cid base) (mutate cid f') (Neutral cid base).
Proof.
  intros Hf'. apply triple_modify. intros st [f [Hf Hc]].
  exists (fun x => f' (f x)). split.
  - intros d. destruct (Hf d), (Hf' (f d)). split; congruence.
  - cbn. rewrite Hc. apply dict_alter_alter.
Qed.

Lemma cluster_ref_state (st : analyzer) (d : cluster_data) :
  dict_get cid (clusters st) = Some d ->
  cluster_ref cid st = (Ok d, st).
Proof.
  intros H. unfold cluster_ref, bind, modify, gets, set_clusters.
  cbn [clusters]. rewrite (dict_setdefault_present _ _ _ _ H), H.
  destruct st; reflexivity.
Qed.

Lemma triple_cluster_ref : triple (Neutral cid base) (cluster_ref cid) (Neutral cid base).
Proof.
  intros st HN. destruct (Neutral_has_cid st HN) as [d Hd].
  now rewrite (cluster_ref_state st d Hd).
Qed.

(** The block under [if ts:] acts on the profile as [seen_step]. *)
Lemma update_seen_effect (ts : datetime) (st : analyzer) (d : cluster_data) :
  dict_get cid (clusters st) = Some d ->
  clusters (snd (update_seen cid ts st))
  = dict_alter cid (seen_step ts) (clusters st).
Proof.
  intros Hd. unfold update_seen.
  unfold bind at 1. rewrite (cluster_ref_state st d Hd). cbv beta iota.
  assert (Hmut : forall (f : cluster_data -> cluster_data) (s : analyzer),
             mutate cid f s = (Ok tt, set_clusters (dict_alter cid f (clusters s)) s))
    by reflexivity.
  assert (Hlast : forall (d1 : cluster_data) (s : analyzer),
             dict_get cid (clusters s) = Some d1 ->
             clusters (snd (bind (cluster_ref cid) (fun d' =>
               bind (match last_seen d' with
                     | None => ret true
                     | Some l => lift (dt_lt l ts)
                     end)
                    (fun later => if later then mutate cid (set_last_seen ts)
                                  else ret tt)) s))
             = dict_alter cid (fun x =>
                 match last_seen x with
                 | None => set_last_seen ts x
                 | Some l => match dt_lt l ts with
                             | Ok true => set_last_seen ts x
                             | _ => x
                             end
                 end) (clusters s)).
  { intros d1 s H1. unfold bind at 1. rewrite (cluster_ref_state s d1 H1).
    cbv beta iota. symmetry. destruct (last_seen d1) as [l|] eqn:El.
    - destruct (dt_lt l ts) as [[|]|e] eqn:E2;
        unfold bind, lift, ret; rewrite ?E2; cbn [snd];
        rewrite ?Hmut; cbn [snd set_clusters clusters].
      + apply (dict_alter_ext _ _ _ d1 _ H1). now rewrite El, E2.
      + apply (dict_alter_same _ _ d1 _ H1). now rewrite El, E2.
      + apply (dict_alter_same _ _ d1 _ H1). now rewrite El, E2.
    - unfold bind, ret. rewrite Hmut. cbn [snd set_clusters clusters].
      apply (dict_alter_ext _ _ _ d1 _ H1). now rewrite El. }
  destruct (first_seen d) as [f|] eqn:Ef.
  - destruct (dt_lt ts f) as [[|]|e] eqn:E1.
    + unfold bind at 1, lift at 1.
      unfold bind at 1. rewrite Hmut.
      rewrite (Hlast (set_first_seen ts d)).
      2:{ cbn [clusters set_clusters]. rewrite dict_get_alter, String.eqb_refl, Hd.
          reflexivity. }
      cbn [clusters set_clusters]. rewrite dict_alter_alter.
      apply (dict_alter_ext _ _ _ d _ Hd).
      unfold seen_step. now rewrite Ef, E1.
    + unfold bind at 1, lift at 1.
      unfold bind at 1, ret at 1.
      rewrite (Hlast d _ Hd).
      apply (dict_alter_ext _ _ _ d _ Hd).
      unfold seen_step. now rewrite Ef, E1.
    + unfold bind at 1, lift at 1. cbn [snd]. symmetry.
      apply (dict_alter_same _ _ d _ Hd).
      unfold seen_step. now rewrite Ef, E1.
  - unfold bind at 1, ret at 1.
    unfold bind at 1. rewrite Hmut.
    rewrite (Hlast (set_first_seen ts d)).
    2:{ cbn [clusters set_clusters]. rewrite dict_get_alter, String.eqb_refl, Hd.
        reflexivity. }
    cbn [clusters set_clusters]. rewrite dict_alter_alter.
    apply (dict_alter_ext _ _ _ d _ Hd).
    unfold seen_step. now rewrite Ef.
Qed.

Lemma triple_update_seen (ts : datetime) :
  triple (Neutral cid base) (update_seen cid ts) (Final cid base).
Proof.
  intros st HN. destruct (Neutral_has_cid st HN) as [d Hd].
  destruct HN as [f [Hf Hc]].
  exists (fun x => seen_step ts (f x)). split.
  - now apply seen_step_after_neutral.
  - rewrite (update_seen_effect ts st d Hd), Hc. apply dict_alter_alter.
Qed.

End ProfileUpdates.

Lemma dict_alter_id {V} (k : string) (d : list (string * V)) :
  dict_alter k (fun x => x) d = d.
Proof.
  induction d as [|[k0 v0] d IH]; simpl; [reflexivity|].
  destruct (String.eqb k0 k); [reflexivity | now rewrite IH].
Qed.

Section EntryInvariant.

Variable unquote : string -> string.
Variable fromisoformat : string -> option datetime.

(** What [record_request] does to [clusters]: the profile of [cid] is created
    if needed and then mutated, its time range at most widened; this holds
    also when the method raises. *)
Lemma record_request_clusters (cid uri : string) (verb : json)
  (info : resource_info) (ts : option datetime) (rd : request_data)
  (st : analyzer) :
  exists g, seen_good g
    /\ clusters (snd (record_request cid uri verb info ts rd st))
       = dict_alter cid g (dict_setdefault cid new_cluster (clusters st)).
Proof.
  set (base := dict_setdefault cid new_cluster (clusters st)).
  assert (Hbase : exists d0, dict_get cid base = Some d0).
  { unfold base. rewrite dict_get_setdefault, String.eqb_refl. eauto. }
  pose proof (Neutral_Final cid base) as HNF.
  assert (Hmut : forall f, seen_neutral f ->
                           triple (Neutral cid base) (mutate cid f) (Neutral cid base))
    by (intros f Hf; now apply triple_mutate).
  assert (Hret : triple (Neutral cid base) (ret tt) (Neutral cid base))
    by (now apply triple_ret).
  enough (H : triple (fun s => s = st)
                (record_request cid uri verb info ts rd) (Final cid base))
    by exact (H st eq_refl).
  unfold record_request.
  apply (triple_bind _ (Neutral cid base)); [|exact HNF|intros _].
  { intros s ->. unfold cluster_ref, bind, modify, gets. cbn [snd].
    exists (fun x => x). split; [now split|].
    cbn [set_clusters clusters]. fold base. now rewrite dict_alter_id. }
  apply (triple_bind _ (Neutral cid base)); [|exact HNF|intros _].
  { apply Hmut. now split. }
  apply (triple_bind _ (Neutral cid base)); [|exact HNF|intros _].
  { apply Hmut. now split. }
  apply (triple_bind _ (Neutral cid base)); [|exact HNF|intros _].
  { destruct (py_hashable verb); [apply Hmut; now split | now apply triple_lift]. }
  apply (triple_bind _ (Neutral cid base)); [|exact HNF|intros _].
  { apply Hmut. now split. }
  apply (triple_bind _ (Neutral cid base)); [|exact HNF|intros _].
  { destruct (namespace info) as [ns|]; [|exact Hret].
    destruct (PyStr.is_empty ns); [exact Hret | apply Hmut; now split]. }
  apply (triple_bind _ (Neutral cid base)); [|exact HNF|intros _].
  { destruct (is_watch_request uri); [apply Hmut; now split | exact Hret]. }
  destruct ts as [t|].
  - now apply triple_update_seen.
  - apply triple_ret. exact HNF.
Qed.

(** What [analyze_entry] does to [clusters]: nothing, or the mutation of one
    profile whose key is not the system sentinel. *)
Lemma analyze_entry_clusters (entry : json) (st : analyzer) :
  clusters (snd (analyze_entry unquote fromisoformat entry st)) = clusters st
  \/ exists cid g, cid <> "kwok-system" /\ seen_good g
       /\ clusters (snd (analyze_entry unquote fromisoformat entry st))
          = dict_alter cid g (dict_setdefault cid new_cluster (clusters st)).
Proof.
  unfold analyze_entry.
  destruct (py_truthy entry); cbn [negb]; [|now left].
  destruct entry as [| | | | | |fields]; try (now left).
  cbn [py_get]. repeat mstep.
  destruct (stage_analyzed _); cbn [negb]; [|now left].
  destruct (extract_cluster_id _) as [cluster_id|e]; mstep; [|now left].
  destruct (analyze_request_uri_of _ _) as [[u info]|e]; mstep; [|now left].
  destruct (py_get _ "username" _) as [username|e]; mstep; [|now left].
  mstep.
  destruct (String.eqb cluster_id "kwok-system") eqn:E; [now left|].
  right. exists cluster_id.
  match goal with
  | |- context [record_request ?c ?u ?v ?i ?t ?r ?s] =>
      destruct (record_request_clusters c u v i t r s) as [g [Hg Hc]]
  end.
  exists g. split; [now apply String.eqb_neq|]. split; [exact Hg|]. exact Hc.
Qed.

Lemma analyze_entry_invariant (entry : json) (st : analyzer) :
  state_invariant st ->
  state_invariant (snd (analyze_entry unquote fromisoformat entry st)).
Proof.
  intros Hinv. unfold state_invariant.
  destruct (analyze_entry_clusters entry st)
    as [-> | [cid [g [Hcid [Hg ->]]]]]; [exact Hinv|].
  apply Forall_dict_alter.
  - intros k0 v [Hk Hv]. split; [exact Hk | now apply Hg].
  - apply Forall_dict_setdefault; [|exact Hinv].
    split; [exact Hcid | exact I].
Qed.

Lemma analyze_entry_widened (entry : json) (st : analyzer) :
  widened st (snd (analyze_entry unquote fromisoformat entry st)).
Proof.
  unfold widened. intros c d Hd.
  destruct (analyze_entry_clusters entry st)
    as [-> | [cid [g [Hcid [Hg ->]]]]].
  - exists d. split; [exact Hd|].
    apply (seen_neutral_good (fun x => x)). now split.
  - rewrite dict_get_alter, dict_get_setdefault.
    destruct (String.eqb cid c) eqn:E.
    + apply String.eqb_eq in E. subst c. rewrite Hd. cbn.
      exists (g d). split; [reflexivity | apply Hg].
    + exists d. split; [exact Hd|].
      apply (seen_neutral_good (fun x => x)). now split.
Qed.

End EntryInvariant.

(** ** The isolation analyzer *)

Lemma names_pair_sym (a b : string) (i : issue) :
  names_pair a b i = names_pair b a i.
Proof. destruct i; [reflexivity|]. cbn. apply orb_comm. Qed.

Lemma filter_namespace_issues (a b : string) (cl : list (string * cluster_data)) :
  List.filter (names_pair a b) (namespace_issues cl) = [].
Proof.
  unfold namespace_issues.
  induction (elements (all_namespaces cl)) as [|ns l IH]; [reflexivity|].
  cbn [flat_map]. rewrite List.filter_app, IH, app_nil_r.
  now destruct (1 <? _).
Qed.

Lemma endpoint_sets_keys (cl : list (string * cluster_data)) :
  map fst (endpoint_sets cl) = map fst cl.
Proof.
  unfold endpoint_sets. induction cl as [|[k d] cl IH]; [reflexivity|].
  cbn. now rewrite IH.
Qed.

Lemma dict_get_endpoint_sets (k : string) (cl : list (string * cluster_data)) :
  dict_get k (endpoint_sets cl) = endpoint_set <$> dict_get k cl.
Proof.
  unfold endpoint_sets. induction cl as [|[k0 d] cl IH]; [reflexivity|].
  cbn. destruct (String.eqb k0 k); [reflexivity | exact IH].
Qed.

Section OverlapFacts.

Variable es : list (string * gset string).

(** An issue of the inner loop is about its own pair only. *)
Lemma filter_overlap_issue (a b c x : string) :
  List.filter (names_pair a b) (overlap_issue es c x)
  = if names_pair a b (EndpointIssue 0%float c x) then overlap_issue es c x else [].
Proof.
  unfold overlap_issue. destruct (5 <? _); cbn [List.filter names_pair].
  - now destruct (_ || _).
  - now destruct (_ || _).
Qed.

Lemma filter_inner_loop_other (a b c : string) (rest : list string) :
  (forall x, In x rest -> names_pair a b (EndpointIssue 0%float c x) = false) ->
  List.filter (names_pair a b) (flat_map (overlap_issue es c) rest) = [].
Proof.
  induction rest as [|x rest IH]; [reflexivity|]. intros H.
  cbn [flat_map]. rewrite List.filter_app, filter_overlap_issue.
  rewrite (H x (in_eq _ _)), IH; [reflexivity|].
  intros y Hy. apply H. now right.
Qed.

Lemma filter_inner_loop_pair (c x : string) (rest : list string) :
  List.NoDup rest -> In x rest -> c <> x ->
  List.filter (names_pair c x) (flat_map (overlap_issue es c) rest)
  = overlap_issue es c x.
Proof.
  intros Hnd Hin Hne. induction rest as [|y rest IH]; [contradiction|].
  inversion Hnd as [|? ? Hnotin Hnd']; subst.
  cbn [flat_map]. rewrite List.filter_app, filter_overlap_issue.
  destruct Hin as [-> | Hin].
  - cbn [names_pair]. rewrite !String.eqb_refl. cbn [andb orb].
    rewrite filter_inner_loop_other; [apply app_nil_r|].
    intros z Hz. cbn [names_pair]. rewrite String.eqb_refl.
    assert (Hzx : String.eqb z x = false).
    { apply String.eqb_neq. intros ->. contradiction. }
    rewrite Hzx. cbn [andb orb].
    apply andb_false_iff. left. now apply String.eqb_neq.
  - cbn [names_pair]. rewrite String.eqb_refl.
    assert (Hyx : String.eqb y x = false).
    { apply String.eqb_neq. intros ->. contradiction. }
    rewrite Hyx. cbn [andb orb].
    assert (Hcx : String.eqb c x = false) by now apply String.eqb_neq.
    rewrite Hcx. cbn [andb]. now apply IH.
Qed.

(** Both clusters of an issue are among the identifiers walked, the first
    one before the second. *)
Lemma endpoint_issues_In (p : float) (c1 c2 : string) (ids : list string) :
  In (EndpointIssue p c1 c2) (endpoint_issues es ids) ->
  exists l1 l2, ids = l1 ++ c1 :: l2 /\ In c2 l2.
Proof.
  induction ids as [|c rest IH]; [contradiction|].
  cbn [endpoint_issues]. intros H. apply in_app_or in H as [H | H].
  - apply in_flat_map in H as [x [Hx Hi]].
    unfold overlap_issue in Hi. destruct (5 <? _); [|contradiction].
    destruct Hi as [Hi | []]. injection Hi as _ <- <-.
    now exists [], rest.
  - destruct (IH H) as [l1 [l2 [-> Hin]]]. now exists (c :: l1), l2.
Qed.

Lemma filter_endpoint_issues_absent (a b : string) (ids : list string) :
  ~ In a ids -> List.filter (names_pair a b) (endpoint_issues es ids) = [].
Proof.
  intros Ha.
  assert (H : forall i, In i (endpoint_issues es ids) -> names_pair a b i = false).
  { intros [ns acc | p c1 c2] Hi; [reflexivity|].
    destruct (endpoint_issues_In _ _ _ _ Hi) as [l1 [l2 [-> Hin]]].
    cbn [names_pair].
    assert (H1 : String.eqb c1 a = false).
    { apply String.eqb_neq. intros ->. apply Ha.
      apply in_or_app. right. now left. }
    assert (H2 : String.eqb c2 a = false).
    { apply String.eqb_neq. intros ->. apply Ha.
      apply in_or_app. right. now right. }
    rewrite H1, H2. cbn [andb orb]. apply andb_false_r. }
  induction (endpoint_issues es ids) as [|i l IH]; [reflexivity|].
  cbn [List.filter]. rewrite (H i (in_eq _ _)). apply IH.
  intros j Hj. apply H. now right.
Qed.

(** The issues about the pair of [a] and [b] are those of one run of the
    inner loop's body, on the pair in the order of [ids]. *)
Lemma filter_endpoint_issues_pair (a b : string) (ids : list string) :
  List.NoDup ids -> In a ids -> In b ids -> a <> b ->
  List.filter (names_pair a b) (endpoint_issues es ids) = overlap_issue es a b
  \/ List.filter (names_pair a b) (endpoint_issues es ids) = overlap_issue es b a.
Proof.
  intros Hnd. induction ids as [|c rest IH]; [contradiction|].
  inversion Hnd as [|? ? Hnotin Hnd']; subst.
  intros Ha Hb Hne. cbn [endpoint_issues]. rewrite List.filter_app.
  destruct Ha as [-> | Ha]; [|destruct Hb as [-> | Hb]].
  - destruct Hb as [-> | Hb]; [congruence|]. left.
    rewrite filter_inner_loop_pair by assumption.
    rewrite filter_endpoint_issues_absent by assumption. apply app_nil_r.
  - right.
    rewrite !(List.filter_ext _ _ (names_pair_sym a b)).
    rewrite filter_inner_loop_pair by (try assumption; congruence).
    rewrite filter_endpoint_issues_absent by assumption. apply app_nil_r.
  - rewrite filter_inner_loop_other.
    + now apply IH.
    + intros x Hx. cbn [names_pair].
      assert (H1 : String.eqb c a = false).
      { apply String.eqb_neq. intros ->. contradiction. }
      assert (H2 : String.eqb c b = false).
      { apply String.eqb_neq. intros ->. contradiction. }
      now rewrite H1, H2.
Qed.

End OverlapFacts.

Lemma namespace_issues_In (i : issue) (cl : list (string * cluster_data)) :
  In i (namespace_issues cl) -> exists ns acc, i = NamespaceIssue ns acc.
Proof.
  unfold namespace_issues. intros H. apply in_flat_map in H as [ns [_ H]].
  destruct (1 <? _); [|contradiction].
  destruct H as [<- | []]. eauto.
Qed.

Lemma two_keys_length {V} (a b : string) (x y : V) (d : list (string * V)) :
  a <> b -> dict_get a d = Some x -> dict_get b d = Some y -> 1 < length d.
Proof.
  intros Hne Ha Hb. destruct d as [|[k v] [|kv d]]; cbn in *; try lia.
  - discriminate.
  - destruct (String.eqb k a) eqn:E1, (String.eqb k b) eqn:E2; try discriminate.
    apply String.eqb_eq in E1, E2. congruence.
Qed.

(** The issues of [detect_issues] about the pair of [a] and [b]: those of the
    one run of the inner loop's body on the pair, taken in the order of
    [clusters]. *)
Lemma detect_issues_pair_ordered (st : analyzer) (a b : string)
  (da db : cluster_data) :
  NoDup (map fst (clusters st)) ->
  a <> b ->
  dict_get a (clusters st) = Some da ->
  dict_get b (clusters st) = Some db ->
  exists c1 c2,
    ((c1 = a /\ c2 = b) \/ (c1 = b /\ c2 = a))
    /\ List.filter (names_pair a b) (detect_issues st)
       = if 5 <? size (endpoint_set da ∩ endpoint_set db)
         then [EndpointIssue
                 (overlap_percent (size (endpoint_set da ∩ endpoint_set db))
                    (size (endpoint_set da ∪ endpoint_set db)))
                 c1 c2]
         else [].
Proof.
  intros Hnd Hne Ha Hb.
  apply NoDup_ListNoDup in Hnd.
  pose proof (two_keys_length a b da db _ Hne Ha Hb) as Hlen.
  apply Nat.ltb_lt in Hlen.
  unfold detect_issues. rewrite Hlen.
  rewrite List.filter_app, filter_namespace_issues, app_nil_l.
  rewrite endpoint_sets_keys.
  assert (Hia : In a (map fst (clusters st))).
  { apply in_map_iff. exists (a, da). split; [reflexivity | now apply dict_get_In]. }
  assert (Hib : In b (map fst (clusters st))).
  { apply in_map_iff. exists (b, db). split; [reflexivity | now apply dict_get_In]. }
  destruct (filter_endpoint_issues_pair (endpoint_sets (clusters st)) a b _
              Hnd Hia Hib Hne) as [H | H]; rewrite H; clear H;
    unfold overlap_issue; rewrite !dict_get_endpoint_sets, Ha, Hb;
    cbn [fmap option_fmap option_map default].
  - exists a, b. split; [auto | reflexivity].
  - exists b, a. split; [auto|].
    now rewrite (comm_L (∩) (endpoint_set db)), (comm_L (∪) (endpoint_set db)).
Qed.

(** The float percentage of an overlap is the exact percentage up to the
    rounding of the two float operations; checked here for every union of up
    to 256 endpoints. *)
Theorem overlap_percent_accuracy (overlap union : nat) :
  overlap <= union -> 0 < union <= 256 ->
  close_to (overlap_percent overlap union) (exact_percent overlap union) = true.
Proof.
  intros Hle Hu.
  assert (H : forallb
                (fun u => forallb
                            (fun i => close_to (overlap_percent i u)
                                        (exact_percent i u))
                            (seq 0 (S u)))
                (seq 1 256) = true) by (vm_compute; reflexivity).
  rewrite List.forallb_forall in H.
  assert (Hin : In union (seq 1 256)) by (apply in_seq; lia).
  specialize (H union Hin). rewrite List.forallb_forall in H.
  apply H. apply in_seq. lia.
Qed.

(** C7: for two different tenants [a] and [b] of [clusters], [detect_issues]
    reports an endpoint overlap about the pair exactly when the two endpoint
    sets share more than 5 paths.  With 6 or more shared paths the union is
    not empty, there is exactly one such issue, it names the two tenants
    once, in the order of [clusters], it carries the float
    [|intersection| / |union| * 100], and the string appended to [issues]
    shows that float to one decimal.  With 5 or fewer shared paths there is
    none.  No endpoint issue pairs a tenant with itself. *)
Theorem endpoint_overlap_threshold (st : analyzer) (a b : string)
  (da db : cluster_data) :
  NoDup (map fst (clusters st)) ->
  a <> b ->
  dict_get a (clusters st) = Some da ->
  dict_get b (clusters st) = Some db ->
  (5 < size (endpoint_set da ∩ endpoint_set db) ->
   size (endpoint_set da ∪ endpoint_set db) <> 0
   /\ exists c1 c2,
        ((c1 = a /\ c2 = b) \/ (c1 = b /\ c2 = a))
        /\ let pct :=
             PrimFloat.mul
               (PrimFloat.div
                  (PrimFloat.of_uint63
                     (Uint63.of_Z
                        (Z.of_nat (size (endpoint_set da ∩ endpoint_set db)))))
                  (PrimFloat.of_uint63
                     (Uint63.of_Z
                        (Z.of_nat (size (endpoint_set da ∪ endpoint_set db))))))
               100%float in
           List.filter (names_pair a b) (detect_issues st)
           = [EndpointIssue pct c1 c2]
           /\ In ("High endpoint overlap (" +:+ format_1f pct +:+ "%) between "
                  +:+ c1 +:+ " and " +:+ c2)
                (issues st))
  /\ (size (endpoint_set da ∩ endpoint_set db) <= 5 ->
      List.filter (names_pair a b) (detect_issues st) = [])
  /\ (forall p c1 c2,
         In (EndpointIssue p c1 c2) (detect_issues st) -> c1 <> c2).
Proof.
  intros Hnd Hne Ha Hb.
  destruct (detect_issues_pair_ordered st a b da db Hnd Hne Ha Hb)
    as [c1 [c2 [Hc H]]].
  split; [|split].
  - intros Hgt. split.
    + assert (Hsub : endpoint_set da ∩ endpoint_set db
                     ⊆ endpoint_set da ∪ endpoint_set db).
      { etrans; [apply intersection_subseteq_l | apply union_subseteq_l]. }
      apply subseteq_size in Hsub. lia.
    + exists c1, c2. split; [exact Hc|].
      apply Nat.ltb_lt in Hgt. rewrite Hgt in H. cbv zeta. split.
      * exact H.
      * unfold issues.
        apply (in_map issue_text (detect_issues st)
                 (EndpointIssue
                    (overlap_percent (size (endpoint_set da ∩ endpoint_set db))
                       (size (endpoint_set da ∪ endpoint_set db))) c1 c2)).
        eapply proj1. apply List.filter_In. rewrite H. now left.
  - intros Hle. apply Nat.ltb_ge in Hle. now rewrite Hle in H.
  - intros p x y Hin. apply NoDup_ListNoDup in Hnd.
    unfold detect_issues in Hin.
    destruct (1 <? length (clusters st)); [|contradiction].
    apply in_app_or in Hin as [Hin | Hin].
    + apply namespace_issues_In in Hin as [ns [acc Hin]]. discriminate.
    + rewrite endpoint_sets_keys in Hin.
      apply endpoint_issues_In in Hin as [l1 [l2 [Hids Hin]]].
      rewrite Hids in Hnd. apply List.NoDup_remove_2 in Hnd.
      intros ->. apply Hnd. apply in_or_app. now right.
Qed.

(** ** Records that cannot make the analysis raise *)

Lemma triple_ok_bind {A B} (P R Q : analyzer -> Prop) (m : M A) (k : A -> M B) :
  triple_ok P m R -> (forall a, triple_ok R (k a) Q) -> triple_ok P (bind m k) Q.
Proof.
  intros Hm Hk st HP. destruct (Hm st HP) as [Hs HR]. unfold bind.
  destruct (m st) as [[a|e] st']; cbn [fst snd] in *; [|contradiction].
  now apply Hk.
Qed.

Lemma triple_ok_modify (P Q : analyzer -> Prop) (f : analyzer -> analyzer) :
  (forall st, P st -> Q (f st)) -> triple_ok P (modify f) Q.
Proof. intros H st HP. split; [exact I | now apply H]. Qed.

Lemma triple_ok_ret {A} (P Q : analyzer -> Prop) (a : A) :
  (forall st, P st -> Q st) -> triple_ok P (ret a) Q.
Proof. intros H st HP. split; [exact I | now apply H]. Qed.

Lemma dt_lt_same_kind (a b : datetime) :
  is_aware a = is_aware b -> exists r, dt_lt a b = Ok r.
Proof.
  unfold is_aware, dt_lt.
  destruct (utcoffset a), (utcoffset b); try discriminate; eauto.
Qed.

Lemma seen_step_kind (k : bool) (ts : datetime) (d : cluster_data) :
  is_aware ts = k -> seen_kind k d -> seen_kind k (seen_step ts d).
Proof.
  intros Hts [H1 H2]. unfold seen_kind, seen_step.
  destruct (first_seen d) as [f|] eqn:Ef, (last_seen d) as [l|] eqn:El;
    try (destruct (dt_lt ts f) as [[|]|e]); seen_simpl Ef El;
    try (destruct (dt_lt l ts) as [[|]|e']); seen_simpl Ef El;
    split; intros ? HH; seen_simpl Ef El; try discriminate;
    try (injection HH as <-); auto.
Qed.

Section Completion.

Variable cid : string.
Variable base : list (string * cluster_data).
Variable k : bool.
Hypothesis base_has_cid : exists d0, dict_get cid base = Some d0.
Hypothesis base_kind : Forall (fun p => seen_kind k (snd p)) base.

Lemma Neutral_kind (st : analyzer) (d : cluster_data) :
  Neutral cid base st -> dict_get cid (clusters st) = Some d -> seen_kind k d.
Proof.
  intros [f [Hf Hc]] Hd. rewrite Hc, dict_get_alter, String.eqb_refl in Hd.
  destruct (dict_get cid base) as [d0|] eqn:E0; [|discriminate].
  injection Hd as <-. apply dict_get_In in E0.
  rewrite List.Forall_forall in base_kind. specialize (base_kind _ E0).
  destruct (Hf d0) as [H1 H2], base_kind as [K1 K2]. unfold seen_kind.
  cbn [snd] in *. rewrite H1, H2. now split.
Qed.

Lemma triple_ok_mutate (f' : cluster_data -> cluster_data) :
  seen_neutral f' ->
  triple_ok (Neutral cid base) (mutate cid f') (Neutral cid base).
Proof.
  intros Hf' st HN. split; [exact I|]. now apply (triple_mutate cid base f' Hf').
Qed.

(** With instants of one kind, no comparison of the block under [if ts:]
    raises. *)
Lemma update_seen_succeeds (ts : datetime) (st : analyzer) (d : cluster_data) :
  dict_get cid (clusters st) = Some d -> seen_kind k d -> is_aware ts = k ->
  fst (update_seen cid ts st) = Ok tt.
Proof.
  intros Hd [K1 K2] Hts. unfold update_seen.
  unfold bind at 1. rewrite (cluster_ref_state cid st d Hd). cbv beta iota.
  assert (Hlast : forall (d1 : cluster_data) (s : analyzer),
             dict_get cid (clusters s) = Some d1 ->
             (forall l, last_seen d1 = Some l -> is_aware l = k) ->
             fst (bind (cluster_ref cid) (fun d' =>
               bind (match last_seen d' with
                     | None => ret true
                     | Some l => lift (dt_lt l ts)
                     end)
                    (fun later => if later then mutate cid (set_last_seen ts)
                                  else ret tt)) s) = Ok tt).
  { intros d1 s H1 HK. unfold bind at 1. rewrite (cluster_ref_state cid s d1 H1).
    cbv beta iota. destruct (last_seen d1) as [l|] eqn:El; [|reflexivity].
    destruct (dt_lt_same_kind l ts) as [[|] Hr];
      [rewrite Hts; now apply HK | |]; unfold bind, lift; now rewrite Hr. }
  assert (Hget : forall f, dict_get cid (clusters (set_clusters
                     (dict_alter cid f (clusters st)) st)) = Some (f d)).
  { intros f. cbn [clusters set_clusters].
    now rewrite dict_get_alter, String.eqb_refl, Hd. }
  destruct (first_seen d) as [f|] eqn:Ef.
  - destruct (dt_lt_same_kind ts f) as [[|] Hr];
      [rewrite Hts; symmetry; now apply K1 | |];
      unfold bind at 1, lift at 1; rewrite Hr.
    + unfold bind at 1, mutate at 1, modify at 1.
      apply (Hlast _ _ (Hget _)). exact K2.
    + unfold bind at 1, ret at 1. now apply (Hlast _ _ Hd).
  - unfold bind at 1, ret at 1. unfold bind at 1, mutate at 1, modify at 1.
    apply (Hlast _ _ (Hget _)). exact K2.
Qed.

Lemma triple_ok_update_seen (ts : datetime) :
  is_aware ts = k ->
  triple_ok (Neutral cid base) (update_seen cid ts)
    (fun st => Forall (fun p => seen_kind k (snd p)) (clusters st)).
Proof.
  intros Hts st HN.
  destruct (Neutral_has_cid cid base base_has_cid st HN) as [d Hd].
  pose proof (Neutral_kind st d HN Hd) as Hk. split.
  - now rewrite (update_seen_succeeds ts st d Hd Hk Hts).
  - rewrite (update_seen_effect cid ts st d Hd).
    destruct HN as [f [Hf ->]].
    apply Forall_dict_alter.
    + intros k0 v Hv. now apply seen_step_kind.
    + apply Forall_dict_alter; [|exact base_kind].
      intros k0 v [H1 H2]. destruct (Hf v) as [E1 E2]. unfold seen_kind.
      cbn [snd] in *. rewrite E1, E2. now split.
Qed.

Lemma Neutral_uniform (st : analyzer) :
  Neutral cid base st -> Forall (fun p => seen_kind k (snd p)) (clusters st).
Proof.
  intros [f [Hf ->]]. apply Forall_dict_alter; [|exact base_kind].
  intros k0 v [H1 H2]. destruct (Hf v) as [E1 E2]. unfold seen_kind.
  cbn [snd] in *. rewrite E1, E2. now split.
Qed.

End Completion.

Section RecordCompletion.

Variable unquote : string -> string.
Variable fromisoformat : string -> option datetime.

Lemma record_request_completes (k : bool) (cid uri : string) (verb : json)
  (info : resource_info) (ts : option datetime) (rd : request_data)
  (st : analyzer) :
  py_hashable verb = true ->
  (forall t, ts = Some t -> is_aware t = k) ->
  uniform_kind k st ->
  fst (record_request cid uri verb info ts rd st) = Ok tt
  /\ uniform_kind k (snd (record_request cid uri verb info ts rd st)).
Proof.
  intros Hverb Hts Hk.
  set (base := dict_setdefault cid new_cluster (clusters st)).
  assert (Hbase : exists d0, dict_get cid base = Some d0).
  { unfold base. rewrite dict_get_setdefault, String.eqb_refl. eauto. }
  assert (Hbk : Forall (fun p => seen_kind k (snd p)) base).
  { apply Forall_dict_setdefault; [|exact Hk]. split; discriminate. }
  assert (Hmut : forall f, seen_neutral f ->
            triple_ok (Neutral cid base) (mutate cid f) (Neutral cid base))
    by (intros f Hf; now apply triple_ok_mutate).
  assert (Hret : triple_ok (Neutral cid base) (ret tt) (Neutral cid base))
    by (now apply triple_ok_ret).
  enough (H : triple_ok (fun s => s = st)
                (record_request cid uri verb info ts rd) (uniform_kind k)).
  { destruct (H st eq_refl) as [Hs Hu]. split; [|exact Hu].
    destruct (record_request cid uri verb info ts rd st) as [[[]|e] st'];
      [reflexivity | contradiction]. }
  unfold record_request. rewrite Hverb.
  apply (triple_ok_bind _ (Neutral cid base)); [|intros _].
  { intros s ->. unfold cluster_ref, bind, modify, gets. cbn [fst snd].
    split; [exact I|]. exists (fun x => x). split; [now split|].
    cbn [set_clusters clusters]. fold base. now rewrite dict_alter_id. }
  apply (triple_ok_bind _ (Neutral cid base)); [apply Hmut; now split|intros _].
  apply (triple_ok_bind _ (Neutral cid base)); [apply Hmut; now split|intros _].
  apply (triple_ok_bind _ (Neutral cid base)); [apply Hmut; now split|intros _].
  apply (triple_ok_bind _ (Neutral cid base)); [apply Hmut; now split|intros _].
  apply (triple_ok_bind _ (Neutral cid base)); [|intros _].
  { destruct (namespace info) as [ns|]; [|exact Hret].
    destruct (PyStr.is_empty ns); [exact Hret | apply Hmut; now split]. }
  apply (triple_ok_bind _ (Neutral cid base)); [|intros _].
  { destruct (is_watch_request uri); [apply Hmut; now split | exact Hret]. }
  destruct ts as [t|].
  - apply triple_ok_update_seen; auto.
  - apply triple_ok_ret. now apply Neutral_uniform.
Qed.

(** A record whose fields have the types the analysis expects cannot make
    it raise: when the entry is an object, its [user] an object with a string
    [username], its [requestURI] a string, its [verb] hashable, and the parsed
    timestamps of the run are all aware or all naive, [analyze_entry]
    returns, and the recorded instants stay of that kind. *)
Theorem well_typed_record_completes (k : bool) (fields ufields : list (string * json))
  (name uri : string) (st : analyzer) :
  default (JObj []) (dict_get "user" fields) = JObj ufields ->
  default (JStr "") (dict_get "username" ufields) = JStr name ->
  default (JStr "") (dict_get "requestURI" fields) = JStr uri ->
  py_hashable (default (JStr "") (dict_get "verb" fields)) = true ->
  (forall t, parse_timestamp fromisoformat
               (default JNull (dict_get "requestReceivedTimestamp" fields)) = Some t ->
             is_aware t = k) ->
  uniform_kind k st ->
  fst (analyze_entry unquote fromisoformat (JObj fields) st) = Ok tt
  /\ uniform_kind k (snd (analyze_entry unquote fromisoformat (JObj fields) st)).
Proof.
  intros Huser Hname Huri Hverb Hts Hk.
  unfold analyze_entry.
  destruct (py_truthy (JObj fields)); cbn [negb]; [|now split].
  cbn [py_get]. repeat mstep. rewrite Huser, Huri.
  destruct (stage_analyzed _); cbn [negb]; [|now split].
  unfold extract_cluster_id. cbn [py_get]. rewrite Hname. mstep.
  cbn [analyze_request_uri_of]. repeat mstep.
  destruct (String.eqb _ "kwok-system"); [now split|].
  apply record_request_completes; assumption.
Qed.

End RecordCompletion.

(** ** Paths as lists of segments *)

Lemma join_last (sep : ascii) (segs : list string) :
  segs <> [] -> exists pre, join sep segs = pre +:+ List.last segs EmptyString.
Proof.
  induction segs as [|x segs IH]; [congruence|]. intros _.
  destruct segs as [|y segs].
  - now exists EmptyString.
  - destruct IH as [pre Hpre]; [discriminate|].
    exists (x +:+ String sep pre).
    change (join sep (x :: y :: segs)) with (x +:+ String sep (join sep (y :: segs))).
    rewrite Hpre. change (List.last (x :: y :: segs) EmptyString)
      with (List.last (y :: segs) EmptyString).
    rewrite PyStrFacts.append_assoc. reflexivity.
Qed.

Lemma rstrip_snoc (p : ascii -> bool) (s : string) (c : ascii) :
  p c = true -> PyStr.rstrip p (s +:+ String c EmptyString) = PyStr.rstrip p s.
Proof.
  intros Hc. induction s as [|x s IH].
  - change (PyStr.rstrip p (String c EmptyString) = EmptyString).
    cbn. now rewrite Hc.
  - change (String x s +:+ String c EmptyString)
      with (String x (s +:+ String c EmptyString)).
    cbn [PyStr.rstrip]. now rewrite IH.
Qed.

Lemma strip_join_segments (segs : list string) :
  segs <> [] ->
  Forall clean_segment segs ->
  List.hd EmptyString segs <> EmptyString ->
  List.last segs EmptyString <> EmptyString ->
  PyStr.strip (Ascii.eqb "/") (join "/" segs) = join "/" segs.
Proof.
  intros Hne Hclean Hhd Hlast. unfold PyStr.strip.
  assert (Hl : PyStr.lstrip (Ascii.eqb "/") (join "/" segs) = join "/" segs).
  { destruct segs as [|x segs]; [congruence|].
    inversion Hclean as [|? ? [Hx _] _]; subst. cbn in Hhd.
    destruct x as [|c x]; [congruence|].
    cbn in Hx. apply orb_false_iff in Hx as [Hc _].
    assert (Hj : exists r, join "/" (String c x :: segs) = String c r).
    { destruct segs; [now exists x|]. eexists. reflexivity. }
    destruct Hj as [r ->]. cbn [PyStr.lstrip].
    rewrite Ascii.eqb_sym in Hc. now rewrite Hc. }
  rewrite Hl.
  destruct (join_last "/" segs Hne) as [pre ->].
  apply rstrip_app; [|exact Hlast].
  apply PyStrFacts.rstrip_absent. intros c Hc. apply Ascii.eqb_eq in Hc. subst c.
  assert (Hin : In (List.last segs EmptyString) segs).
  { clear -Hne. induction segs as [|x [|y segs] IH]; [congruence | now left |].
    right. apply IH. discriminate. }
  rewrite List.Forall_forall in Hclean. now destruct (Hclean _ Hin).
Qed.

Section SegmentFacts.

Variable unquote : string -> string.

(** The classifier sees a path as its list of segments: when the segments
    hold no ['/'] and no ['?'] and the first and the last are not empty,
    joining them with ['/'] and splitting the result gives them back, with or
    without a leading and a trailing ['/'], and whatever query string
    follows; so the group, version, resource and namespace depend on the
    segments only. *)
Theorem path_parts_of_segments (segs : list string) (q : string) :
  segs <> [] ->
  Forall clean_segment segs ->
  List.hd EmptyString segs <> EmptyString ->
  List.last segs EmptyString <> EmptyString ->
  path_parts (join "/" segs) = segs
  /\ path_parts ("/" +:+ join "/" segs +:+ "/") = segs
  /\ path_parts ("/" +:+ join "/" segs +:+ "?" +:+ q) = segs
  /\ set_query_params []
       (analyze_request_uri unquote ("/" +:+ join "/" segs +:+ "?" +:+ q))
     = set_query_params [] (analyze_request_uri unquote (join "/" segs)).
Proof.
  intros Hne Hclean Hhd Hlast.
  assert (Hq : PyStr.has_char "?" (join "/" segs) = false).
  { apply has_char_join; [discriminate|].
    eapply Forall_impl; [exact Hclean|]. now intros x [_ H]. }
  assert (Hsplit : PyStr.split "/" (join "/" segs) = segs).
  { apply split_join; [exact Hne|].
    eapply Forall_impl; [exact Hclean|]. now intros x [H _]. }
  assert (H1 : path_parts (join "/" segs) = segs).
  { unfold path_parts. rewrite (PyStrFacts.split_no_sep "?") by exact Hq.
    cbn [PyStr.item nth].
    now rewrite strip_join_segments. }
  assert (H2 : path_parts ("/" +:+ join "/" segs +:+ "/") = segs).
  { unfold path_parts. rewrite (PyStrFacts.split_no_sep "?").
    2:{ change ("/" +:+ join "/" segs +:+ "/")
          with (String "/" (join "/" segs +:+ "/")).
        cbn [PyStr.has_char]. rewrite PyStrFacts.has_char_app, Hq. reflexivity. }
    cbn [PyStr.item nth]. unfold PyStr.strip.
    change (PyStr.lstrip (Ascii.eqb "/") ("/" +:+ join "/" segs +:+ "/"))
      with (PyStr.lstrip (Ascii.eqb "/") (join "/" segs +:+ "/")).
    pose proof (strip_join_segments segs Hne Hclean Hhd Hlast) as Hs.
    unfold PyStr.strip in Hs.
    assert (Hl : PyStr.lstrip (Ascii.eqb "/") (join "/" segs +:+ "/")
                 = PyStr.lstrip (Ascii.eqb "/") (join "/" segs) +:+ "/").
    { destruct (join "/" segs) as [|c r] eqn:Ej.
      - exfalso. destruct segs as [|x segs]; [congruence|].
        cbn in Hhd. destruct x; [congruence|]. destruct segs; discriminate.
      - change (String c r +:+ "/") with (String c (r +:+ "/")).
        cbn [PyStr.lstrip].
        destruct (Ascii.eqb "/" c) eqn:Ec; [|reflexivity].
        exfalso. apply Ascii.eqb_eq in Ec. subst c.
        destruct segs as [|x segs]; [congruence|].
        inversion Hclean as [|? ? [Hx _] _]; subst. cbn in Hhd.
        destruct x as [|c x]; [congruence|].
        assert (c = "/"%char) by (destruct segs; now injection Ej).
        subst c. cbn in Hx. discriminate. }
    rewrite Hl.
    change (PyStr.lstrip (Ascii.eqb "/") (join "/" segs) +:+ "/")
      with (PyStr.lstrip (Ascii.eqb "/") (join "/" segs)
            +:+ String "/" EmptyString).
    rewrite rstrip_snoc by reflexivity. now rewrite Hs. }
  assert (H3 : path_parts ("/" +:+ join "/" segs +:+ "?" +:+ q) = segs).
  { unfold path_parts.
    change ("/" +:+ join "/" segs +:+ "?" +:+ q)
      with (String "/" (join "/" segs +:+ String "?" q)).
    assert (Hs : PyStr.split "?" (String "/" (join "/" segs +:+ String "?" q))
                 = String "/" (join "/" segs) :: PyStr.split "?" q).
    { change (String "/" (join "/" segs +:+ String "?" q))
        with (String "/" (join "/" segs) +:+ String "?" q).
      apply PyStrFacts.split_app. cbn. exact Hq. }
    rewrite Hs. cbn [PyStr.item nth]. unfold PyStr.strip.
    change (PyStr.lstrip (Ascii.eqb "/") (String "/" (join "/" segs)))
      with (PyStr.lstrip (Ascii.eqb "/") (join "/" segs)).
    pose proof (strip_join_segments segs Hne Hclean Hhd Hlast) as Hst.
    unfold PyStr.strip in Hst. now rewrite Hst. }
  repeat split; try assumption.
  unfold analyze_request_uri. now rewrite H1, H3.
Qed.

(** The descriptor is consistent: [namespaced] is set exactly when a
    namespace was captured, and then the path holds a segment
    [namespaces]. *)
Theorem namespaced_iff_namespace (uri : string) :
  (namespaced (analyze_request_uri unquote uri) = true
   <-> namespace (analyze_request_uri unquote uri) <> None)
  /\ (namespaced (analyze_request_uri unquote uri) = true ->
      In "namespaces" (path_parts uri)
      /\ (PyStr.item 0 (path_parts uri) = "api"
          \/ PyStr.item 0 (path_parts uri) = "apis")).
Proof.
  unfold analyze_request_uri, classify_path, classify_core, classify_apis.
  cbn [namespaced namespace set_query_params].
  set (parts := path_parts uri).
  destruct (2 <=? length parts); [|cbn; split; [split|]; congruence].
  destruct (String.eqb (PyStr.item 0 parts) "api") eqn:E0.
  - apply String.eqb_eq in E0.
    destruct (2 <? length parts) eqn:L2;
      [|destruct (1 <? length parts); cbn; split; [split| |split|]; congruence].
    destruct (String.eqb (PyStr.item 2 parts) "namespaces") eqn:E2; cbn [andb].
    + destruct (3 <? length parts) eqn:L3.
      * apply String.eqb_eq in E2. apply Nat.ltb_lt in L2.
        destruct (1 <? length parts), (4 <? length parts); cbn;
          (split; [split; [discriminate | reflexivity]|]);
          intros _; (split; [|now left]);
          rewrite <- E2; unfold PyStr.item; apply nth_In; lia.
      * destruct (1 <? length parts); cbn; split; [split| |split|]; congruence.
    + destruct (1 <? length parts); cbn; split; [split| |split|]; congruence.
  - destruct (String.eqb (PyStr.item 0 parts) "apis") eqn:E1;
      [|cbn; split; [split|]; congruence].
    apply String.eqb_eq in E1.
    destruct (2 <? length parts); [|cbn; split; [split|]; congruence].
    destruct (3 <? length parts) eqn:L3; [|cbn; split; [split|]; congruence].
    destruct (String.eqb (PyStr.item 3 parts) "namespaces") eqn:E3; cbn [andb].
    + destruct (4 <? length parts) eqn:L4.
      * apply String.eqb_eq in E3. apply Nat.ltb_lt in L3.
        destruct (5 <? length parts); cbn;
          (split; [split; [discriminate | reflexivity]|]);
          intros _; (split; [|now right]);
          rewrite <- E3; unfold PyStr.item; apply nth_In; lia.
      * cbn; split; [split|]; congruence.
    + cbn; split; [split|]; congruence.
Qed.

End SegmentFacts.

(** ** The pattern of [extract_cluster_id] *)

Lemma drop_prefix_spec (p s r : string) :
  PyStr.drop_prefix p s = Some r <-> s = p +:+ r.
Proof.
  revert s. induction p as [|a p IH]; intros s; cbn.
  - split; [now intros [= ->] | now intros ->].
  - destruct s as [|b s]; [split; discriminate|].
    destruct (Ascii.eqb a b) eqn:E.
    + apply Ascii.eqb_eq in E. subst b. rewrite IH. split.
      * now intros ->.
      * intros H. now injection H.
    + split; [discriminate|]. intros H. injection H as -> _.
      now rewrite Ascii.eqb_refl in E.
Qed.

Lemma span_not_colon (s a b : string) :
  PyStr.span not_colon s = (a, b) ->
  s = a +:+ b /\ PyStr.has_char ":" a = false.
Proof.
  revert a b. induction s as [|c s IH]; intros a b; cbn.
  - intros [= <- <-]. now split.
  - unfold not_colon at 1. destruct (Ascii.eqb c ":") eqn:E; cbn.
    + intros [= <- <-]. now split.
    + destruct (PyStr.span not_colon s) as [a' b'].
      intros [= <- <-]. destruct (IH a' b' eq_refl) as [-> H]. split.
      * reflexivity.
      * cbn. now rewrite E.
Qed.

Lemma span_not_colon_app (g rest : string) :
  PyStr.has_char ":" g = false ->
  PyStr.span not_colon (g +:+ String ":" rest) = (g, String ":" rest).
Proof.
  induction g as [|c g IH]; cbn.
  - reflexivity.
  - intros H. apply orb_false_iff in H as [Hc Hg].
    change (String c g +:+ String ":" rest)
      with (String c (g +:+ String ":" rest)).
    cbn. unfold not_colon at 1. rewrite Hc. cbn. now rewrite (IH Hg).
Qed.

Lemma span_not_colon_head (g post : string) :
  g <> EmptyString -> PyStr.has_char ":" g = false ->
  PyStr.is_empty (fst (PyStr.span not_colon (g +:+ post))) = false.
Proof.
  destruct g as [|c g]; [congruence|]. intros _ H.
  cbn in H. apply orb_false_iff in H as [Hc _].
  change (String c g +:+ post) with (String c (g +:+ post)).
  cbn. unfold not_colon at 1. rewrite Hc. cbn.
  now destruct (PyStr.span not_colon (g +:+ post)).
Qed.

Lemma is_empty_false (s : string) : PyStr.is_empty s = false <-> s <> EmptyString.
Proof. destruct s; cbn; split; congruence. Qed.

Lemma cattle_match_here_sound (s g1 g2 : string) :
  cattle_match_here s = Some (g1, g2) ->
  exists post,
    s = "cattle-system-" +:+ g1 +:+ ":cattle-" +:+ g2 +:+ post
    /\ g1 <> EmptyString /\ g2 <> EmptyString
    /\ PyStr.has_char ":" g1 = false /\ PyStr.has_char ":" g2 = false.
Proof.
  unfold cattle_match_here.
  destruct (PyStr.drop_prefix "cattle-system-" s) as [r1|] eqn:E1; [|discriminate].
  apply drop_prefix_spec in E1.
  destruct (PyStr.span not_colon r1) as [a r2] eqn:E2.
  apply span_not_colon in E2 as [-> Ha].
  destruct (PyStr.is_empty a) eqn:Ea; [discriminate|].
  destruct (PyStr.drop_prefix ":cattle-" r2) as [r3|] eqn:E3; [|discriminate].
  apply drop_prefix_spec in E3.
  destruct (PyStr.span not_colon r3) as [b post] eqn:E4.
  apply span_not_colon in E4 as [-> Hb].
  destruct (PyStr.is_empty b) eqn:Eb; [discriminate|].
  intros [= <- <-]. exists post. subst.
  repeat split; try assumption; now apply is_empty_false.
Qed.

Lemma cattle_match_here_complete (g1 g2 post : string) :
  g1 <> EmptyString -> g2 <> EmptyString ->
  PyStr.has_char ":" g1 = false -> PyStr.has_char ":" g2 = false ->
  exists g2',
    cattle_match_here ("cattle-system-" +:+ g1 +:+ ":cattle-" +:+ g2 +:+ post)
    = Some (g1, g2').
Proof.
  intros Hn1 Hn2 H1 H2. unfold cattle_match_here.
  assert (E1 : PyStr.drop_prefix "cattle-system-"
                 ("cattle-system-" +:+ g1 +:+ ":cattle-" +:+ g2 +:+ post)
               = Some (g1 +:+ ":cattle-" +:+ g2 +:+ post))
    by now apply drop_prefix_spec.
  rewrite E1.
  change (g1 +:+ ":cattle-" +:+ g2 +:+ post)
    with (g1 +:+ String ":" ("cattle-" +:+ g2 +:+ post)).
  rewrite (span_not_colon_app g1 _ H1).
  apply is_empty_false in Hn1. rewrite Hn1.
  assert (E3 : PyStr.drop_prefix ":cattle-"
                 (String ":" ("cattle-" +:+ g2 +:+ post))
               = Some (g2 +:+ post))
    by now apply drop_prefix_spec.
  rewrite E3.
  pose proof (span_not_colon_head g2 post Hn2 H2) as Hh.
  destruct (PyStr.span not_colon (g2 +:+ post)) as [b rest]. cbn [fst] in Hh.
  rewrite Hh. eauto.
Qed.

Lemma cattle_search_sound (s g1 g2 : string) :
  cattle_search s = Some (g1, g2) ->
  exists pre post,
    s = pre +:+ "cattle-system-" +:+ g1 +:+ ":cattle-" +:+ g2 +:+ post
    /\ g1 <> EmptyString /\ g2 <> EmptyString
    /\ PyStr.has_char ":" g1 = false /\ PyStr.has_char ":" g2 = false.
Proof.
  induction s as [|c s IH].
  - cbn. discriminate.
  - cbn [cattle_search].
    destruct (cattle_match_here (String c s)) as [[a b]|] eqn:E.
    + intros [= <- <-].
      destruct (cattle_match_here_sound _ _ _ E) as [post H].
      now exists EmptyString, post.
    + intros H. destruct (IH H) as [pre [post [-> Hrest]]].
      now exists (String c pre), post.
Qed.

Lemma cattle_search_complete (pre s : string) :
  cattle_match_here s <> None -> cattle_search (pre +:+ s) <> None.
Proof.
  intros Hs. induction pre as [|c pre IH].
  - change (EmptyString +:+ s) with s.
    destruct s as [|c s]; cbn [cattle_search];
      destruct (cattle_match_here _); congruence.
  - change (String c pre +:+ s) with (String c (pre +:+ s)).
    cbn [cattle_search].
    destruct (cattle_match_here (String c (pre +:+ s))); congruence.
Qed.

(** [extract_cluster_id] maps a user name to a tenant id [rancher-...]
    exactly when the name holds a marker [cattle-system-g1:cattle-g2] with
    two non-empty, colon-free parts; the id is then built from the first part
    of a marker of the name.  Otherwise the result is the system sentinel when
    the name is [kwok-admin] or starts with [system:], and [unknown] in every
    other case. *)
Theorem cluster_id_of_username_cases (username : string) :
  ((exists g, cluster_id_of_username username = "rancher-" +:+ g)
   <-> has_marker username)
  /\ (forall g, cluster_id_of_username username = "rancher-" +:+ g ->
        exists pre g2 post,
          username = pre +:+ "cattle-system-" +:+ g +:+ ":cattle-" +:+ g2 +:+ post)
  /\ (~ has_marker username ->
      cluster_id_of_username username
      = if String.eqb username "kwok-admin" || PyStr.startswith "system:" username
        then "kwok-system" else "unknown").
Proof.
  unfold cluster_id_of_username, has_marker.
  destruct (cattle_search username) as [[g1 g2]|] eqn:E.
  - destruct (cattle_search_sound _ _ _ E) as [pre [post [Hu Hrest]]].
    split; [split|split].
    + intros _. now exists pre, g1, g2, post.
    + intros _. now exists g1.
    + intros g Hg.
      assert (g = g1) by (now injection Hg). subst g.
      now exists pre, g2, post.
    + intros Hno. exfalso. apply Hno. now exists pre, g1, g2, post.
  - assert (Hnot : forall g,
               (if String.eqb username "kwok-admin"
                   || String.eqb username "system:apiserver"
                   || PyStr.startswith "system:" username
                then "kwok-system" else "unknown") <> "rancher-" +:+ g).
    { intros g. destruct (_ || _); discriminate. }
    split; [split|split].
    + intros [g Hg]. now destruct (Hnot g).
    + intros [pre [a [b [post [-> [Ha [Hb [Hca Hcb]]]]]]]]. exfalso.
      destruct (cattle_match_here_complete a b post Ha Hb Hca Hcb) as [b' Hm].
      apply (cattle_search_complete pre
               ("cattle-system-" +:+ a +:+ ":cattle-" +:+ b +:+ post));
        [congruence | exact E].
    + intros g Hg. now destruct (Hnot g).
    + intros _.
      destruct (String.eqb username "system:apiserver") eqn:Ea; [|
        now rewrite orb_false_r].
      apply String.eqb_eq in Ea. subst username. reflexivity.
Qed.

(** ** What [detect_issues] reports *)

Lemma accessing_clusters_model (ns : string) (cl : list (string * cluster_data)) :
  map fst (List.filter (fun p => bool_decide (ns ∈ snd p)) (cluster_namespaces cl))
  = accessing_tenants ns cl.
Proof.
  unfold accessing_tenants, cluster_namespaces.
  induction cl as [|[k d] cl IH]; [reflexivity|]. cbn.
  destruct (bool_decide (ns ∈ namespaces_accessed d)); cbn; now rewrite IH.
Qed.

Lemma all_namespaces_fold (cl : list (string * cluster_data)) (acc : gset string)
  (ns : string) :
  ns ∈ fold_left (fun a '(_, d) => a ∪ namespaces_accessed d) cl acc
  <-> ns ∈ acc \/ exists p, In p cl /\ ns ∈ namespaces_accessed (snd p).
Proof.
  revert acc. induction cl as [|[k d] cl IH]; intros acc; cbn.
  - split; [now left | intros [H | [p [[] _]]]; exact H].
  - rewrite IH, elem_of_union. split.
    + intros [[H | H] | [p [Hp Hn]]]; [now left | | ].
      * right. exists (k, d). split; [now left | exact H].
      * right. exists p. split; [now right | exact Hn].
    + intros [H | [p [[<- | Hp] Hn]]]; [left; now left | left; now right |].
      right. now exists p.
Qed.

Lemma accessing_tenants_nil (ns : string) (cl : list (string * cluster_data)) :
  ns ∉ all_namespaces cl -> accessing_tenants ns cl = [].
Proof.
  intros Hns. unfold accessing_tenants.
  assert (H : forall p, In p cl -> ns ∉ namespaces_accessed (snd p)).
  { intros p Hp Hin. apply Hns. unfold all_namespaces.
    apply all_namespaces_fold. right. now exists p. }
  clear Hns. induction cl as [|p cl IH]; [reflexivity|]. cbn.
  rewrite bool_decide_eq_false_2 by (apply H; now left).
  apply IH. intros q Hq. apply H. now right.
Qed.

Lemma accessing_tenants_length (ns : string) (cl : list (string * cluster_data)) :
  length (accessing_tenants ns cl) <= length cl.
Proof.
  unfold accessing_tenants. rewrite length_map. apply List.filter_length_le.
Qed.

Lemma filter_about_endpoint_issues (ns : string)
  (es : list (string * gset string)) (ids : list string) :
  List.filter (about_namespace ns) (endpoint_issues es ids) = [].
Proof.
  assert (H : forall i, In i (endpoint_issues es ids) -> about_namespace ns i = false).
  { intros [n acc | p c1 c2] Hi; [|reflexivity]. exfalso.
    revert Hi. induction ids as [|c rest IH]; [contradiction|].
    cbn [endpoint_issues]. intros Hi. apply in_app_or in Hi as [Hi | Hi]; [|auto].
    apply in_flat_map in Hi as [x [_ Hi]]. unfold overlap_issue in Hi.
    destruct (5 <? _); [destruct Hi as [Hi | []]; discriminate | contradiction]. }
  induction (endpoint_issues es ids) as [|i l IH]; [reflexivity|].
  cbn [List.filter]. rewrite (H i (in_eq _ _)). apply IH.
  intros j Hj. apply H. now right.
Qed.

Lemma filter_about_flat_map (ns : string) (g : string -> list string)
  (l : list string) :
  List.NoDup l ->
  List.filter (about_namespace ns)
    (flat_map (fun n => if 1 <? length (g n)
                        then [NamespaceIssue n (g n)] else []) l)
  = if bool_decide (ns ∈ l)
    then (if 1 <? length (g ns) then [NamespaceIssue ns (g ns)] else [])
    else [].
Proof.
  induction 1 as [|n l Hn Hnd IH]; [reflexivity|].
  cbn [flat_map]. rewrite List.filter_app, IH.
  destruct (decide (n = ns)) as [->|Hne].
  - rewrite (bool_decide_eq_true_2 (ns ∈ ns :: l))
      by (apply list_elem_of_In; now left).
    rewrite (bool_decide_eq_false_2 (ns ∈ l))
      by (intros H; apply Hn; now apply list_elem_of_In).
    rewrite app_nil_r. destruct (1 <? length (g ns)); [|reflexivity].
    cbn. now rewrite String.eqb_refl.
  - assert (Hhead : List.filter (about_namespace ns)
                      (if 1 <? length (g n) then [NamespaceIssue n (g n)] else [])
                    = []).
    { destruct (1 <? length (g n)); [|reflexivity]. cbn.
      apply String.eqb_neq in Hne. now rewrite Hne. }
    rewrite Hhead, app_nil_l.
    destruct (bool_decide (ns ∈ l)) eqn:E.
    + apply bool_decide_eq_true_1 in E.
      rewrite (bool_decide_eq_true_2 (ns ∈ n :: l)); [reflexivity|].
      apply list_elem_of_In. right. now apply list_elem_of_In.
    + apply bool_decide_eq_false_1 in E.
      rewrite (bool_decide_eq_false_2 (ns ∈ n :: l)); [reflexivity|].
      intros H. apply list_elem_of_In in H as [H | H]; [congruence|].
      apply E. now apply list_elem_of_In.
Qed.

Lemma detect_issues_namespace (st : analyzer) (ns : string) :
  List.filter (about_namespace ns) (detect_issues st)
  = if 1 <? length (accessing_tenants ns (clusters st))
    then [NamespaceIssue ns (accessing_tenants ns (clusters st))]
    else [].
Proof.
  unfold detect_issues.
  destruct (1 <? length (clusters st)) eqn:Hlen.
  - rewrite List.filter_app, filter_about_endpoint_issues, app_nil_r.
    unfold namespace_issues.
    rewrite (flat_map_ext _
               (fun n => if 1 <? length (accessing_tenants n (clusters st))
                         then [NamespaceIssue n (accessing_tenants n (clusters st))]
                         else [])).
    2:{ intros n. now rewrite accessing_clusters_model. }
    rewrite filter_about_flat_map
      by (apply NoDup_ListNoDup, NoDup_elements).
    destruct (bool_decide (ns ∈ elements (all_namespaces (clusters st)))) eqn:E;
      [reflexivity|].
    apply bool_decide_eq_false_1 in E.
    rewrite accessing_tenants_nil; [reflexivity|].
    intros Hin. apply E. apply elem_of_elements. exact Hin.
  - apply Nat.ltb_ge in Hlen.
    pose proof (accessing_tenants_length ns (clusters st)) as Hle.
    assert (Hf : (1 <? length (accessing_tenants ns (clusters st))) = false)
      by (apply Nat.ltb_ge; lia).
    now rewrite Hf.
Qed.

(** [detect_issues] reports a namespace exactly when two or more tenants
    hold it in [namespaces_accessed]: then there is exactly one issue about
    it, and it lists these tenants, all of them, in the order of [clusters];
    otherwise there is none. *)
Theorem namespace_overlap_reported (st : analyzer) (ns : string) :
  List.filter (about_namespace ns) (detect_issues st)
  = if 1 <? length (accessing_tenants ns (clusters st))
    then [NamespaceIssue ns (accessing_tenants ns (clusters st))]
    else [].
Proof. apply detect_issues_namespace. Qed.

Lemma detect_issues_pair (st : analyzer) (a b : string) (da db : cluster_data) :
  NoDup (map fst (clusters st)) ->
  a <> b ->
  dict_get a (clusters st) = Some da ->
  dict_get b (clusters st) = Some db ->
  exists c1 c2,
    List.filter (names_pair a b) (detect_issues st)
    = if 5 <? size (endpoint_set da ∩ endpoint_set db)
      then [EndpointIssue
              (overlap_percent (size (endpoint_set da ∩ endpoint_set db))
                 (size (endpoint_set da ∪ endpoint_set db)))
              c1 c2]
      else [].
Proof.
  intros Hnd Hne Ha Hb.
  destruct (detect_issues_pair_ordered st a b da db Hnd Hne Ha Hb)
    as [c1 [c2 [_ H]]].
  now exists c1, c2.
Qed.

Lemma dict_get_of_key {V} (k : string) (d : list (string * V)) :
  In k (map fst d) -> exists v, dict_get k d = Some v.
Proof.
  induction d as [|[k0 v0] d IH]; [contradiction|]. cbn.
  destruct (String.eqb k0 k) eqn:E; [eauto|].
  intros [H | H]; [|auto]. apply String.eqb_neq in E. contradiction.
Qed.

(** [detect_issues] reports nothing exactly when the tenants are isolated:
    no namespace is held by two tenants and no two tenants share more than 5
    endpoint paths.  With fewer than two tenants it reports nothing. *)
Theorem no_issues_iff_isolated (st : analyzer) :
  NoDup (map fst (clusters st)) ->
  (detect_issues st = []
   <-> (forall ns, length (accessing_tenants ns (clusters st)) <= 1)
       /\ (forall a b da db,
              a <> b ->
              dict_get a (clusters st) = Some da ->
              dict_get b (clusters st) = Some db ->
              size (endpoint_set da ∩ endpoint_set db) <= 5))
  /\ (length (clusters st) <= 1 -> detect_issues st = []).
Proof.
  intros Hnd. split; [split|].
  - intros Hnil. split.
    + intros ns. pose proof (detect_issues_namespace st ns) as H.
      rewrite Hnil in H. cbn [List.filter] in H.
      destruct (1 <? length (accessing_tenants ns (clusters st))) eqn:E;
        [discriminate|]. now apply Nat.ltb_ge in E.
    + intros a b da db Hne Ha Hb.
      destruct (detect_issues_pair st a b da db Hnd Hne Ha Hb) as [c1 [c2 H]].
      rewrite Hnil in H. cbn [List.filter] in H.
      destruct (5 <? size (endpoint_set da ∩ endpoint_set db)) eqn:E;
        [discriminate|]. now apply Nat.ltb_ge in E.
  - intros [Hns Hep].
    destruct (detect_issues st) as [|i l] eqn:E; [reflexivity|]. exfalso.
    assert (Hin : In i (detect_issues st)) by (rewrite E; now left).
    destruct i as [ns acc | p c1 c2].
    + assert (Hf : In (NamespaceIssue ns acc)
                     (List.filter (about_namespace ns) (detect_issues st))).
      { apply List.filter_In. split; [exact Hin|]. cbn. apply String.eqb_refl. }
      rewrite detect_issues_namespace in Hf.
      specialize (Hns ns). apply Nat.ltb_ge in Hns. rewrite Hns in Hf.
      contradiction.
    + assert (Hkeys : exists l1 l2,
                 map fst (clusters st) = l1 ++ c1 :: l2 /\ In c2 l2).
      { unfold detect_issues in Hin.
        destruct (1 <? length (clusters st)); [|contradiction].
        apply in_app_or in Hin as [Hin | Hin].
        - apply namespace_issues_In in Hin as [? [? Hin]]. discriminate.
        - rewrite endpoint_sets_keys in Hin.
          now apply endpoint_issues_In in Hin. }
      destruct Hkeys as [l1 [l2 [Hk Hc2]]].
      assert (Hne : c1 <> c2).
      { apply NoDup_ListNoDup in Hnd. rewrite Hk in Hnd.
        apply List.NoDup_remove_2 in Hnd. intros ->. apply Hnd.
        apply in_or_app. now right. }
      destruct (dict_get_of_key c1 (clusters st)) as [d1 H1].
      { rewrite Hk. apply in_or_app. right. now left. }
      destruct (dict_get_of_key c2 (clusters st)) as [d2 H2].
      { rewrite Hk. apply in_or_app. right. now right. }
      destruct (detect_issues_pair st c1 c2 d1 d2 Hnd Hne H1 H2) as [x [y H]].
      specialize (Hep c1 c2 d1 d2 Hne H1 H2). apply Nat.ltb_ge in Hep.
      rewrite Hep in H.
      assert (Hf : In (EndpointIssue p c1 c2)
                     (List.filter (names_pair c1 c2) (detect_issues st))).
      { apply List.filter_In. split; [exact Hin|]. cbn.
        now rewrite !String.eqb_refl. }
      rewrite H in Hf. contradiction.
  - intros Hlen. unfold detect_issues. apply Nat.ltb_ge in Hlen.
    now rewrite Hlen.
Qed.

(** ** The effect of one entry in closed form *)

Lemma dict_alter_ext_all {V} (k : string) (f g : V -> V) (d : list (string * V)) :
  (forall x, f x = g x) -> dict_alter k f d = dict_alter k g d.
Proof.
  intros H. induction d as [|[k0 v0] d IH]; simpl; [reflexivity|].
  destruct (String.eqb k0 k); [now rewrite H | now rewrite IH].
Qed.

Lemma bind_mutate {B} (cid : string) (f : cluster_data -> cluster_data)
  (k : unit -> M B) (st : analyzer) :
  bind (mutate cid f) k st
  = k tt (set_clusters (dict_alter cid f (clusters st)) st).
Proof. reflexivity. Qed.

Lemma bind_ret {A B} (a : A) (k : A -> M B) (st : analyzer) :
  bind (ret a) k st = k a st.
Proof. reflexivity. Qed.

Lemma bind_cluster_ref {B} (cid : string) (k : cluster_data -> M B) (st : analyzer) :
  bind (cluster_ref cid) k st
  = k (default new_cluster
         (dict_get cid (dict_setdefault cid new_cluster (clusters st))))
      (set_clusters (dict_setdefault cid new_cluster (clusters st)) st).
Proof. reflexivity. Qed.

Section EntryEffect.

Variable unquote : string -> string.
Variable fromisoformat : string -> option datetime.

(** [update_seen] touches [clusters] only. *)
Lemma update_seen_frame (cid : string) (ts : datetime) (st : analyzer) :
  system_requests (snd (update_seen cid ts st)) = system_requests st
  /\ total_requests (snd (update_seen cid ts st)) = total_requests st.
Proof.
  enough (H : triple (fun s => system_requests s = system_requests st
                               /\ total_requests s = total_requests st)
                (update_seen cid ts)
                (fun s => system_requests s = system_requests st
                          /\ total_requests s = total_requests st))
    by (apply H; now split).
  assert (Hmut : forall f, triple
            (fun s => system_requests s = system_requests st
                      /\ total_requests s = total_requests st)
            (mutate cid f)
            (fun s => system_requests s = system_requests st
                      /\ total_requests s = total_requests st))
    by (intros f s Hs; exact Hs).
  assert (Href : triple
            (fun s => system_requests s = system_requests st
                      /\ total_requests s = total_requests st)
            (cluster_ref cid)
            (fun s => system_requests s = system_requests st
                      /\ total_requests s = total_requests st))
    by (intros s Hs; exact Hs).
  unfold update_seen.
  apply (triple_bind _ _ _ _ _ Href); [auto|intros d].
  apply (triple_bind _ (fun s => system_requests s = system_requests st
                                 /\ total_requests s = total_requests st));
    [|auto|intros earlier].
  { destruct (first_seen d); [apply triple_lift | apply triple_ret]; auto. }
  apply (triple_bind _ (fun s => system_requests s = system_requests st
                                 /\ total_requests s = total_requests st));
    [|auto|intros _].
  { destruct earlier; [apply Hmut | apply triple_ret; auto]. }
  apply (triple_bind _ _ _ _ _ Href); [auto|intros d'].
  apply (triple_bind _ (fun s => system_requests s = system_requests st
                                 /\ total_requests s = total_requests st));
    [|auto|intros later].
  { destruct (last_seen d'); [apply triple_lift | apply triple_ret]; auto. }
  destruct later; [apply Hmut | apply triple_ret; auto].
Qed.

(** [record_request] in closed form: the profile of [cid] is created if it is
    missing and then changed as [record_effect] says; nothing else of the
    analyzer changes.  This is the state it leaves also when it raises. *)
Lemma record_request_effect (cid uri : string) (verb : json)
  (info : resource_info) (ts : option datetime) (rd : request_data)
  (st : analyzer) :
  clusters (snd (record_request cid uri verb info ts rd st))
  = dict_alter cid (record_effect uri verb info ts rd)
      (dict_setdefault cid new_cluster (clusters st))
  /\ system_requests (snd (record_request cid uri verb info ts rd st))
     = system_requests st
  /\ total_requests (snd (record_request cid uri verb info ts rd st))
     = total_requests st.
Proof.
  unfold record_request, record_effect.
  rewrite bind_cluster_ref, !bind_mutate.
  fold (base_path uri). fold (resource_key info).
  cbn [clusters set_clusters system_requests total_requests].
  rewrite !dict_alter_alter.
  destruct (py_hashable verb).
  2:{ rewrite bind_lift_Raise. cbn [snd clusters set_clusters system_requests
                                      total_requests]. now split. }
  rewrite !bind_mutate.
  cbn [clusters set_clusters system_requests total_requests].
  rewrite !dict_alter_alter.
  assert (Hstep : forall (F : cluster_data -> cluster_data) (m : M unit)
                    (G : cluster_data -> cluster_data) (k : unit -> M unit)
                    (s : analyzer),
             (m = ret tt /\ (forall x, G x = x) \/ m = mutate cid G) ->
             bind m k (set_clusters (dict_alter cid F
                (dict_setdefault cid new_cluster (clusters st))) s)
             = k tt (set_clusters (dict_alter cid (fun x => G (F x))
                (dict_setdefault cid new_cluster (clusters st))) s)).
  { intros F m G k s [[-> HG] | ->].
    - rewrite bind_ret. do 2 f_equal. apply dict_alter_ext_all.
      intros x. now rewrite HG.
    - rewrite bind_mutate. cbn [clusters set_clusters].
      now rewrite dict_alter_alter. }
  rewrite (Hstep _ _
             (fun x => match namespace info with
                       | Some ns => if PyStr.is_empty ns then x
                                    else add_namespace ns x
                       | None => x
                       end)).
  2:{ destruct (namespace info) as [ns|]; [|left; now split].
      destruct (PyStr.is_empty ns); [left; now split | now right]. }
  rewrite (Hstep _ _
             (fun x => if is_watch_request uri then add_watch rd x else x)).
  2:{ destruct (is_watch_request uri); [now right | left; now split]. }
  destruct ts as [t|].
  - match goal with
    | |- context [update_seen cid t ?s0] =>
        set (s1 := s0); destruct (update_seen_frame cid t s1) as [Hs Ht]
    end.
    rewrite Hs, Ht. split; [|now split].
    assert (Hpresent : exists d0,
               dict_get cid (dict_setdefault cid new_cluster (clusters st)) = Some d0).
    { rewrite dict_get_setdefault, String.eqb_refl. eauto. }
    destruct Hpresent as [d0 H0].
    erewrite update_seen_effect.
    2:{ unfold s1. cbn [clusters set_clusters].
        rewrite dict_get_alter, String.eqb_refl, H0. reflexivity. }
    unfold s1. cbn [clusters set_clusters]. rewrite dict_alter_alter.
    apply dict_alter_ext_all. intros x.
    destruct (namespace info) as [ns|]; [destruct (PyStr.is_empty ns)|];
      destruct (is_watch_request uri); reflexivity.
  - cbn [ret snd clusters set_clusters system_requests total_requests].
    split; [|now split].
    apply dict_alter_ext_all. intros x.
    destruct (namespace info) as [ns|]; [destruct (PyStr.is_empty ns)|];
      destruct (is_watch_request uri); reflexivity.
Qed.

End EntryEffect.

Lemma extract_cluster_id_Ok (user : json) (cid : string) :
  extract_cluster_id user = Ok cid ->
  exists name, py_get user "username" (JStr "") = Ok (JStr name)
               /\ cid = cluster_id_of_username name.
Proof.
  unfold extract_cluster_id.
  destruct (py_get user "username" (JStr "")) as [[| | | |name| |]|e];
    try discriminate.
  intros [= <-]. now exists name.
Qed.

Section EntrySteps.

Variable json_loads : string -> loads_result.
Variable unquote : string -> string.
Variable fromisoformat : string -> option datetime.

(** Every call of [analyze_entry], returning or raising, is one of the three
    steps of [entry_step]. *)
Lemma analyze_entry_step (entry : json) (st : analyzer) :
  entry_step (analyze_request_uri unquote) st
    (snd (analyze_entry unquote fromisoformat entry st)).
Proof.
  assert (Hsame : entry_step (analyze_request_uri unquote) st st)
    by (apply step_idle; auto; lia).
  assert (Hcount : entry_step (analyze_request_uri unquote) st (incr_total st))
    by (apply step_idle; auto; cbn; lia).
  unfold analyze_entry.
  destruct (py_truthy entry); cbn [negb]; [|exact Hsame].
  destruct entry as [| | | | | |fields]; try exact Hcount.
  cbn [py_get]. repeat mstep.
  destruct (stage_analyzed _) eqn:Hstage; cbn [negb]; [|exact Hcount].
  destruct (extract_cluster_id _) as [cluster_id|e] eqn:Hid; mstep;
    [|exact Hcount].
  destruct (extract_cluster_id_Ok _ _ Hid) as [name [Hname ->]].
  destruct (analyze_request_uri_of _ _) as [[u info]|e] eqn:Huri; mstep;
    [|exact Hcount].
  assert (Hinfo : info = analyze_request_uri unquote u).
  { unfold analyze_request_uri_of in Huri.
    destruct (default (JStr "") (dict_get "requestURI" fields));
      try discriminate. now injection Huri as <- <-. }
  rewrite Hname. repeat mstep.
  destruct (String.eqb (cluster_id_of_username name) "kwok-system") eqn:E.
  - apply String.eqb_eq in E.
    match goal with
    | |- context [append_system ?r] =>
        apply (step_system _ _ _ name r); cbn; auto
    end.
  - apply String.eqb_neq in E.
    match goal with
    | |- context [record_request ?c ?u0 ?v ?i ?t ?r ?s0] =>
        destruct (record_request_effect c u0 v i t r s0) as [Hc [Hs Ht]]
    end.
    match goal with
    | |- context [record_request _ _ _ _ _ ?r _] =>
        apply (step_tenant _ _ _ name r); cbn; auto
    end.
Qed.

(** An invariant of the steps of [entry_step] holds after every run of
    [analyze_file], completed or not. *)
Lemma analyze_file_invariant (I : analyzer -> Prop) (lines : list string)
  (st : analyzer) :
  (forall s s', I s -> entry_step (analyze_request_uri unquote) s s' -> I s') ->
  I st ->
  I (snd (analyze_file json_loads unquote fromisoformat lines st)).
Proof.
  intros Hstep. revert st.
  induction lines as [|line rest IH]; intros st HI; [exact HI|].
  cbn [analyze_file].
  destruct (parse_log_line json_loads line) as [entry|e];
    [rewrite bind_lift_Ok | now rewrite bind_lift_Raise].
  unfold bind. destruct (py_truthy entry).
  - pose proof (analyze_entry_step entry st) as Hs.
    apply (Hstep _ _ HI) in Hs.
    destruct (analyze_entry unquote fromisoformat _ st) as [[[]|e] st'];
      cbn [snd] in *; [now apply IH | exact Hs].
  - unfold ret. now apply IH.
Qed.

End EntrySteps.

(** ** Invariants of the profiles *)

Lemma seen_step_fields (t : datetime) (d : cluster_data) :
  requests (seen_step t d) = requests d
  /\ endpoints (seen_step t d) = endpoints d
  /\ verbs (seen_step t d) = verbs d
  /\ resources (seen_step t d) = resources d
  /\ watch_streams (seen_step t d) = watch_streams d
  /\ namespaces_accessed (seen_step t d) = namespaces_accessed d.
Proof.
  unfold seen_step.
  destruct (first_seen d) as [f|];
    [destruct (dt_lt t f) as [[|]|e]|]; cbn;
    repeat match goal with
           | |- context [match last_seen ?x with _ => _ end] =>
               destruct (last_seen x) as [l|]
           | |- context [dt_lt ?a ?b] => destruct (dt_lt a b) as [[|]|?]
           end; repeat split.
Qed.

Lemma record_effect_requests (uri : string) (verb : json) (info : resource_info)
  (ts : option datetime) (rd : request_data) (d : cluster_data) :
  requests (record_effect uri verb info ts rd d) = requests d ++ [rd].
Proof.
  unfold record_effect. destruct (py_hashable verb); [|reflexivity].
  destruct ts as [t|]; [rewrite (proj1 (seen_step_fields t _))|];
    destruct (namespace info) as [ns|]; [destruct (PyStr.is_empty ns)| |
      destruct (PyStr.is_empty ns)|];
    destruct (is_watch_request uri); reflexivity.
Qed.

Lemma record_effect_endpoints (uri : string) (verb : json) (info : resource_info)
  (ts : option datetime) (rd : request_data) (d : cluster_data) :
  endpoints (record_effect uri verb info ts rd d)
  = counter_incr (base_path uri) (endpoints d).
Proof.
  unfold record_effect. destruct (py_hashable verb); [|reflexivity].
  destruct ts as [t|];
    [rewrite (proj1 (proj2 (seen_step_fields t _)))|];
    destruct (namespace info) as [ns|]; [destruct (PyStr.is_empty ns)| |
      destruct (PyStr.is_empty ns)|];
    destruct (is_watch_request uri); reflexivity.
Qed.

Lemma Forall_alter_setdefault {V} (Q : string * V -> Prop) (k : string)
  (f : V -> V) (v : V) (d : list (string * V)) :
  (forall x, x = v \/ Q (k, x) -> Q (k, f x)) ->
  Forall Q d -> Forall Q (dict_alter k f (dict_setdefault k v d)).
Proof.
  intros Hf. induction 1 as [|[k0 v0] d H0 Hd IH]; cbn.
  - rewrite String.eqb_refl. repeat constructor. apply Hf. now left.
  - destruct (String.eqb k0 k) eqn:E; cbn; rewrite E.
    + apply String.eqb_eq in E. subst k0. constructor; [|exact Hd].
      apply Hf. now right.
    + constructor; assumption.
Qed.

Section ProfileInvariants.

Variable json_loads : string -> loads_result.
Variable unquote : string -> string.
Variable fromisoformat : string -> option datetime.

(** A property of the profiles that filing a record keeps, on a profile
    that has it or is new, holds of every profile after every run. *)
Lemma profiles_after_run (P : string -> cluster_data -> Prop)
  (lines : list string) :
  (forall cid rd d,
      cid <> "kwok-system" ->
      filed_under (analyze_request_uri unquote) cid rd ->
      d = new_cluster \/ P cid d ->
      P cid (profile_update rd d)) ->
  Forall (fun p => P (fst p) (snd p))
    (clusters (snd (analyze_file json_loads unquote fromisoformat lines init))).
Proof.
  intros HP.
  apply (analyze_file_invariant json_loads unquote fromisoformat
           (fun st => Forall (fun p => P (fst p) (snd p)) (clusters st)));
    [|constructor].
  intros s s' Hs [Hc _ _ | name rd _ _ _ _ Hc _ _ | name rd Hu Hne Hi Hst Hc _ _];
    rewrite Hc; try exact Hs.
  apply Forall_alter_setdefault; [|exact Hs].
  intros x Hx. cbn [fst snd] in *. apply HP; try assumption.
  split; [now exists name | now split].
Qed.

Lemma path_count_app (p : string) (rs : list request_data) (rd : request_data) :
  path_count p (rs ++ [rd])
  = path_count p rs + (if String.eqb (base_path (rd_uri rd)) p then 1 else 0).
Proof.
  unfold path_count. rewrite List.filter_app, length_app. cbn [List.filter].
  now destruct (String.eqb _ p).
Qed.

(** After every run, completed or not, the [endpoints] counter of a profile
    counts, path by path, the requests the profile retains, and its keys are
    the paths (the URIs without their query) of these requests. *)
Theorem endpoints_count_requests (lines : list string) :
  Forall (fun p =>
            (forall path, default 0 (endpoints (snd p) !! path)
                          = path_count path (requests (snd p)))
            /\ (forall path, path ∈ endpoint_set (snd p)
                             <-> exists rd, In rd (requests (snd p))
                                            /\ base_path (rd_uri rd) = path))
    (clusters (snd (analyze_file json_loads unquote fromisoformat lines init))).
Proof.
  eapply Forall_impl.
  - apply (profiles_after_run
             (fun _ d =>
                (forall path, default 0 (endpoints d !! path)
                              = path_count path (requests d))
                /\ (forall path n, endpoints d !! path = Some n -> 0 < n))).
    intros cid rd d _ _ Hd. unfold profile_update.
    rewrite record_effect_requests, record_effect_endpoints.
    assert (Hold : (forall path, default 0 (endpoints d !! path)
                                 = path_count path (requests d))
                   /\ (forall path n, endpoints d !! path = Some n -> 0 < n)).
    { destruct Hd as [-> | Hd]; [|exact Hd]. split.
      - intros path. cbn. now rewrite lookup_empty.
      - intros path n. cbn. now rewrite lookup_empty. }
    destruct Hold as [H1 H2]. unfold counter_incr. split.
    + intros path. rewrite path_count_app, lookup_insert.
      destruct (decide (base_path (rd_uri rd) = path)) as [->|Hne].
      * rewrite String.eqb_refl. cbn. rewrite H1. lia.
      * apply String.eqb_neq in Hne. rewrite Hne, H1. lia.
    + intros path n. rewrite lookup_insert.
      destruct (decide (base_path (rd_uri rd) = path)).
      * intros [= <-]. lia.
      * apply H2.
  - intros [cid d] [H1 H2]. cbn [fst snd] in *. split; [exact H1|].
    intros path. unfold endpoint_set. rewrite elem_of_dom. split.
    + intros [n Hn]. specialize (H1 path). specialize (H2 path n Hn).
      rewrite Hn in H1. cbn in H1. unfold path_count in H1.
      destruct (List.filter _ (requests d)) as [|rd l] eqn:E; [cbn in H1; lia|].
      assert (Hin : In rd (List.filter
                (fun rd => String.eqb (base_path (rd_uri rd)) path) (requests d)))
        by (rewrite E; now left).
      apply List.filter_In in Hin as [Hin Hp]. apply String.eqb_eq in Hp.
      now exists rd.
    + intros [rd [Hin Hp]].
      assert (Hf : In rd (List.filter
                (fun rd => String.eqb (base_path (rd_uri rd)) path) (requests d))).
      { apply List.filter_In. split; [exact Hin | now apply String.eqb_eq]. }
      specialize (H1 path). unfold path_count in H1.
      destruct (endpoints d !! path) as [n|]; [eauto|].
      cbn in H1. destruct (List.filter _ (requests d)); [contradiction|].
      discriminate.
Qed.

(** After every run, completed or not, each record a profile retains was
    filed under the tenant its user name maps to, which is never the system
    sentinel; no profile is empty; and each system request comes from a user
    that maps to the system sentinel.  Every retained record is a completed
    request and carries the descriptor of its own URI. *)
Theorem records_filed_under_their_tenant (lines : list string) :
  Forall (fun p =>
            fst p <> "kwok-system"
            /\ requests (snd p) <> []
            /\ Forall (filed_under (analyze_request_uri unquote) (fst p))
                 (requests (snd p)))
    (clusters (snd (analyze_file json_loads unquote fromisoformat lines init)))
  /\ Forall (filed_under (analyze_request_uri unquote) "kwok-system")
       (system_requests
          (snd (analyze_file json_loads unquote fromisoformat lines init))).
Proof.
  split.
  - apply (profiles_after_run
             (fun cid d =>
                cid <> "kwok-system" /\ requests d <> []
                /\ Forall (filed_under (analyze_request_uri unquote) cid)
                     (requests d))).
    intros cid rd d Hcid Hrd Hd. unfold profile_update.
    rewrite record_effect_requests. split; [exact Hcid|]. split.
    + destruct (requests d); discriminate.
    + apply Forall_app. split; [|constructor; [exact Hrd | constructor]].
      destruct Hd as [-> | [_ [_ Hd]]]; [constructor | exact Hd].
  - apply (analyze_file_invariant json_loads unquote fromisoformat
             (fun st => Forall (filed_under (analyze_request_uri unquote)
                                  "kwok-system") (system_requests st)));
      [|constructor].
    intros s s' Hs [_ Hsys _ | name rd Hu Hid Hi Hst _ Hsys _ | name rd _ _ _ _ _ Hsys _];
      rewrite Hsys; try exact Hs.
    apply Forall_app. split; [exact Hs|]. constructor; [|constructor].
    split; [now exists name | now split].
Qed.

Lemma record_effect_watch_streams (uri : string) (verb : json)
  (info : resource_info) (ts : option datetime) (rd : request_data)
  (d : cluster_data) :
  watch_streams (record_effect uri verb info ts rd d)
  = if py_hashable verb && is_watch_request uri
    then watch_streams d ++ [rd] else watch_streams d.
Proof.
  unfold record_effect. destruct (py_hashable verb); [|reflexivity].
  cbn [andb].
  destruct ts as [t|];
    [rewrite (proj1 (proj2 (proj2 (proj2 (proj2 (seen_step_fields t _))))))|];
    destruct (namespace info) as [ns|]; [destruct (PyStr.is_empty ns)| |
      destruct (PyStr.is_empty ns)|];
    destruct (is_watch_request uri); reflexivity.
Qed.

Lemma record_effect_namespaces (uri : string) (verb : json)
  (info : resource_info) (ts : option datetime) (rd : request_data)
  (d : cluster_data) :
  namespaces_accessed (record_effect uri verb info ts rd d)
  = match namespace info with
    | Some ns =>
        if py_hashable verb && negb (PyStr.is_empty ns)
        then namespaces_accessed d ∪ {[ns]} else namespaces_accessed d
    | None => namespaces_accessed d
    end.
Proof.
  unfold record_effect. destruct (py_hashable verb).
  2:{ now destruct (namespace info). }
  cbn [andb].
  destruct ts as [t|];
    [rewrite (proj2 (proj2 (proj2 (proj2 (proj2 (seen_step_fields t _))))))|];
    destruct (namespace info) as [ns|]; [destruct (PyStr.is_empty ns)| |
      destruct (PyStr.is_empty ns)|];
    destruct (is_watch_request uri); reflexivity.
Qed.

(** After every run, completed or not, the watch streams of a profile are
    watch requests it retains, in the order they were retained, and every
    namespace in [namespaces_accessed] is the non-empty namespace of a
    request the profile retains. *)
Theorem watch_streams_and_namespaces_retained (lines : list string) :
  Forall (fun p =>
            sublist (watch_streams (snd p)) (watch_requests (requests (snd p)))
            /\ (forall ns, ns ∈ namespaces_accessed (snd p) ->
                  ns <> EmptyString
                  /\ exists rd, In rd (requests (snd p))
                                /\ namespace (rd_resource_info rd) = Some ns))
    (clusters (snd (analyze_file json_loads unquote fromisoformat lines init))).
Proof.
  apply (profiles_after_run
           (fun _ d =>
              sublist (watch_streams d) (watch_requests (requests d))
              /\ (forall ns, ns ∈ namespaces_accessed d ->
                    ns <> EmptyString
                    /\ exists rd, In rd (requests d)
                                  /\ namespace (rd_resource_info rd) = Some ns))).
  intros cid rd d _ _ Hd. unfold profile_update.
  rewrite record_effect_requests, record_effect_watch_streams,
    record_effect_namespaces.
  assert (Hold : sublist (watch_streams d) (watch_requests (requests d))
                 /\ (forall ns, ns ∈ namespaces_accessed d ->
                       ns <> EmptyString
                       /\ exists rd, In rd (requests d)
                                     /\ namespace (rd_resource_info rd) = Some ns)).
  { destruct Hd as [-> | Hd]; [|exact Hd]. split; [constructor|].
    intros ns Hns. cbn in Hns. set_solver. }
  destruct Hold as [H1 H2]. split.
  - unfold watch_requests. rewrite List.filter_app. cbn [List.filter].
    destruct (is_watch_request (rd_uri rd)).
    + destruct (py_hashable (rd_verb rd)); cbn [andb].
      * now apply sublist_app.
      * now apply sublist_inserts_r.
    + rewrite andb_false_r, app_nil_r. exact H1.
  - assert (Hkeep : forall ns, ns ∈ namespaces_accessed d ->
              ns <> EmptyString
              /\ exists rd0, In rd0 (requests d ++ [rd])
                             /\ namespace (rd_resource_info rd0) = Some ns).
    { intros ns Hns. destruct (H2 ns Hns) as [Hne [rd0 [Hin Hn]]].
      split; [exact Hne|]. exists rd0. split; [|exact Hn].
      apply in_or_app. now left. }
    destruct (namespace (rd_resource_info rd)) as [ns0|] eqn:E; [|exact Hkeep].
    destruct (py_hashable (rd_verb rd) && negb (PyStr.is_empty ns0)) eqn:Eb;
      [|exact Hkeep].
    intros ns Hns. apply elem_of_union in Hns as [Hns | Hns]; [now apply Hkeep|].
    apply elem_of_singleton in Hns. subst ns.
    apply andb_true_iff in Eb as [_ Eb]. split.
    + intros ->. discriminate.
    + exists rd. split; [|exact E]. apply in_or_app. right. now left.
Qed.

Lemma attributed_alter (cid : string) (f : cluster_data -> cluster_data)
  (cl : list (string * cluster_data)) :
  (forall d, length (requests (f d)) = S (length (requests d))) ->
  list_sum (map (fun p => length (requests (snd p)))
              (dict_alter cid f (dict_setdefault cid new_cluster cl)))
  = S (list_sum (map (fun p => length (requests (snd p))) cl)).
Proof.
  intros Hf. induction cl as [|[k0 v0] cl IH].
  - cbn. rewrite String.eqb_refl. cbn. rewrite Hf. reflexivity.
  - cbn [dict_setdefault]. destruct (String.eqb k0 cid) eqn:E;
      cbn [dict_alter]; rewrite E; cbn [map snd].
    + change (list_sum (?a :: ?l)) with (a + list_sum l).
      rewrite Hf. reflexivity.
    + change (list_sum (?a :: ?l)) with (a + list_sum l).
      rewrite IH.
      change (list_sum (?a :: ?l)) with (a + list_sum l). lia.
Qed.

Lemma analyze_file_total (lines : list string) (st : analyzer) :
  total_requests (snd (analyze_file json_loads unquote fromisoformat lines st))
  <= total_requests st + length lines.
Proof.
  revert st. induction lines as [|line rest IH]; intros st; [cbn; lia|].
  cbn [analyze_file length].
  destruct (parse_log_line json_loads line) as [entry|e];
    [rewrite bind_lift_Ok | rewrite bind_lift_Raise; cbn [snd]; lia].
  unfold bind. destruct (py_truthy entry).
  - pose proof (analyze_entry_step unquote fromisoformat entry st) as Hs.
    assert (Ht : total_requests (snd (analyze_entry unquote fromisoformat
                    entry st))
                 <= S (total_requests st)).
    { destruct Hs as [_ _ Ht | ? ? _ _ _ _ _ _ Ht | ? ? _ _ _ _ _ _ Ht]; lia. }
    destruct (analyze_entry unquote fromisoformat _ st) as [[[]|e] st'];
      cbn [snd] in *; [specialize (IH st')|]; lia.
  - unfold ret. specialize (IH st). lia.
Qed.

(** After every run, completed or not, [total_requests] is at most the
    number of lines read and at least the number of records retained, in the
    profiles and in the system requests together. *)
Theorem total_requests_bounds (lines : list string) :
  attributed (snd (analyze_file json_loads unquote fromisoformat lines init))
  <= total_requests (snd (analyze_file json_loads unquote fromisoformat lines init))
  /\ total_requests (snd (analyze_file json_loads unquote fromisoformat lines init))
     <= length lines.
Proof.
  split; [|apply (analyze_file_total lines init)].
  apply (analyze_file_invariant json_loads unquote fromisoformat
           (fun st => attributed st <= total_requests st)); [|cbn; lia].
  unfold attributed.
  intros s s' Hs [Hc Hsys Ht | name rd _ _ _ _ Hc Hsys Ht | name rd _ _ _ _ Hc Hsys Ht];
    rewrite Hc, Hsys.
  - lia.
  - rewrite length_app. cbn. lia.
  - rewrite attributed_alter; [lia|].
    intros d. unfold profile_update. rewrite record_effect_requests, length_app.
    cbn. lia.
Qed.

End ProfileInvariants.

(** ** One entry, one profile *)

Lemma keys_setdefault {V} (k : string) (v : V) (d : list (string * V)) :
  map fst (dict_setdefault k v d)
  = map fst d ++ (match dict_get k d with Some _ => [] | None => [k] end).
Proof.
  induction d as [|[k0 v0] d IH]; [reflexivity|]. cbn.
  destruct (String.eqb k0 k); cbn; [now rewrite app_nil_r | now rewrite IH].
Qed.

Section OneProfile.

Variable unquote : string -> string.
Variable fromisoformat : string -> option datetime.

Lemma analyze_entry_tenant_clusters (entry : json) (st : analyzer) :
  clusters (snd (analyze_entry unquote fromisoformat entry st)) = clusters st
  \/ exists cid f, entry_tenant entry = Some cid /\ cid <> "kwok-system"
       /\ clusters (snd (analyze_entry unquote fromisoformat entry st))
          = dict_alter cid f (dict_setdefault cid new_cluster (clusters st)).
Proof.
  unfold analyze_entry, entry_tenant.
  destruct (py_truthy entry); cbn [negb]; [|now left].
  destruct entry as [| | | | | |fields]; try (now left).
  cbn [py_get]. repeat mstep.
  destruct (stage_analyzed _); cbn [negb]; [|now left].
  destruct (extract_cluster_id _) as [cluster_id|e]; mstep; [|now left].
  destruct (analyze_request_uri_of _ _) as [[u info]|e]; mstep; [|now left].
  destruct (py_get _ "username" _) as [username|e]; mstep; [|now left].
  mstep.
  destruct (String.eqb cluster_id "kwok-system") eqn:E; [now left|].
  right. exists cluster_id.
  match goal with
  | |- context [record_request ?c ?u0 ?v ?i ?t ?r ?s0] =>
      destruct (record_request_effect c u0 v i t r s0) as [Hc _];
      exists (record_effect u0 v i t r)
  end.
  split; [reflexivity|]. split; [now apply String.eqb_neq | exact Hc].
Qed.

(** No cross-tenant interference: whatever the entry is and however
    [analyze_entry] exits, the profile of every tenant other than the one the
    entry's user maps to is left exactly as it was (or absent, if it was);
    no key of [clusters] is removed or reordered, and at most one key, the
    entry's tenant, is added, last. *)
Theorem analyze_entry_one_profile (entry : json) (st : analyzer) (c : string) :
  (entry_tenant entry <> Some c ->
   dict_get c (clusters (snd (analyze_entry unquote fromisoformat entry st)))
   = dict_get c (clusters st))
  /\ (map fst (clusters (snd (analyze_entry unquote fromisoformat entry st)))
      = map fst (clusters st)
      \/ exists cid, entry_tenant entry = Some cid
           /\ dict_get cid (clusters st) = None
           /\ map fst (clusters (snd (analyze_entry unquote fromisoformat entry st)))
              = map fst (clusters st) ++ [cid]).
Proof.
  destruct (analyze_entry_tenant_clusters entry st)
    as [-> | [cid [f [Ht [_ ->]]]]]; [split; [reflexivity | now left]|].
  split.
  - intros Hne. rewrite dict_get_alter, dict_get_setdefault.
    destruct (String.eqb cid c) eqn:E; [|reflexivity].
    apply String.eqb_eq in E. congruence.
  - rewrite dict_keys_alter, keys_setdefault.
    destruct (dict_get cid (clusters st)) eqn:E.
    + left. apply app_nil_r.
    + right. now exists cid.
Qed.

Lemma record_effect_resources (uri : string) (verb : json)
  (info : resource_info) (ts : option datetime) (rd : request_data)
  (d : cluster_data) :
  py_hashable verb = true ->
  resources (record_effect uri verb info ts rd d)
  = counter_incr (resource_key info) (resources d)
  /\ verbs (record_effect uri verb info ts rd d)
     = counter_incr_json verb (verbs d).
Proof.
  intros Hv. unfold record_effect. rewrite Hv.
  destruct ts as [t|];
    [rewrite (proj1 (proj2 (proj2 (proj2 (seen_step_fields t _))))),
       (proj1 (proj2 (proj2 (seen_step_fields t _))))|];
    destruct (namespace info) as [ns|]; [destruct (PyStr.is_empty ns)| |
      destruct (PyStr.is_empty ns)|];
    destruct (is_watch_request uri); split; reflexivity.
Qed.

(** The state [analyze_entry] leaves for a completed record of a user with
    the string name [name] and the string URI [uri]. *)
Lemma analyze_entry_completed (fields ufields : list (string * json))
  (name uri : string) (st : analyzer) :
  default (JObj []) (dict_get "user" fields) = JObj ufields ->
  default (JStr "") (dict_get "username" ufields) = JStr name ->
  default (JStr "") (dict_get "requestURI" fields) = JStr uri ->
  stage_analyzed (default (JStr "") (dict_get "stage" fields)) = true ->
  analyze_entry unquote fromisoformat (JObj fields) st
  = if String.eqb (cluster_id_of_username name) "kwok-system"
    then (Ok tt, append_system (request_of unquote fromisoformat fields name uri)
                   (incr_total st))
    else record_request (cluster_id_of_username name) uri
           (default (JStr "") (dict_get "verb" fields))
           (analyze_request_uri unquote uri)
           (parse_timestamp fromisoformat
              (default JNull (dict_get "requestReceivedTimestamp" fields)))
           (request_of unquote fromisoformat fields name uri)
           (incr_total st).
Proof.
  intros Huser Hname Huri Hstage. unfold analyze_entry.
  destruct fields as [|kv fields]; [discriminate|].
  cbn [py_truthy negb py_get]. repeat mstep.
  rewrite Hstage, Huser, Huri. cbn [negb].
  unfold extract_cluster_id. cbn [py_get]. rewrite Hname. mstep.
  cbn [analyze_request_uri_of]. repeat mstep.
  now destruct (String.eqb _ "kwok-system").
Qed.

(** A completed record of a system user is appended to [system_requests]
    and counted; [analyze_entry] returns, also when the verb is unhashable or
    the timestamp does not parse, and no profile is created or changed. *)
Theorem system_record_filed (fields ufields : list (string * json))
  (name uri : string) (st : analyzer) :
  default (JObj []) (dict_get "user" fields) = JObj ufields ->
  default (JStr "") (dict_get "username" ufields) = JStr name ->
  default (JStr "") (dict_get "requestURI" fields) = JStr uri ->
  stage_analyzed (default (JStr "") (dict_get "stage" fields)) = true ->
  cluster_id_of_username name = "kwok-system" ->
  fst (analyze_entry unquote fromisoformat (JObj fields) st) = Ok tt
  /\ system_requests (snd (analyze_entry unquote fromisoformat (JObj fields) st))
     = system_requests st ++ [request_of unquote fromisoformat fields name uri]
  /\ clusters (snd (analyze_entry unquote fromisoformat (JObj fields) st))
     = clusters st
  /\ total_requests (snd (analyze_entry unquote fromisoformat (JObj fields) st))
     = S (total_requests st).
Proof.
  intros Huser Hname Huri Hstage Hsys.
  rewrite (analyze_entry_completed fields ufields name uri st) by assumption.
  rewrite Hsys. repeat split.
Qed.

(** A completed record of a tenant (any user that does not map to the
    system sentinel) with a hashable verb changes the analyzer as follows:
    the record is appended to the tenant's [requests], the counters of its
    path, its verb and its resource key go up by one, its namespace is added
    when it is a non-empty string, it is appended to [watch_streams] exactly
    when the URI is a watch request, the total goes up by one, and the system
    requests stay as they are.  The profile is created when the tenant is
    new. *)
Theorem tenant_record_filed (fields ufields : list (string * json))
  (name uri : string) (st : analyzer) :
  default (JObj []) (dict_get "user" fields) = JObj ufields ->
  default (JStr "") (dict_get "username" ufields) = JStr name ->
  default (JStr "") (dict_get "requestURI" fields) = JStr uri ->
  stage_analyzed (default (JStr "") (dict_get "stage" fields)) = true ->
  py_hashable (default (JStr "") (dict_get "verb" fields)) = true ->
  cluster_id_of_username name <> "kwok-system" ->
  exists d',
    dict_get (cluster_id_of_username name)
      (clusters (snd (analyze_entry unquote fromisoformat (JObj fields) st)))
    = Some d'
    /\ requests d'
       = requests (default new_cluster
                     (dict_get (cluster_id_of_username name) (clusters st)))
         ++ [request_of unquote fromisoformat fields name uri]
    /\ endpoints d'
       = counter_incr (base_path uri)
           (endpoints (default new_cluster
                         (dict_get (cluster_id_of_username name) (clusters st))))
    /\ verbs d'
       = counter_incr_json (default (JStr "") (dict_get "verb" fields))
           (verbs (default new_cluster
                     (dict_get (cluster_id_of_username name) (clusters st))))
    /\ resources d'
       = counter_incr (resource_key (analyze_request_uri unquote uri))
           (resources (default new_cluster
                         (dict_get (cluster_id_of_username name) (clusters st))))
    /\ namespaces_accessed d'
       = match namespace (analyze_request_uri unquote uri) with
         | Some ns =>
             if negb (PyStr.is_empty ns)
             then namespaces_accessed
                    (default new_cluster
                       (dict_get (cluster_id_of_username name) (clusters st)))
                  ∪ {[ns]}
             else namespaces_accessed
                    (default new_cluster
                       (dict_get (cluster_id_of_username name) (clusters st)))
         | None => namespaces_accessed
                     (default new_cluster
                        (dict_get (cluster_id_of_username name) (clusters st)))
         end
    /\ watch_streams d'
       = (if is_watch_request uri
          then watch_streams
                 (default new_cluster
                    (dict_get (cluster_id_of_username name) (clusters st)))
               ++ [request_of unquote fromisoformat fields name uri]
          else watch_streams
                 (default new_cluster
                    (dict_get (cluster_id_of_username name) (clusters st))))
    /\ total_requests (snd (analyze_entry unquote fromisoformat (JObj fields) st))
       = S (total_requests st)
    /\ system_requests (snd (analyze_entry unquote fromisoformat (JObj fields) st))
       = system_requests st.
Proof.
  intros Huser Hname Huri Hstage Hverb Hne.
  rewrite (analyze_entry_completed fields ufields name uri st) by assumption.
  apply String.eqb_neq in Hne. rewrite Hne.
  match goal with
  | |- context [record_request ?c ?u0 ?v ?i ?t ?r ?s0] =>
      destruct (record_request_effect c u0 v i t r s0)
        as [Hc [Hs Ht]]
  end.
  rewrite Hc, Hs, Ht. cbn [clusters system_requests total_requests incr_total].
  rewrite dict_get_alter, String.eqb_refl, dict_get_setdefault, String.eqb_refl.
  eexists. split; [reflexivity|].
  rewrite record_effect_requests, record_effect_endpoints,
    record_effect_watch_streams, record_effect_namespaces, Hverb.
  destruct (record_effect_resources uri _ (analyze_request_uri unquote uri)
              (parse_timestamp fromisoformat
                 (default JNull (dict_get "requestReceivedTimestamp" fields)))
              (request_of unquote fromisoformat fields name uri)
              (default new_cluster
                 (dict_get (cluster_id_of_username name) (clusters st))) Hverb)
    as [Hr Hv].
  rewrite Hr, Hv. cbn [andb]. repeat split.
Qed.

(** The block under [if ts:] reads and writes the two ends of the range
    only. *)
Lemma seen_step_congr (ts : datetime) (d1 d2 : cluster_data) :
  first_seen d1 = first_seen d2 -> last_seen d1 = last_seen d2 ->
  first_seen (seen_step ts d1) = first_seen (seen_step ts d2)
  /\ last_seen (seen_step ts d1) = last_seen (seen_step ts d2).
Proof.
  destruct d1 as [r1 e1 v1 s1 w1 n1 f1 l1], d2 as [r2 e2 v2 s2 w2 n2 f2 l2].
  cbn [first_seen last_seen]. intros -> ->. unfold seen_step.
  cbn [first_seen last_seen set_first_seen set_last_seen].
  destruct f2 as [f|]; [destruct (dt_lt ts f) as [[|]|e]|];
    cbn [first_seen last_seen set_first_seen set_last_seen];
    try (destruct l2 as [l|]; [destruct (dt_lt l ts) as [[|]|e']|]);
    cbn [first_seen last_seen set_first_seen set_last_seen]; now split.
Qed.

(** The range after the block under [if ts:]: an empty range gets both ends
    set to [ts]; a range that can be compared with [ts] gets the earlier of
    [ts] and its first end and the later of [ts] and its last end; a range
    that cannot (one is naive, the other aware) is left as it was. *)
Lemma seen_step_range (ts : datetime) (d : cluster_data) :
  seen_ok d ->
  (first_seen d = None ->
   first_seen (seen_step ts d) = Some ts /\ last_seen (seen_step ts d) = Some ts)
  /\ (forall f l, first_seen d = Some f -> last_seen d = Some l ->
        if Bool.eqb (is_aware ts) (is_aware f)
        then first_seen (seen_step ts d)
             = Some (if (instant ts <? instant f)%Z then ts else f)
             /\ last_seen (seen_step ts d)
                = Some (if (instant l <? instant ts)%Z then ts else l)
        else first_seen (seen_step ts d) = Some f
             /\ last_seen (seen_step ts d) = Some l).
Proof.
  unfold seen_ok, seen_step, is_aware, dt_lt. intros Hok. split.
  - intros Ef. rewrite Ef in *.
    destruct (last_seen d) as [l|] eqn:El; [contradiction|].
    cbn [last_seen set_first_seen]. rewrite El. now split.
  - intros f l Ef El. rewrite Ef, El in *.
    destruct (utcoffset ts) eqn:Ets, (utcoffset f) eqn:Efo,
      (utcoffset l) eqn:Elo;
      try discriminate; cbn [Bool.eqb];
      try (split; [exact Ef | exact El]);
      destruct (instant ts <? instant f)%Z;
      cbn [first_seen last_seen set_first_seen set_last_seen];
      rewrite ?El, ?Elo, ?Ets;
      destruct (instant l <? instant ts)%Z;
      cbn [first_seen last_seen set_first_seen set_last_seen];
      split; first [reflexivity | assumption].
Qed.

Lemma record_effect_seen (uri : string) (verb : json) (info : resource_info)
  (ts : datetime) (rd : request_data) (d : cluster_data) :
  py_hashable verb = true ->
  first_seen (record_effect uri verb info (Some ts) rd d)
  = first_seen (seen_step ts d)
  /\ last_seen (record_effect uri verb info (Some ts) rd d)
     = last_seen (seen_step ts d).
Proof.
  intros Hv. unfold record_effect. rewrite Hv.
  apply seen_step_congr;
    destruct (namespace info) as [ns|]; [destruct (PyStr.is_empty ns)| |
      destruct (PyStr.is_empty ns)|];
    destruct (is_watch_request uri); reflexivity.
Qed.

(** The profile a key would be given by [self.clusters[key]] has a well-formed
    range when every profile of the state has one. *)
Lemma state_invariant_profile (st : analyzer) (cid : string) :
  state_invariant st ->
  seen_ok (default new_cluster (dict_get cid (clusters st))).
Proof.
  intros Hinv. destruct (dict_get cid (clusters st)) as [d|] eqn:E; [|exact I].
  apply dict_get_In in E. unfold state_invariant in Hinv.
  rewrite List.Forall_forall in Hinv. exact (proj2 (Hinv _ E)).
Qed.

(** C8: [analyze_entry] preserves the invariant of the aggregate state,
    however it exits: the system sentinel is never a key of [clusters], and
    in every profile [first_seen] and [last_seen] are both [None] or both set
    with [first_seen <= last_seen].  Every profile that existed is still
    there with its range at most widened.  The range is really updated: a
    completed record of a tenant, with a hashable verb and a timestamp that
    parses to [ts], leaves the tenant's profile with both ends equal to [ts]
    when its range was empty (or the profile new), and otherwise with the
    earlier of [ts] and the old [first_seen] and the later of [ts] and the
    old [last_seen]; when [ts] cannot be compared with the old range (one is
    naive, the other aware) the range stays as it was. *)
Theorem analyze_entry_preserves_invariant (entry : json) (st : analyzer) :
  state_invariant st ->
  state_invariant (snd (analyze_entry unquote fromisoformat entry st))
  /\ widened st (snd (analyze_entry unquote fromisoformat entry st))
  /\ (forall fields ufields name uri ts,
        entry = JObj fields ->
        default (JObj []) (dict_get "user" fields) = JObj ufields ->
        default (JStr "") (dict_get "username" ufields) = JStr name ->
        default (JStr "") (dict_get "requestURI" fields) = JStr uri ->
        stage_analyzed (default (JStr "") (dict_get "stage" fields)) = true ->
        py_hashable (default (JStr "") (dict_get "verb" fields)) = true ->
        cluster_id_of_username name <> "kwok-system" ->
        parse_timestamp fromisoformat
          (default JNull (dict_get "requestReceivedTimestamp" fields)) = Some ts ->
        exists d',
          dict_get (cluster_id_of_username name)
            (clusters (snd (analyze_entry unquote fromisoformat entry st)))
          = Some d'
          /\ (first_seen (default new_cluster
                            (dict_get (cluster_id_of_username name) (clusters st)))
              = None ->
              first_seen d' = Some ts /\ last_seen d' = Some ts)
          /\ (forall f l,
                first_seen (default new_cluster
                              (dict_get (cluster_id_of_username name) (clusters st)))
                = Some f ->
                last_seen (default new_cluster
                             (dict_get (cluster_id_of_username name) (clusters st)))
                = Some l ->
                if Bool.eqb (is_aware ts) (is_aware f)
                then first_seen d'
                     = Some (if (instant ts <? instant f)%Z then ts else f)
                     /\ last_seen d'
                        = Some (if (instant l <? instant ts)%Z then ts else l)
                else first_seen d' = Some f /\ last_seen d' = Some l)).
Proof.
  intros Hinv. split; [|split].
  - now apply analyze_entry_invariant.
  - apply analyze_entry_widened.
  - intros fields ufields name uri ts -> Huser Hname Huri Hstage Hverb Hne Hts.
    rewrite (analyze_entry_completed fields ufields name uri st) by assumption.
    apply String.eqb_neq in Hne. rewrite Hne, Hts.
    match goal with
    | |- context [record_request ?c ?u0 ?v ?i ?t ?r ?s0] =>
        destruct (record_request_effect c u0 v i t r s0) as [Hc _]
    end.
    rewrite Hc. cbn [clusters incr_total].
    rewrite dict_get_alter, String.eqb_refl, dict_get_setdefault, String.eqb_refl.
    eexists. split; [reflexivity|].
    match goal with
    | |- context [record_effect ?u0 ?v ?i (Some ts) ?r ?d0] =>
        destruct (record_effect_seen u0 v i ts r d0 Hverb) as [Hf Hl];
        rewrite Hf, Hl
    end.
    apply seen_step_range. now apply state_invariant_profile.
Qed.

End OneProfile.

(** ** Whole runs of [analyze_file] *)

Section FileFacts.

Variable json_loads : string -> loads_result.
Variable unquote : string -> string.
Variable fromisoformat : string -> option datetime.

(** A line that [json.loads] rejects is skipped: [parse_log_line] returns
    [None], nothing is counted or recorded for it, and [analyze_file] goes on
    with the next line. *)
Theorem undecodable_line_skipped (line : string) (rest : list string)
  (st : analyzer) :
  json_loads (PyStr.strip PyStr.isspace line) = JSONDecodeError ->
  parse_log_line json_loads line = Ok JNull
  /\ analyze_file json_loads unquote fromisoformat (line :: rest) st
     = analyze_file json_loads unquote fromisoformat rest st.
Proof.
  intros H. unfold analyze_file at 1, parse_log_line. rewrite H.
  split; reflexivity.
Qed.

(** A line on which [json.loads] raises anything but [json.JSONDecodeError]
    ends the run: [parse_log_line] lets the exception through, nothing is
    counted or recorded for the line, and the lines after it are not read. *)
Theorem loads_error_aborts (line : string) (rest : list string) (e : exn)
  (st : analyzer) :
  json_loads (PyStr.strip PyStr.isspace line) = LoadsError e ->
  parse_log_line json_loads line = Raise e
  /\ analyze_file json_loads unquote fromisoformat (line :: rest) st
     = (Raise e, st).
Proof.
  intros H. unfold analyze_file at 1, parse_log_line. rewrite H.
  split; reflexivity.
Qed.

Lemma analyze_entry_keys (entry : json) (st : analyzer) :
  NoDup (map fst (clusters st)) ->
  NoDup (map fst (clusters (snd (analyze_entry unquote fromisoformat entry st)))).
Proof.
  intros Hnd.
  destruct (analyze_entry_clusters unquote fromisoformat entry st)
    as [-> | [cid [g [_ [_ ->]]]]]; [exact Hnd|].
  rewrite dict_keys_alter. now apply dict_keys_setdefault_NoDup.
Qed.

Lemma analyze_file_preserves (lines : list string) (st : analyzer) :
  NoDup (map fst (clusters st)) -> state_invariant st ->
  NoDup (map fst (clusters (snd (analyze_file json_loads unquote fromisoformat lines st))))
  /\ state_invariant (snd (analyze_file json_loads unquote fromisoformat lines st)).
Proof.
  revert st. induction lines as [|line rest IH]; intros st Hnd Hinv; [now split|].
  cbn [analyze_file].
  destruct (parse_log_line json_loads line) as [entry|e];
    [rewrite bind_lift_Ok | now rewrite bind_lift_Raise].
  unfold bind. destruct (py_truthy entry).
  - pose proof (analyze_entry_keys entry st Hnd) as Hk.
    pose proof (analyze_entry_invariant unquote fromisoformat
                  entry st Hinv) as Hi.
    destruct (analyze_entry unquote fromisoformat _ st) as [[[]|e] st'];
      cbn [snd] in *; [now apply IH | now split].
  - unfold ret. now apply IH.
Qed.

(** Whatever the lines of the file are, and whether the run completes or
    raises, the state [analyze_file] leaves, starting from a fresh analyzer,
    has pairwise different keys in [clusters] and satisfies the invariant of
    the aggregate state. *)
Theorem analyze_file_state (lines : list string) :
  NoDup (map fst (clusters (snd (analyze_file json_loads unquote fromisoformat lines init))))
  /\ state_invariant (snd (analyze_file json_loads unquote fromisoformat lines init)).
Proof.
  apply analyze_file_preserves; constructor.
Qed.

End FileFacts.

(** ** Lookups in the query dictionary *)

Lemma dict_get_upsert {V} (k k' : string) (f : V -> V) (dflt : V)
  (d : list (string * V)) :
  dict_get k' (dict_upsert k f dflt d)
  = if String.eqb k k'
    then Some (match dict_get k d with Some v => f v | None => dflt end)
    else dict_get k' d.
Proof.
  induction d as [|[k0 v0] d IH]; cbn.
  - destruct (String.eqb k k'); reflexivity.
  - destruct (String.eqb k0 k) eqn:E; cbn.
    + apply String.eqb_eq in E. subst k0.
      destruct (String.eqb k k'); reflexivity.
    + rewrite IH. destruct (String.eqb k0 k') eqn:E'; [|reflexivity].
      apply String.eqb_eq in E'. subst k0.
      rewrite String.eqb_sym in E. now rewrite E.
Qed.

Lemma dict_keys_upsert {V} (k : string) (f : V -> V) (dflt : V)
  (d : list (string * V)) :
  map fst (dict_upsert k f dflt d)
  = map fst d ++ (match dict_get k d with Some _ => [] | None => [k] end).
Proof.
  induction d as [|[k0 v0] d IH]; [reflexivity|]. cbn.
  destruct (String.eqb k0 k) eqn:E; cbn.
  - now rewrite app_nil_r.
  - now rewrite IH.
Qed.

Lemma dict_get_None_keys {V} (k : string) (d : list (string * V)) :
  dict_get k d = None -> ~ In k (map fst d).
Proof.
  intros H Hin. destruct (dict_get_of_key k d Hin) as [v Hv]. congruence.
Qed.

Lemma parse_qs_fold (k : string) (pairs : list (string * string))
  (d : list (string * list string)) :
  dict_get k
    (fold_left (fun d '(name, value) =>
                  dict_upsert name (fun vs => vs ++ [value]) [value] d) pairs d)
  = match dict_get k d with
    | Some l => Some (l ++ values_of k pairs)
    | None => match values_of k pairs with
              | [] => None
              | vs => Some vs
              end
    end.
Proof.
  revert d. induction pairs as [|[name value] pairs IH]; intros d.
  - cbn. destruct (dict_get k d); [now rewrite app_nil_r | reflexivity].
  - cbn [fold_left]. rewrite IH, dict_get_upsert. unfold values_of.
    cbn [List.filter fst]. destruct (String.eqb name k) eqn:E.
    + apply String.eqb_eq in E. subst name. cbn [map snd].
      destruct (dict_get k d) as [l|]; [now rewrite <- app_assoc | reflexivity].
    + reflexivity.
Qed.

Lemma parse_qs_keys (pairs : list (string * string))
  (d : list (string * list string)) :
  List.NoDup (map fst d) ->
  List.NoDup (map fst
    (fold_left (fun d '(name, value) =>
                  dict_upsert name (fun vs => vs ++ [value]) [value] d) pairs d)).
Proof.
  revert d. induction pairs as [|[name value] pairs IH]; intros d Hd; [exact Hd|].
  cbn [fold_left]. apply IH. rewrite dict_keys_upsert.
  destruct (dict_get name d) eqn:E; [now rewrite app_nil_r|].
  apply List.NoDup_app; [exact Hd | repeat constructor; intros [] |].
  intros x Hx [<- | []]. now apply (dict_get_None_keys _ _ E).
Qed.

Lemma dict_get_flatten (k : string) (d : list (string * list string)) :
  dict_get k (flatten_single d)
  = (fun v => match v with [x] => QScalar x | _ => QList v end) <$> dict_get k d.
Proof.
  unfold flatten_single. induction d as [|[k0 v0] d IH]; [reflexivity|]. cbn.
  destruct (String.eqb k0 k); [reflexivity | exact IH].
Qed.

Lemma flatten_keys (d : list (string * list string)) :
  map fst (flatten_single d) = map fst d.
Proof.
  unfold flatten_single. induction d as [|[k0 v0] d IH]; [reflexivity|].
  cbn. now rewrite IH.
Qed.

Section QueryLookup.

Variable unquote : string -> string.

(** What [query_params] holds under a name: nothing when no field of the
    query string assigns it a value, the value itself when exactly one does,
    and the list of the values, in the order of the query string, when
    several do.  No name occurs twice among its keys. *)
Theorem query_params_lookup (uri k : string) :
  dict_get k (query_params (analyze_request_uri unquote uri))
  = match values_of k (parse_qsl unquote (query_string uri)) with
    | [] => None
    | [v] => Some (QScalar v)
    | vs => Some (QList vs)
    end
  /\ List.NoDup (map fst (query_params (analyze_request_uri unquote uri))).
Proof.
  cbn [analyze_request_uri set_query_params query_params].
  unfold parse_query. destruct (PyStr.has_char "?" uri) eqn:E.
  - fold (query_string uri). split.
    + rewrite dict_get_flatten. unfold parse_qs. rewrite parse_qs_fold.
      cbn [dict_get].
      now destruct (values_of k (parse_qsl unquote (query_string uri)))
        as [|v [|w vs]].
    + rewrite flatten_keys. apply parse_qs_keys. constructor.
  - split; [|constructor].
    unfold query_string. rewrite (PyStrFacts.split_no_sep "?" uri E).
    reflexivity.
Qed.

End QueryLookup.

(** ** The activity period *)

Section ActivityFacts.

Variable json_loads : string -> loads_result.
Variable unquote : string -> string.
Variable fromisoformat : string -> option datetime.

(** After every run, completed or not, the activity period that
    [print_summary] computes for a profile is defined whenever both ends are
    set: the subtraction does not raise, and the duration is not negative. *)
Theorem activity_duration_defined (lines : list string) :
  Forall (fun p =>
            activity_duration (snd p) = None
            \/ exists z, activity_duration (snd p) = Some (Ok z) /\ (0 <= z)%Z)
    (clusters (snd (analyze_file json_loads unquote fromisoformat lines init))).
Proof.
  destruct (analyze_file_preserves json_loads unquote fromisoformat lines init)
    as [_ Hinv]; [constructor | constructor |].
  eapply Forall_impl; [exact Hinv|].
  intros [cid d] [_ Hok]. cbn [snd] in *.
  unfold seen_ok in Hok. unfold activity_duration.
  destruct (first_seen d) as [f|], (last_seen d) as [l|];
    try contradiction; [|now left].
  right. exists (instant l - instant f)%Z. unfold dt_sub.
  unfold dt_lt in Hok.
  destruct (utcoffset l), (utcoffset f); try discriminate;
    injection Hok as Hok; apply Z.ltb_ge in Hok; split; try reflexivity; lia.
Qed.

End ActivityFacts.

(** ** The system counters *)

Lemma count_system_ok (reqs : list request_data)
  (acc : gmap string nat * list (json * nat)) :
  Forall (fun rd => py_hashable (rd_verb rd) = true) reqs ->
  exists e v,
    count_system reqs acc = Ok (e, v)
    /\ forall path, default 0 (e !! path)
                    = default 0 (fst acc !! path) + path_count path reqs.
Proof.
  revert acc. induction reqs as [|rd reqs IH]; intros [e0 v0] H.
  - exists e0, v0. split; [reflexivity|]. intros path. cbn. lia.
  - inversion H as [|? ? Hrd Hrest]; subst. cbn [count_system]. rewrite Hrd.
    destruct (IH (counter_incr (base_path (rd_uri rd)) e0,
                  counter_incr_json (rd_verb rd) v0) Hrest) as [e [v [He Hc]]].
    exists e, v. split; [exact He|]. intros path. rewrite Hc.
    cbn [fst]. unfold counter_incr, path_count. cbn [List.filter].
    rewrite lookup_insert.
    destruct (decide (base_path (rd_uri rd) = path)) as [->|Hne].
    + rewrite String.eqb_refl. cbn. lia.
    + apply String.eqb_neq in Hne. rewrite Hne. lia.
Qed.

Lemma count_system_raise (reqs : list request_data)
  (acc : gmap string nat * list (json * nat)) :
  Exists (fun rd => py_hashable (rd_verb rd) = false) reqs ->
  count_system reqs acc = Raise TypeError.
Proof.
  revert acc. induction reqs as [|rd reqs IH]; intros acc H.
  - inversion H.
  - cbn [count_system]. destruct (py_hashable (rd_verb rd)) eqn:E; [|reflexivity].
    apply IH. inversion H as [? ? Hrd | ? ? Hrest]; subst; [congruence | exact Hrest].
Qed.

(** The system counters of [print_summary] are computed only when there are
    system requests.  They raise [TypeError] as soon as one retained system
    request has an unhashable verb (a list or an object), which
    [analyze_entry] accepts without complaint; when every verb is hashable,
    the endpoint counter counts the system requests path by path. *)
Theorem system_counters_cases (st : analyzer) :
  (system_counters st = None <-> system_requests st = [])
  /\ (system_requests st <> [] ->
      Exists (fun rd => py_hashable (rd_verb rd) = false) (system_requests st) ->
      system_counters st = Some (Raise TypeError))
  /\ (system_requests st <> [] ->
      Forall (fun rd => py_hashable (rd_verb rd) = true) (system_requests st) ->
      exists e v,
        system_counters st = Some (Ok (e, v))
        /\ forall path, default 0 (e !! path)
                        = path_count path (system_requests st)).
Proof.
  unfold system_counters.
  destruct (system_requests st) as [|rd reqs] eqn:E.
  - split; [split; reflexivity|]. split; congruence.
  - split; [split; discriminate|]. split.
    + intros _ H. now rewrite (count_system_raise _ _ H).
    + intros _ H. destruct (count_system_ok (rd :: reqs) (∅, []) H)
        as [e [v [He Hc]]].
      exists e, v. split; [now rewrite He|].
      intros path. rewrite Hc. cbn [fst]. now rewrite lookup_empty.
Qed.

(** ** The properties at sample inputs *)

Lemma stage_filter_frame_witness :
  analyze_entry (fun s => s) sample_fromisoformat (JObj sample_received) init
  = (Ok tt, incr_total init)
  /\ total_requests (incr_total init) = S (total_requests init)
  /\ clusters (incr_total init) = clusters init
  /\ system_requests (incr_total init) = system_requests init
  /\ (attributed init <= total_requests init ->
      attributed (incr_total init) < total_requests (incr_total init)).
Proof.
  apply (stage_filter_frame (fun s => s) sample_fromisoformat sample_received init).
  - discriminate.
  - reflexivity.
Defined.

Lemma non_object_line_aborts_witness :
  analyze_file sample_loads (fun s => s) sample_fromisoformat
    [String "5" (String "010" EmptyString); "{}"] init
  = (Raise AttributeError, incr_total init).
Proof.
  apply (non_object_line_aborts sample_loads (fun s => s) sample_fromisoformat
           (String "5" (String "010" EmptyString)) ["{}"] (JInt 5) init).
  - reflexivity.
  - reflexivity.
  - discriminate.
Defined.

Lemma analyze_entry_preserves_invariant_witness :
  (exists d,
      dict_get "unknown" (clusters sample_seen) = Some d
      /\ first_seen d
         = Some {| instant := 1704067200000000; utcoffset := Some 0%Z |}
      /\ last_seen d
         = Some {| instant := 1704067200000000; utcoffset := Some 0%Z |})
  /\ state_invariant
       (snd (analyze_entry (fun s => s) sample_clock
               (JObj sample_later_fields) sample_seen))
  /\ widened sample_seen
       (snd (analyze_entry (fun s => s) sample_clock
               (JObj sample_later_fields) sample_seen))
  /\ exists d',
       dict_get "unknown"
         (clusters (snd (analyze_entry (fun s => s) sample_clock
                           (JObj sample_later_fields) sample_seen)))
       = Some d'
       /\ first_seen d'
          = Some {| instant := 1704067200000000; utcoffset := Some 0%Z |}
       /\ last_seen d'
          = Some {| instant := 1704153600000000; utcoffset := Some 0%Z |}.
Proof.
  split.
  { assert (Hinit : state_invariant init) by constructor.
    destruct (analyze_entry_preserves_invariant (fun s => s) sample_clock
                sample_completed init Hinit) as [_ [_ H3]].
    destruct (H3 sample_completed_fields [("username", JStr "alice")] "alice"
                "/api/v1/namespaces/foo/pods?watch=true"
                {| instant := 1704067200000000; utcoffset := Some 0%Z |}
                eq_refl eq_refl eq_refl eq_refl eq_refl eq_refl)
      as [d [Hd [Hfirst _]]]; [discriminate | reflexivity |].
    exists d. split; [exact Hd | exact (Hfirst eq_refl)]. }
  assert (Hinv : state_invariant sample_seen).
  { unfold state_invariant. vm_compute.
    constructor; [split; [discriminate | reflexivity] | constructor]. }
  destruct (analyze_entry_preserves_invariant (fun s => s) sample_clock
              (JObj sample_later_fields) sample_seen Hinv) as [H1 [H2 H3]].
  split; [exact H1 | split; [exact H2|]].
  destruct (H3 sample_later_fields [("username", JStr "alice")] "alice"
              "/api/v1/nodes"
              {| instant := 1704153600000000; utcoffset := Some 0%Z |}
              eq_refl eq_refl eq_refl eq_refl eq_refl eq_refl)
    as [d' [Hd [_ Hrange]]]; [discriminate | reflexivity |].
  exists d'. split; [exact Hd|].
  exact (Hrange {| instant := 1704067200000000; utcoffset := Some 0%Z |}
           {| instant := 1704067200000000; utcoffset := Some 0%Z |}
           eq_refl eq_refl).
Defined.

Lemma overlap_percent_accuracy_witness :
  close_to (overlap_percent 6 7) (exact_percent 6 7) = true.
Proof. apply (overlap_percent_accuracy 6 7); lia. Defined.

(** Two records whose verb is the decoded [NaN] are counted under one key. *)
Lemma nan_verb_counted_once :
  verbs <$> dict_get "unknown"
              (clusters
                 (snd (analyze_entry (fun s => s) sample_fromisoformat
                         (JObj sample_nan_fields)
                         (snd (analyze_entry (fun s => s) sample_fromisoformat
                                 (JObj sample_nan_fields) init)))))
  = Some [(JFloat FNan, 2)].
Proof. vm_compute. reflexivity. Qed.

Lemma endpoint_overlap_threshold_witness :
  List.filter (names_pair "rancher-a" "rancher-b") (detect_issues sample_overlap)
  = [EndpointIssue 0x1.56db6db6db6dbp+6%float "rancher-a" "rancher-b"]
  /\ float_value 0x1.56db6db6db6dbp+6%float
     = Some (6031606643799771 # 70368744177664)%Q
  /\ ((600 # 7) - (1 # 10000000000000) < 6031606643799771 # 70368744177664
      /\ 6031606643799771 # 70368744177664 < (600 # 7) + (1 # 10000000000000))%Q
  /\ issues sample_overlap
     = ["High endpoint overlap (85.7%) between rancher-a and rancher-b"].
Proof.
  assert (Hnd : NoDup (map fst (clusters sample_overlap))).
  { refine (bool_decide_unpack _ _). vm_compute. exact I. }
  assert (Hne : "rancher-a" <> "rancher-b") by discriminate.
  destruct (endpoint_overlap_threshold sample_overlap "rancher-a" "rancher-b"
              _ _ Hnd Hne eq_refl eq_refl) as [H _].
  destruct H as [_ [c1 [c2 [Hc [H _]]]]]; [vm_compute; lia|].
  split; [|split; [|split]].
  - rewrite H. destruct Hc as [[-> ->] | [-> ->]].
    + vm_compute. reflexivity.
    + vm_compute in H. discriminate H.
  - vm_compute. reflexivity.
  - split; reflexivity.
  - vm_compute. reflexivity.
Defined.

Lemma undecodable_line_skipped_witness :
  parse_log_line sample_loads "not json" = Ok JNull
  /\ analyze_file sample_loads (fun s => s) sample_fromisoformat
       ["not json"; "5"] init
     = analyze_file sample_loads (fun s => s) sample_fromisoformat ["5"] init.
Proof.
  apply (undecodable_line_skipped sample_loads (fun s => s) sample_fromisoformat
           "not json" ["5"] init).
  reflexivity.
Defined.

Lemma loads_error_aborts_witness :
  parse_log_line sample_loads (brackets 5000) = Raise RecursionError
  /\ analyze_file sample_loads (fun s => s) sample_fromisoformat
       [brackets 5000; "5"] init
     = (Raise RecursionError, init).
Proof.
  apply (loads_error_aborts sample_loads (fun s => s) sample_fromisoformat
           (brackets 5000) ["5"] RecursionError init).
  vm_compute. reflexivity.
Defined.

Lemma well_typed_record_completes_witness :
  fst (analyze_entry (fun s => s) sample_fromisoformat sample_completed init) = Ok tt
  /\ uniform_kind true
       (snd (analyze_entry (fun s => s) sample_fromisoformat sample_completed init)).
Proof.
  apply (well_typed_record_completes (fun s => s) sample_fromisoformat true
           sample_completed_fields [("username", JStr "alice")]
           "alice" "/api/v1/namespaces/foo/pods?watch=true" init).
  - reflexivity.
  - reflexivity.
  - reflexivity.
  - reflexivity.
  - intros t Ht. vm_compute in Ht. injection Ht as <-. reflexivity.
  - constructor.
Defined.

Lemma system_record_filed_witness :
  fst (analyze_entry (fun s => s) sample_fromisoformat
         (JObj sample_system_fields) init) = Ok tt
  /\ system_requests (snd (analyze_entry (fun s => s) sample_fromisoformat
                             (JObj sample_system_fields) init))
     = system_requests init
       ++ [request_of (fun s => s) sample_fromisoformat sample_system_fields
             "system:apiserver" "/api/v1/nodes"]
  /\ clusters (snd (analyze_entry (fun s => s) sample_fromisoformat
                      (JObj sample_system_fields) init))
     = clusters init
  /\ total_requests (snd (analyze_entry (fun s => s) sample_fromisoformat
                            (JObj sample_system_fields) init))
     = S (total_requests init).
Proof.
  apply (system_record_filed (fun s => s) sample_fromisoformat
           sample_system_fields [("username", JStr "system:apiserver")]
           "system:apiserver" "/api/v1/nodes" init); reflexivity.
Defined.

Lemma tenant_record_filed_witness :
  exists d',
    dict_get "unknown"
      (clusters (snd (analyze_entry (fun s => s) sample_fromisoformat
                        sample_completed init))) = Some d'
    /\ requests d'
       = [request_of (fun s => s) sample_fromisoformat sample_completed_fields
            "alice" "/api/v1/namespaces/foo/pods?watch=true"].
Proof.
  destruct (tenant_record_filed (fun s => s) sample_fromisoformat
              sample_completed_fields [("username", JStr "alice")]
              "alice" "/api/v1/namespaces/foo/pods?watch=true" init)
    as [d' [H1 [H2 _]]];
    try reflexivity; try discriminate.
  exists d'. split; [exact H1 | exact H2].
Defined.

Lemma no_issues_iff_isolated_witness :
  detect_issues sample_overlap = []
  <-> (forall ns, length (accessing_tenants ns (clusters sample_overlap)) <= 1)
      /\ (forall a b da db,
             a <> b ->
             dict_get a (clusters sample_overlap) = Some da ->
             dict_get b (clusters sample_overlap) = Some db ->
             size (endpoint_set da ∩ endpoint_set db) <= 5).
Proof.
  refine (proj1 (no_issues_iff_isolated sample_overlap _)).
  refine (bool_decide_unpack _ _). vm_compute. exact I.
Defined.

Lemma path_parts_of_segments_witness :
  path_parts "api/v1/pods" = ["api"; "v1"; "pods"]
  /\ path_parts "/api/v1/pods/" = ["api"; "v1"; "pods"]
  /\ path_parts "/api/v1/pods?watch=true" = ["api"; "v1"; "pods"]
  /\ set_query_params []
       (analyze_request_uri (fun s => s) "/api/v1/pods?watch=true")
     = set_query_params [] (analyze_request_uri (fun s => s) "api/v1/pods").
Proof.
  apply (path_parts_of_segments (fun s => s) ["api"; "v1"; "pods"] "watch=true").
  - discriminate.
  - repeat constructor.
  - discriminate.
  - discriminate.
Defined.

(** The sample system request has the verb [[]]: ingestion accepts it, the
    report raises on it. *)
Lemma system_counters_unhashable_verb :
  fst (analyze_entry (fun s => s) sample_fromisoformat
         (JObj sample_system_fields) init) = Ok tt
  /\ system_counters
       (snd (analyze_entry (fun s => s) sample_fromisoformat
               (JObj sample_system_fields) init))
     = Some (Raise TypeError).
Proof. split; reflexivity. Qed.
